(** * diff.c: the comparison driver of GNU diff (diffutils_color)

    A shallow embedding of [compare_files] and of the operand loop of
    [main] (src/diff.c), and the properties of the pair classifier and
    of the exit-status aggregation proved about them.

    The C function talks to the file system, to the formatted-output
    routines and to the two comparison engines ([diff_2_files],
    [diff_dirs]).  These calls are kept: each one is recorded as an
    [event] in a trace, and what it answers is read from a [world], a
    record of oracles.  A call that ends the process ([fatal],
    [pfatal_with_name], [die], a failed [assert]) ends the computation
    with the matching [outcome].

    The decoding of the options is embedded case by case: the obsolete
    -NUM, the context, the output style, -D and the defaults of the
    formats, the labels, the white space, the regular expressions, the
    width and the layout of the two columns, and [option_list]. *)

From Stdlib Require Import ZArith NArith List String Ascii Bool Lia.
Import ListNotations.

Set Warnings "-register-all".

Local Open Scope string_scope.
Local Open Scope list_scope.
Local Open Scope Z_scope.

(** ** Constants of the C environment *)

Definition EXIT_SUCCESS : Z := 0.
Definition EXIT_FAILURE : Z := 1.
Definition EXIT_TROUBLE : Z := 2.

Definition STDIN_FILENO : Z := 0.

Definition ENOENT : Z := 2.
Definition EBADF : Z := 9.

(** The markers kept in [cmp.file[f].desc] (diff.c, lines 1084-1089). *)
Definition NONEXISTENT : Z := -1.
Definition UNOPENED : Z := -2.
Definition ERRNO_ENCODE (errno : Z) : Z := -3 - errno.
Definition ERRNO_DECODE (desc : Z) : Z := -3 - desc.

(** File-type bits of [st_mode] (sys/stat.h). *)
Definition S_IFMT : Z := 61440.   (* 0170000 *)
Definition S_IFDIR : Z := 16384.  (* 0040000 *)
Definition S_IFREG : Z := 32768.  (* 0100000 *)
Definition S_IFLNK : Z := 40960.  (* 0120000 *)
Definition S_IRWXUGO : Z := 511.  (* S_IRWXU | S_IRWXG | S_IRWXO = 0777 *)

Definition S_ISDIR (m : Z) : bool := Z.land m S_IFMT =? S_IFDIR.
Definition S_ISREG (m : Z) : bool := Z.land m S_IFMT =? S_IFREG.
Definition S_ISLNK (m : Z) : bool := Z.land m S_IFMT =? S_IFLNK.

Definition nl : string := String (ascii_of_nat 10) EmptyString.

(** ** Data *)

(** The fields of [struct stat] that diff.c and the two identity macros
    read.  A size is never negative, whence [N]. *)
Record stat : Type := mk_stat {
  st_dev : Z;
  st_ino : Z;
  st_mode : Z;
  st_uid : Z;
  st_size : N;
  st_mtime : Z
}.

(** [memset (&st, 0, sizeof st)] *)
Definition zero_stat : stat := mk_stat 0 0 0 0 0%N 0.

Definition with_mode (s : stat) (m : Z) : stat :=
  mk_stat (st_dev s) (st_ino s) m (st_uid s) (st_size s) (st_mtime s).
Definition with_size (s : stat) (n : N) : stat :=
  mk_stat (st_dev s) (st_ino s) (st_mode s) (st_uid s) n (st_mtime s).
Definition with_mtime (s : stat) (t : Z) : stat :=
  mk_stat (st_dev s) (st_ino s) (st_mode s) (st_uid s) (st_size s) t.

(** Modelled from the spec: [same_file] is a macro of system.h, which is
    not among the sources; the spec describes it as the match of the
    device and inode identity of the two entities.  Its value is a C
    truth value. *)
Definition same_file (s t : stat) : Z :=
  Z.b2z ((st_ino s =? st_ino t) && (st_dev s =? st_dev t)).

(** Modelled from the spec: [same_file_attributes] is a macro of
    system.h, which is not among the sources; the spec describes it as
    the equality of mode, size and owner. *)
Definition same_file_attributes (s t : stat) : bool :=
  (st_mode s =? st_mode t) && (st_size s =? st_size t)%N
  && (st_uid s =? st_uid t).

(** Modelled from the spec: [file_name_cmp] is defined outside diff.c;
    the spec describes the test as textual equality of the two names.
    The value is 0 exactly for equal names. *)
Definition file_name_cmp (a b : string) : Z :=
  if String.eqb a b then 0 else 1.

(** [struct file_data], the fields [compare_files] uses. *)
Record file_data : Type := mk_file_data {
  name : string;
  desc : Z;
  stat_of : stat
}.

Definition set_name (fd : file_data) (n : string) : file_data :=
  mk_file_data n (desc fd) (stat_of fd).
Definition set_desc (fd : file_data) (d : Z) : file_data :=
  mk_file_data (name fd) d (stat_of fd).
Definition set_stat (fd : file_data) (s : stat) : file_data :=
  mk_file_data (name fd) (desc fd) s.

(** [struct comparison]: the two files and the enclosing comparison. *)
Inductive comparison : Type := mk_comparison {
  file0 : file_data;
  file1 : file_data;
  parent : option comparison
}.

(** [cmp.file[f]]; the index 0 is [false], the index 1 is [true], so
    that [1 - f] is [negb f] and a C truth value indexes directly. *)
Definition file (c : comparison) (f : bool) : file_data :=
  if f then file1 c else file0 c.

Definition set_file (c : comparison) (f : bool) (fd : file_data) : comparison :=
  if f then mk_comparison (file0 c) fd (parent c)
  else mk_comparison fd (file1 c) (parent c).

Definition mode (c : comparison) (f : bool) : Z := st_mode (stat_of (file c f)).

(** [#define DIR_P(f) (S_ISDIR (cmp.file[f].stat.st_mode) != 0)] *)
Definition DIR_P (c : comparison) (f : bool) : bool := S_ISDIR (mode c f).

Definition is_some {A : Type} (x : option A) : bool :=
  match x with Some _ => true | None => false end.

(** ** Configuration: the globals set by option decoding *)

Inductive output_style_t : Type :=
| OUTPUT_UNSPECIFIED | OUTPUT_NORMAL | OUTPUT_CONTEXT | OUTPUT_UNIFIED
| OUTPUT_ED | OUTPUT_FORWARD_ED | OUTPUT_RCS | OUTPUT_IFDEF | OUTPUT_SDIFF.

Definition is_OUTPUT_IFDEF (s : output_style_t) : bool :=
  match s with OUTPUT_IFDEF => true | _ => false end.
Definition is_OUTPUT_SDIFF (s : output_style_t) : bool :=
  match s with OUTPUT_SDIFF => true | _ => false end.

Record options : Type := mk_options {
  recursive : bool;
  new_file : bool;
  unidirectional_new_file : bool;
  report_identical_files : bool;
  no_dereference_symlinks : bool;
  binary : bool;
  brief : bool;
  ignore_blank_lines : bool;
  ignore_case : bool;
  strip_trailing_cr : bool;
  ignore_regexps : option string;     (* ignore_regexp_list.regexps *)
  ignore_white_space : Z;             (* 0 is IGNORE_NO_WHITE_SPACE *)
  suppress_common_lines : bool;
  output_style : output_style_t;
  group_format_UNCHANGED : option string;
  line_format_UNCHANGED : option string;
  file_label0 : option string;
  file_label1 : option string;
  from_file : option string;
  to_file : option string
}.

Definition file_label (o : options) (f : bool) : option string :=
  if f then file_label1 o else file_label0 o.

Definition or_default (x : option string) (d : string) : string :=
  match x with Some s => s | None => d end.

(** diff.c, lines 740-745, with the defaults that lines 723-734 give to
    the two format strings it reads when the style is OUTPUT_IFDEF. *)
Definition no_diff_means_no_output (o : options) : bool :=
  if is_OUTPUT_IFDEF (output_style o) then
    let group_unchanged := or_default (group_format_UNCHANGED o) "%=" in
    let line_unchanged :=
      or_default (line_format_UNCHANGED o) ("%l" ++ nl)%string in
    String.eqb group_unchanged ""
    || (String.eqb group_unchanged "%=" && String.eqb line_unchanged "")
  else negb (is_OUTPUT_SDIFF (output_style o)) || suppress_common_lines o.

(** diff.c, lines 747-750: the C expression is bitwise,
    [brief & binary & ~(... | (regexps || ignore_white_space))]. *)
Definition files_can_be_treated_as_binary_bits (o : options) : Z :=
  Z.land (Z.land (Z.b2z (brief o)) (Z.b2z (binary o)))
    (Z.lnot
       (Z.lor
          (Z.lor (Z.lor (Z.b2z (ignore_blank_lines o)) (Z.b2z (ignore_case o)))
             (Z.b2z (strip_trailing_cr o)))
          (Z.b2z (is_some (ignore_regexps o)
                  || negb (ignore_white_space o =? 0))))).

Definition files_can_be_treated_as_binary (o : options) : bool :=
  negb (files_can_be_treated_as_binary_bits o =? 0).

(** ** The outside world *)

(** What a system call answers: a value, or -1 with [errno] set. *)
Inductive sys_result (A : Type) : Type :=
| Ok (a : A)
| Err (errno : positive).
Arguments Ok {A} a.
Arguments Err {A} errno.

(** The value of EXIT_SUCCESS, EXIT_FAILURE or EXIT_TROUBLE that the
    comparison engines return. *)
Inductive engine_status : Type := engine_same | engine_differ | engine_trouble.

Definition status_of_engine (s : engine_status) : Z :=
  match s with
  | engine_same => EXIT_SUCCESS
  | engine_differ => EXIT_FAILURE
  | engine_trouble => EXIT_TROUBLE
  end.

(** How a computation ends. *)
Inductive outcome (A : Type) : Type :=
| Returned (a : A)
| Fatal (msg : string)     (* fatal, pfatal_with_name, die (EXIT_TROUBLE) *)
| Crashed (why : string).  (* a failed assert, a null pointer used *)
Arguments Returned {A} a.
Arguments Fatal {A} msg.
Arguments Crashed {A} why.

Record world : Type := mk_world {
  sys_stat : string -> sys_result stat;
  sys_lstat : string -> sys_result stat;
  sys_fstat_stdin : sys_result stat;
  sys_lseek_stdin : sys_result N;       (* lseek (STDIN_FILENO, 0, SEEK_CUR) *)
  sys_isatty_stdin : bool;
  sys_gettime : Z;
  sys_xreadlink : string -> sys_result string;
  sys_open : string -> sys_result N;
  sys_close : Z -> sys_result unit;
  sys_fflush_stdout : sys_result unit;
  sys_ferror_stdout : bool;
  sys_fclose_stdout : sys_result unit;
  (* helpers of gnulib and of dir.c and util.c *)
  file_name_concat : string -> string -> string;
  last_component : string -> string;
  file_type : stat -> string;
  find_dir_file_pathname : string -> string -> string;
  (* the two engines *)
  diff_2_files : comparison -> outcome engine_status;
  diff_dirs : comparison -> outcome engine_status
}.

(** What [compare_files] and [main] do that can be observed. *)
Inductive event : Type :=
| ev_message (format : string) (args : list string)   (* message, message5 *)
| ev_perror_with_name (nm : string) (errno : Z)
| ev_error (format : string) (arg : option string)    (* error (0, 0, ...) *)
| ev_set_binary_mode_stdin
| ev_fstat_stdin
| ev_lseek_stdin
| ev_gettime
| ev_stat (nm : string)
| ev_lstat (nm : string)
| ev_find_dir_file_pathname (dir nm : string)
| ev_xreadlink (nm : string)
| ev_open (nm : string)
| ev_close (fd : Z)
| ev_diff_2_files (c : comparison)
| ev_diff_dirs (c : comparison)
| ev_fflush_stdout
| ev_print_message_queue
| ev_ferror_stdout
| ev_fclose_stdout.

(** ** A trace-and-termination monad *)

Definition M (A : Type) : Type := (list event * outcome A)%type.

Definition ret {A : Type} (a : A) : M A := ([], Returned a).

Definition bind {A B : Type} (m : M A) (k : A -> M B) : M B :=
  match m with
  | (t, Returned a) => let (t', r) := k a in (t ++ t', r)
  | (t, Fatal msg) => (t, Fatal msg)
  | (t, Crashed why) => (t, Crashed why)
  end.

Definition emit (e : event) : M unit := ([e], Returned tt).
Definition fatal {A : Type} (msg : string) : M A := ([], Fatal msg).
Definition crash {A : Type} (why : string) : M A := ([], Crashed why).

Notation "x <- m ;; k" := (bind m (fun x => k))
  (at level 61, m at next level, right associativity).
Notation "' pat <- m ;; k" := (bind m (fun x => match x with pat => k end))
  (at level 61, pat pattern, m at next level, right associativity).
Notation "m ;;; k" := (bind m (fun _ => k))
  (at level 61, right associativity).

Definition when (b : bool) (m : M unit) : M unit := if b then m else ret tt.

Definition message (format : string) (args : list string) : M unit :=
  emit (ev_message format args).

Definition perror_with_name (nm : string) (errno : Z) : M unit :=
  emit (ev_perror_with_name nm errno).

(** [assert (b)] *)
Definition assert (b : bool) (what : string) : M unit :=
  if b then ret tt else crash what.

Definition pfatal_with_name {A : Type} (nm : string) (errno : Z) : M A :=
  fatal nm.

(** The engines end the process themselves when they meet a fatal
    error; otherwise their value is one of the three exit values. *)
Definition engine_result (r : outcome engine_status) : M Z :=
  match r with
  | Returned s => ret (status_of_engine s)
  | Fatal msg => fatal msg
  | Crashed why => crash why
  end.

(** ** compare_files (diff.c, lines 1051-1381) *)

(** What resolution leaves for the classification: the comparison, the
    status so far and the local [name0] (after line 1097). *)
Record resolved : Type := mk_resolved {
  r_cmp : comparison;
  r_status : Z;
  r_name0 : string
}.

Section CompareFiles.

Variable w : world.
Variable o : options.

Definition label_or_name (c : comparison) (f : bool) : string :=
  match file_label o f with
  | Some l => l
  | None => name (file c f)
  end.

(** Lines 1067-1069: the file exists in one directory only and is not
    to be taken as empty on the other side. *)
Definition only_in_one_directory (name0 name1 : option string) : bool :=
  negb ((is_some name0 && is_some name1)
        || (unidirectional_new_file o && is_some name1)
        || new_file o).

(** Lines 1070-1078. *)
Definition report_only_in (parent : option comparison)
    (name0 name1 : option string) : M Z :=
  let nm := match name0 with Some n => Some n | None => name1 end in
  match parent, nm with
  | Some p, Some n =>
      let dir := name (file p (negb (is_some name0))) in
      message ("Only in %s: %s" ++ nl) [dir; n] ;;;
      ret EXIT_FAILURE
  | _, _ => crash "null pointer"
  end.

(** Lines 1081-1111.  Neither caller passes two null names. *)
Definition init_comparison (parent : option comparison)
    (name0 name1 : option string) : M (comparison * string) :=
  let desc0 := if is_some name0 then UNOPENED else NONEXISTENT in
  let desc1 := if is_some name1 then UNOPENED else NONEXISTENT in
  let name0 := match name0 with Some n => Some n | None => name1 end in
  let name1 := match name1 with Some n => Some n | None => name0 end in
  match name0, name1 with
  | Some n0, Some n1 =>
      let full0 := match parent with
                   | None => n0
                   | Some p => file_name_concat w (name (file0 p)) n0
                   end in
      let full1 := match parent with
                   | None => n1
                   | Some p => file_name_concat w (name (file1 p)) n1
                   end in
      ret (mk_comparison (mk_file_data full0 desc0 zero_stat)
                         (mk_file_data full1 desc1 zero_stat) parent, n0)
  | _, _ => crash "null pointer"
  end.

(** [no_dereference_symlinks ? lstat (name, &st) : stat (name, &st)] *)
Definition stat_or_lstat (nm : string) : M (sys_result stat) :=
  if no_dereference_symlinks o
  then emit (ev_lstat nm) ;;; ret (sys_lstat w nm)
  else emit (ev_stat nm) ;;; ret (sys_stat w nm).

(** Lines 1121-1139: the file is standard input. *)
Definition stat_stdin (fd : file_data) : M file_data :=
  let fd := set_desc fd STDIN_FILENO in
  when (binary o && negb (sys_isatty_stdin w))
    (emit ev_set_binary_mode_stdin) ;;;
  emit ev_fstat_stdin ;;;
  match sys_fstat_stdin w with
  | Err e => ret (set_desc fd (ERRNO_ENCODE (Zpos e)))
  | Ok st =>
      let fd := set_stat fd st in
      fd <- (if S_ISREG (st_mode st) then
               emit ev_lseek_stdin ;;;
               match sys_lseek_stdin w with
               | Err e => ret (set_desc fd (ERRNO_ENCODE (Zpos e)))
               | Ok pos =>
                   let left := Z.of_N (st_size st) - Z.of_N pos in
                   ret (set_stat fd (with_size st (Z.to_N (Z.max 0 left))))
               end
             else ret fd) ;;
      emit ev_gettime ;;;
      ret (set_stat fd (with_mtime (stat_of fd) (sys_gettime w)))
  end.

(** Lines 1116-1145: one turn of the loop that stats the files. *)
Definition stat_slot (f : bool) (c : comparison) : M comparison :=
  let fd := file c f in
  if desc fd =? NONEXISTENT then ret c
  else if f && (file_name_cmp (name fd) (name (file0 c)) =? 0) then
    ret (set_file c f (set_stat (set_desc fd (desc (file0 c)))
                                (stat_of (file0 c))))
  else if String.eqb (name fd) "-" then
    fd' <- stat_stdin fd ;;
    ret (set_file c f fd')
  else
    r <- stat_or_lstat (name fd) ;;
    match r with
    | Ok st => ret (set_file c f (set_stat fd st))
    | Err e => ret (set_file c f (set_desc fd (ERRNO_ENCODE (Zpos e))))
    end.

Definition stat_files (c : comparison) : M comparison :=
  c <- stat_slot false c ;;
  stat_slot true c.

(** Lines 1154-1163: the file stands for a nonexistent one. *)
Definition stands_for_nonexistent (c : comparison) (f : bool) : bool :=
  (new_file o || (negb f && unidirectional_new_file o))
  && (if desc (file c f) =? UNOPENED
      then S_ISREG (mode c f)
           && (Z.land (mode c f) S_IRWXUGO =? 0)
           && (st_size (stat_of (file c f)) =? 0)%N
      else ((desc (file c f) =? ERRNO_ENCODE ENOENT)
            || (desc (file c f) =? ERRNO_ENCODE EBADF))
           && negb (is_some (parent c))
           && ((desc (file c (negb f)) =? UNOPENED)
               || (desc (file c (negb f)) =? STDIN_FILENO))).

Definition mark_nonexistent (c : comparison) (f : bool) : comparison :=
  if stands_for_nonexistent c f
  then set_file c f (set_desc (file c f) NONEXISTENT)
  else c.

(** Lines 1166-1170. *)
Definition clear_nonexistent (c : comparison) (f : bool) : comparison :=
  if desc (file c f) =? NONEXISTENT
  then set_file c f
         (set_stat (file c f) (with_mode zero_stat (mode c (negb f))))
  else c.

(** Lines 1148-1170: both loops, each over f = 0, 1. *)
Definition settle_nonexistent (c : comparison) : comparison :=
  let c := mark_nonexistent (mark_nonexistent c false) true in
  clear_nonexistent (clear_nonexistent c false) true.

(** Lines 1172-1179: one turn of the loop that reports the errors. *)
Definition report_slot_error (c : comparison) (f : bool) (status : Z) : M Z :=
  let e := ERRNO_DECODE (desc (file c f)) in
  if 0 <=? e then
    perror_with_name (name (file c f)) e ;;;
    ret EXIT_TROUBLE
  else ret status.

Definition report_errors (c : comparison) : M Z :=
  status <- report_slot_error c false EXIT_SUCCESS ;;
  report_slot_error c true status.

(** Lines 1181-1202: a directory named on the command line against a
    file. *)
Definition use_file_in_directory (c : comparison) (status : Z)
    : M (comparison * Z) :=
  if (status =? EXIT_SUCCESS) && negb (is_some (parent c))
     && negb (Bool.eqb (DIR_P c false) (DIR_P c true))
  then
    let fnm_arg := DIR_P c false in
    let dir_arg := negb fnm_arg in
    let fnm := name (file c fnm_arg) in
    let dir := name (file c dir_arg) in
    emit (ev_find_dir_file_pathname dir (last_component w fnm)) ;;;
    let filename := find_dir_file_pathname w dir (last_component w fnm) in
    let c := set_file c dir_arg (set_name (file c dir_arg) filename) in
    (if String.eqb fnm "-" then fatal "cannot compare '-' to a directory"
     else ret tt) ;;;
    r <- stat_or_lstat filename ;;
    match r with
    | Ok st => ret (set_file c dir_arg (set_stat (file c dir_arg) st), status)
    | Err e =>
        perror_with_name filename (Zpos e) ;;;
        ret (c, EXIT_TROUBLE)
    end
  else ret (c, status).

(** Lines 1081-1202. *)
Definition resolve (parent : option comparison)
    (name0 name1 : option string) : M resolved :=
  cn <- init_comparison parent name0 name1 ;;
  c <- stat_files (fst cn) ;;
  let c := settle_nonexistent c in
  status <- report_errors c ;;
  cs <- use_file_in_directory c status ;;
  ret (mk_resolved (fst cs) (snd cs) (snd cn)).

(** Lines 1209-1214. *)
Definition same_files (c : comparison) : bool :=
  negb (desc (file0 c) =? NONEXISTENT)
  && negb (desc (file1 c) =? NONEXISTENT)
  && (0 <? same_file (stat_of (file0 c)) (stat_of (file1 c)))
  && same_file_attributes (stat_of (file0 c)) (stat_of (file1 c)).

Definition regular_or_link (c : comparison) (f : bool) : bool :=
  S_ISREG (mode c f) || S_ISLNK (mode c f).

(** Lines 1232-1237. *)
Definition not_to_be_compared (c : comparison) : bool :=
  (DIR_P c false || DIR_P c true)
  || (is_some (parent c)
      && negb (regular_or_link c false && regular_or_link c true)).

(** Lines 1241-1245. *)
Definition missing_subtree_is_empty (c : comparison) : bool :=
  (DIR_P c false || DIR_P c true)
  && recursive o
  && (new_file o
      || (unidirectional_new_file o && (desc (file0 c) =? NONEXISTENT))).

(** Lines 1313-1318. *)
Definition quick_binary_differ (c : comparison) : bool :=
  files_can_be_treated_as_binary o
  && S_ISREG (mode c false)
  && S_ISREG (mode c true)
  && negb (st_size (stat_of (file0 c)) =? st_size (stat_of (file1 c)))%N
  && (0 <? st_size (stat_of (file0 c)))%N
  && (0 <? st_size (stat_of (file1 c)))%N.

(** Lines 1263-1267 and 1304-1308. *)
Definition report_file_types (c : comparison) : M unit :=
  message ("File %s is a %s while file %s is a %s" ++ nl)
    [label_or_name c false; file_type w (stat_of (file0 c));
     label_or_name c true; file_type w (stat_of (file1 c))].

Definition call_diff_dirs (c : comparison) : M Z :=
  emit (ev_diff_dirs c) ;;;
  engine_result (diff_dirs w c).

(** Lines 1274-1312: one side at least is a symbolic link. *)
Definition compare_symlinks (c : comparison) : M Z :=
  assert (no_dereference_symlinks o) "no_dereference_symlinks" ;;;
  if S_ISLNK (mode c false) && S_ISLNK (mode c true) then
    emit (ev_xreadlink (name (file0 c))) ;;;
    match sys_xreadlink w (name (file0 c)) with
    | Err e =>
        perror_with_name (name (file0 c)) (Zpos e) ;;;
        ret EXIT_TROUBLE
    | Ok link_value0 =>
        emit (ev_xreadlink (name (file1 c))) ;;;
        match sys_xreadlink w (name (file1 c)) with
        | Err e =>
            perror_with_name (name (file1 c)) (Zpos e) ;;;
            ret EXIT_TROUBLE
        | Ok link_value1 =>
            if negb (String.eqb link_value0 link_value1) then
              message ("Symbolic links %s and %s differ" ++ nl)
                [name (file0 c); name (file1 c)] ;;;
              ret EXIT_FAILURE
            else ret EXIT_SUCCESS
        end
    end
  else
    report_file_types c ;;;
    ret EXIT_FAILURE.

(** Lines 1330-1342: [open] of one file; a failed open leaves -1 in
    [desc]. *)
Definition open_slot (c : comparison) (f : bool) (status : Z)
    : M (comparison * Z) :=
  emit (ev_open (name (file c f))) ;;;
  match sys_open w (name (file c f)) with
  | Ok fd => ret (set_file c f (set_desc (file c f) (Z.of_N fd)), status)
  | Err e =>
      perror_with_name (name (file c f)) (Zpos e) ;;;
      ret (set_file c f (set_desc (file c f) (-1)), EXIT_TROUBLE)
  end.

(** Lines 1351-1359: [close] of one descriptor. *)
Definition close_slot (c : comparison) (f : bool) (status : Z) : M Z :=
  emit (ev_close (desc (file c f))) ;;;
  match sys_close w (desc (file c f)) with
  | Ok _ => ret status
  | Err e =>
      perror_with_name (name (file c f)) (Zpos e) ;;;
      ret EXIT_TROUBLE
  end.

(** Lines 1324-1359: both exist and neither is a directory. *)
Definition compare_contents (c : comparison) (same : bool)
    : M (comparison * Z) :=
  cs <- (if desc (file0 c) =? UNOPENED
         then open_slot c false EXIT_SUCCESS
         else ret (c, EXIT_SUCCESS)) ;;
  cs <- (if desc (file1 (fst cs)) =? UNOPENED then
           if same
           then ret (set_file (fst cs) true
                       (set_desc (file1 (fst cs)) (desc (file0 (fst cs)))),
                     snd cs)
           else open_slot (fst cs) true (snd cs)
         else ret cs) ;;
  let c := fst cs in
  status <- (if snd cs =? EXIT_SUCCESS
             then emit (ev_diff_2_files c) ;;; engine_result (diff_2_files w c)
             else ret (snd cs)) ;;
  status <- (if 0 <=? desc (file0 c)
             then close_slot c false status
             else ret status) ;;
  status <- (if (0 <=? desc (file1 c))
                && negb (desc (file0 c) =? desc (file1 c))
             then close_slot c true status
             else ret status) ;;
  ret (c, status).

(** Lines 1204-1360: the chain of cases. *)
Definition classify (c : comparison) (status : Z) (name0 : string)
    : M (comparison * Z) :=
  if negb (status =? EXIT_SUCCESS) then ret (c, status)
  else if (desc (file0 c) =? NONEXISTENT) && (desc (file1 c) =? NONEXISTENT)
  then ret (c, status)
  else if same_files c && no_diff_means_no_output o then ret (c, status)
  else if DIR_P c false && DIR_P c true then
    (if is_OUTPUT_IFDEF (output_style o)
     then fatal "-D option not supported with directories"
     else ret tt) ;;;
    if is_some (parent c) && negb (recursive o) then
      message ("Common subdirectories: %s and %s" ++ nl)
        [name (file0 c); name (file1 c)] ;;;
      ret (c, status)
    else
      s <- call_diff_dirs c ;;
      ret (c, s)
  else if not_to_be_compared c then
    if (desc (file0 c) =? NONEXISTENT) || (desc (file1 c) =? NONEXISTENT) then
      if missing_subtree_is_empty c then
        s <- call_diff_dirs c ;;
        ret (c, s)
      else
        match parent c with
        | None => crash "assert (parent)"
        | Some p =>
            message ("Only in %s: %s" ++ nl)
              [name (file p (desc (file0 c) =? NONEXISTENT)); name0] ;;;
            ret (c, EXIT_FAILURE)
        end
    else
      report_file_types c ;;;
      ret (c, EXIT_FAILURE)
  else if S_ISLNK (mode c false) || S_ISLNK (mode c true) then
    s <- compare_symlinks c ;;
    ret (c, s)
  else if quick_binary_differ c then
    message ("Files %s and %s differ" ++ nl)
      [label_or_name c false; label_or_name c true] ;;;
    ret (c, EXIT_FAILURE)
  else compare_contents c (same_files c).

(** Lines 1365-1380. *)
Definition finish (c : comparison) (status : Z) : M Z :=
  (if status =? EXIT_SUCCESS then
     when (report_identical_files o && negb (DIR_P c false))
       (message ("Files %s and %s are identical" ++ nl)
          [label_or_name c false; label_or_name c true])
   else
     emit ev_fflush_stdout ;;;
     match sys_fflush_stdout w with
     | Ok _ => ret tt
     | Err e => pfatal_with_name "standard output" (Zpos e)
     end) ;;;
  ret status.

Definition compare_files (parent : option comparison)
    (name0 name1 : option string) : M Z :=
  if only_in_one_directory name0 name1
  then report_only_in parent name0 name1
  else
    r <- resolve parent name0 name1 ;;
    cs <- classify (r_cmp r) (r_status r) (r_name0 r) ;;
    finish (fst cs) (snd cs).

(** ** The operand loop of main (diff.c, lines 754-787) *)

(** Lines 843-849. *)
Definition try_help {A : Type} (reason : option string)
    (operand : option string) : M A :=
  match reason with
  | Some r => emit (ev_error r operand)
  | None => ret tt
  end ;;;
  fatal "Try '%s --help' for more information.".

(** Lines 851-857. *)
Definition check_stdout : M unit :=
  emit ev_ferror_stdout ;;;
  if sys_ferror_stdout w then fatal "write failed"
  else
    emit ev_fclose_stdout ;;;
    match sys_fclose_stdout w with
    | Ok _ => ret tt
    | Err e => pfatal_with_name "standard output" (Zpos e)
    end.

(** Lines 758-762 and 765-769: the loop over the operands left, with the
    pair that each operand makes with the fixed file. *)
Fixpoint compare_operands (pair : string -> option string * option string)
    (operands : list string) (exit_status : Z) : M Z :=
  match operands with
  | [] => ret exit_status
  | a :: rest =>
      status <- compare_files None (fst (pair a)) (snd (pair a)) ;;
      compare_operands pair rest
        (if exit_status <? status then status else exit_status)
  end.

(** Lines 754-787; [argv] and [optind] are as option decoding left
    them, and the value returned is the argument of [exit]. *)
Definition main_compare (argv : list string) (optind : nat) : M Z :=
  let operands := skipn optind argv in
  exit_status <-
    match from_file o, to_file o with
    | Some _, Some _ => fatal "--from-file and --to-file both specified"
    | Some from, None =>
        compare_operands (fun a => (Some from, Some a)) operands EXIT_SUCCESS
    | None, Some to =>
        compare_operands (fun a => (Some a, Some to)) operands EXIT_SUCCESS
    | None, None =>
        match operands with
        | [a; b] => compare_files None (Some a) (Some b)
        | [] | [_] =>
            try_help (Some "missing operand after '%s'")
              (last (map Some argv) None)
        | _ :: _ :: c :: _ => try_help (Some "extra operand '%s'") (Some c)
        end
    end ;;
  emit ev_print_message_queue ;;;
  check_stdout ;;;
  ret exit_status.

End CompareFiles.

(** The exit status of the process: the argument of [exit], or
    EXIT_TROUBLE after a fatal error; a crash leaves none. *)
Definition process_exit_status (r : outcome Z) : option Z :=
  match r with
  | Returned s => Some s
  | Fatal _ => Some EXIT_TROUBLE
  | Crashed _ => None
  end.

(** ** Reading traces *)

(** The events that write a line for the user: [message], [message5],
    [perror_with_name], [error]. *)
Definition is_diagnostic (e : event) : bool :=
  match e with
  | ev_message _ _ | ev_perror_with_name _ _ | ev_error _ _ => true
  | _ => false
  end.

Definition diagnostics (t : list event) : list event := filter is_diagnostic t.

(** The events that read a file, a link or a directory, or hand the pair
    to an engine. *)
Definition is_comparison_work (e : event) : bool :=
  match e with
  | ev_xreadlink _ | ev_open _ | ev_close _
  | ev_diff_2_files _ | ev_diff_dirs _ => true
  | _ => false
  end.

Definition comparison_work (t : list event) : list event :=
  filter is_comparison_work t.

(** [cmp.file[f].desc] holds an encoded errno (line 1174). *)
Definition slot_failed (c : comparison) (f : bool) : bool :=
  0 <=? ERRNO_DECODE (desc (file c f)).

Definition slot_error (c : comparison) (f : bool) : list event :=
  if slot_failed c f
  then [ev_perror_with_name (name (file c f)) (ERRNO_DECODE (desc (file c f)))]
  else [].

Definition absent (c : comparison) (f : bool) : bool :=
  desc (file c f) =? NONEXISTENT.

(** The line that -s asks for (lines 1366-1369). *)
Definition identical_report (o : options) (c : comparison) : list event :=
  if report_identical_files o && negb (DIR_P c false)
  then [ev_message ("Files %s and %s are identical" ++ nl)
          [label_or_name o c false; label_or_name o c true]]
  else [].

(** ** The vocabulary of the specification *)

(** The conditions of the chain of cases, in its order. *)
Definition both_absent (c : comparison) : bool :=
  absent c false && absent c true.

(** The same physical file, and nothing to print for equal files. *)
Definition same_file_shortcut (o : options) (c : comparison) : bool :=
  same_files c && no_diff_means_no_output o.

Definition both_directories (c : comparison) : bool :=
  DIR_P c false && DIR_P c true.

Definition either_symlink (c : comparison) : bool :=
  S_ISLNK (mode c false) || S_ISLNK (mode c true).

(** C8 as the specification states it: a pair with both sides absent
    is a success and nothing is written. *)
Definition both_absent_is_silent (w : world) (o : options)
    (p : option comparison) (name0 name1 : option string) : Prop :=
  forall tr r,
    only_in_one_directory o name0 name1 = false ->
    resolve w o p name0 name1 = (tr, Returned r) ->
    both_absent (r_cmp r) = true ->
    snd (compare_files w o p name0 name1) = Returned EXIT_SUCCESS
    /\ diagnostics (fst (compare_files w o p name0 name1)) = [].

(** The local [name0] after line 1097: the first name, or the second
    when the first is null. *)
Definition first_name (name0 name1 : option string) : option string :=
  match name0 with
  | Some n => Some n
  | None => name1
  end.

(** The short-circuit is taken: the pair is not the pair of two absent
    files, and the chain of cases leaves the pair and the status as they
    are without doing anything. *)
Definition shortcut_taken (w : world) (o : options) (r : resolved) : Prop :=
  both_absent (r_cmp r) = false
  /\ classify w o (r_cmp r) (r_status r) (r_name0 r)
     = ret (r_cmp r, EXIT_SUCCESS).

(** The condition of C2 as the specification states it. *)
Definition same_regular_file (o : options) (c : comparison) : Prop :=
  absent c false = false /\ absent c true = false
  /\ S_ISREG (mode c false) = true /\ S_ISREG (mode c true) = true
  /\ st_dev (stat_of (file0 c)) = st_dev (stat_of (file1 c))
  /\ st_ino (stat_of (file0 c)) = st_ino (stat_of (file1 c))
  /\ st_mode (stat_of (file0 c)) = st_mode (stat_of (file1 c))
  /\ st_size (stat_of (file0 c)) = st_size (stat_of (file1 c))
  /\ st_uid (stat_of (file0 c)) = st_uid (stat_of (file1 c))
  /\ no_diff_means_no_output o = true.

(** The same, without the demand that the two be regular files. *)
Definition same_entity (o : options) (c : comparison) : Prop :=
  absent c false = false /\ absent c true = false
  /\ st_dev (stat_of (file0 c)) = st_dev (stat_of (file1 c))
  /\ st_ino (stat_of (file0 c)) = st_ino (stat_of (file1 c))
  /\ st_mode (stat_of (file0 c)) = st_mode (stat_of (file1 c))
  /\ st_size (stat_of (file0 c)) = st_size (stat_of (file1 c))
  /\ st_uid (stat_of (file0 c)) = st_uid (stat_of (file1 c))
  /\ no_diff_means_no_output o = true.

(** C2 as the specification states it. *)
Definition shortcut_exactly_for_regular_files (w : world) (o : options)
    (p : option comparison) (name0 name1 : option string) : Prop :=
  forall tr r,
    only_in_one_directory o name0 name1 = false ->
    resolve w o p name0 name1 = (tr, Returned r) ->
    r_status r = EXIT_SUCCESS ->
    (shortcut_taken w o r <-> same_regular_file o (r_cmp r)).

(** The directory walk on the pair, then the end of [compare_files]:
    the status is the one that [diff_dirs] returns. *)
Definition walk_and_finish (w : world) (o : options) (tr : list event)
    (c : comparison) : M Z :=
  s <- ((tr ++ [ev_diff_dirs c], diff_dirs w c) : M engine_status) ;;
  finish w o c (status_of_engine s).

(** What the specification says of a pair of directories. *)
Definition directory_pair_run (w : world) (o : options)
    (p : option comparison) (tr : list event) (c : comparison) : M Z :=
  if is_some p && negb (recursive o) then
    (tr ++ [ev_message ("Common subdirectories: %s and %s" ++ nl)
              [name (file0 c); name (file1 c)]],
     Returned EXIT_SUCCESS)
  else walk_and_finish w o tr c.

(** C7 as the specification states it. *)
Definition directories_are_walked (w : world) (o : options)
    (p : option comparison) (name0 name1 : option string) : Prop :=
  forall tr r,
    only_in_one_directory o name0 name1 = false ->
    resolve w o p name0 name1 = (tr, Returned r) ->
    r_status r = EXIT_SUCCESS ->
    both_directories (r_cmp r) = true ->
    compare_files w o p name0 name1 = directory_pair_run w o p tr (r_cmp r).

(** The binary fast path fires: the chain of cases writes the line
    "Files A and B differ", does nothing else, and sets the status to
    EXIT_FAILURE. *)
Definition quick_binary_fires (w : world) (o : options) (r : resolved) : Prop :=
  classify w o (r_cmp r) (r_status r) (r_name0 r)
  = ([ev_message ("Files %s and %s differ" ++ nl)
        [label_or_name o (r_cmp r) false; label_or_name o (r_cmp r) true]],
     Returned (r_cmp r, EXIT_FAILURE)).

(** The gate, as the options that the user gave. *)
Definition quick_binary_gate (o : options) : Prop :=
  brief o = true /\ binary o = true
  /\ ignore_blank_lines o = false /\ ignore_case o = false
  /\ strip_trailing_cr o = false
  /\ ignore_regexps o = None /\ ignore_white_space o = 0.

(** The side was resolved, and to a regular file. *)
Definition resolved_regular (c : comparison) (f : bool) : Prop :=
  slot_failed c f = false /\ S_ISREG (mode c f) = true.

Definition size (c : comparison) (f : bool) : N := st_size (stat_of (file c f)).

(** The first event of the run is not a line for the user. *)
Definition starts_quietly {A : Type} (m : M A) : Prop :=
  exists e t, fst m = e :: t /\ is_diagnostic e = false.

(** C5 as the specification states it, for two links with the same
    target. *)
Definition equal_links_are_silent (w : world) (o : options)
    (p : option comparison) (name0 name1 : option string) : Prop :=
  forall tr r target,
    only_in_one_directory o name0 name1 = false ->
    resolve w o p name0 name1 = (tr, Returned r) ->
    r_status r = EXIT_SUCCESS ->
    no_dereference_symlinks o = true ->
    absent (r_cmp r) false = false -> absent (r_cmp r) true = false ->
    S_ISLNK (mode (r_cmp r) false) = true ->
    S_ISLNK (mode (r_cmp r) true) = true ->
    sys_xreadlink w (name (file0 (r_cmp r))) = Ok target ->
    sys_xreadlink w (name (file1 (r_cmp r))) = Ok target ->
    snd (compare_files w o p name0 name1) = Returned EXIT_SUCCESS
    /\ diagnostics (fst (compare_files w o p name0 name1)) = [].

(** The lines that [perror_with_name] wrote for a name. *)
Definition reports_on (nm : string) (t : list event) : list event :=
  filter (fun e => match e with
                   | ev_perror_with_name n _ => String.eqb n nm
                   | _ => false
                   end) t.

(** The right slot after the copy of lines 1118-1119. *)
Definition copy_left (c : comparison) : comparison :=
  set_file c true
    (set_stat (set_desc (file1 c) (desc (file0 c))) (stat_of (file0 c))).

(** The last sentence of C9 as the specification states it: one name
    on both sides, and one report at most on that name. *)
Definition same_name_reported_once (w : world) (o : options)
    (p : option comparison) (name0 name1 : string) : Prop :=
  forall c0 n,
    init_comparison w p (Some name0) (Some name1) = ([], Returned (c0, n)) ->
    name (file1 c0) = name (file0 c0) ->
    (List.length (reports_on (name (file0 c0))
               (fst (compare_files w o p (Some name0) (Some name1)))) <= 1)%nat.

(** The pair that lines 1091-1105 make of two operands. *)
Definition operands (a b : string) : comparison :=
  mk_comparison (mk_file_data a UNOPENED zero_stat)
                (mk_file_data b UNOPENED zero_stat) None.

(** What follows resolution in [compare_files]. *)
Definition classify_and_finish (w : world) (o : options) (r : resolved) : M Z :=
  cs <- classify w o (r_cmp r) (r_status r) (r_name0 r) ;;
  finish w o (fst cs) (snd cs).

(** The three values of a status. *)
Definition is_exit_value (s : Z) : Prop :=
  s = EXIT_SUCCESS \/ s = EXIT_FAILURE \/ s = EXIT_TROUBLE.

(** The maximum of a list of statuses; EXIT_SUCCESS for none. *)
Definition max_status (statuses : list Z) : Z :=
  fold_left Z.max statuses EXIT_SUCCESS.

(** The pairs that the operand loop visits. *)
Definition root_pairs (o : options) (operands : list string)
    : list (option string * option string) :=
  match from_file o, to_file o with
  | Some _, Some _ => []
  | Some from, None => map (fun a => (Some from, Some a)) operands
  | None, Some to => map (fun a => (Some a, Some to)) operands
  | None, None =>
      match operands with
      | [a; b] => [(Some a, Some b)]
      | _ => []
      end
  end.

(** The checks of lines 755-756 and 771-776 pass. *)
Definition usage_ok (o : options) (operands : list string) : bool :=
  match from_file o, to_file o with
  | Some _, Some _ => false
  | None, None => (List.length operands =? 2)%nat
  | _, _ => true
  end.

(** Each pair visited, with the run of [compare_files] on it: its trace
    and the status it returns. *)
Definition runs_of (w : world) (o : options)
    (pairs : list (option string * option string))
    (runs : list (list event * Z)) : Prop :=
  Forall2 (fun pr run =>
             compare_files w o None (fst pr) (snd pr)
             = (fst run, Returned (snd run)))
          pairs runs.

(** The first sentence of C1 as the specification states it. *)
Definition exit_status_is_maximum (w : world) (o : options)
    (argv : list string) (optind : nat) : Prop :=
  forall runs,
    runs_of w o (root_pairs o (skipn optind argv)) runs ->
    process_exit_status (snd (main_compare w o argv optind))
    = Some (max_status (map snd runs)).

(** ** Scenarios *)

(** [diff] with no option at all, on a host without O_BINARY. *)
Definition plain_options : options :=
  mk_options false false false false false true false false false false
    None 0 false OUTPUT_NORMAL None None None None None None.

Definition set_new_file (o : options) (b : bool) : options :=
  mk_options (recursive o) b (unidirectional_new_file o)
    (report_identical_files o) (no_dereference_symlinks o) (binary o)
    (brief o) (ignore_blank_lines o) (ignore_case o) (strip_trailing_cr o)
    (ignore_regexps o) (ignore_white_space o) (suppress_common_lines o)
    (output_style o) (group_format_UNCHANGED o) (line_format_UNCHANGED o)
    (file_label0 o) (file_label1 o) (from_file o) (to_file o).

Definition set_report_identical_files (o : options) (b : bool) : options :=
  mk_options (recursive o) (new_file o) (unidirectional_new_file o)
    b (no_dereference_symlinks o) (binary o)
    (brief o) (ignore_blank_lines o) (ignore_case o) (strip_trailing_cr o)
    (ignore_regexps o) (ignore_white_space o) (suppress_common_lines o)
    (output_style o) (group_format_UNCHANGED o) (line_format_UNCHANGED o)
    (file_label0 o) (file_label1 o) (from_file o) (to_file o).

Definition set_no_dereference_symlinks (o : options) (b : bool) : options :=
  mk_options (recursive o) (new_file o) (unidirectional_new_file o)
    (report_identical_files o) b (binary o)
    (brief o) (ignore_blank_lines o) (ignore_case o) (strip_trailing_cr o)
    (ignore_regexps o) (ignore_white_space o) (suppress_common_lines o)
    (output_style o) (group_format_UNCHANGED o) (line_format_UNCHANGED o)
    (file_label0 o) (file_label1 o) (from_file o) (to_file o).

Definition set_brief (o : options) (b : bool) : options :=
  mk_options (recursive o) (new_file o) (unidirectional_new_file o)
    (report_identical_files o) (no_dereference_symlinks o) (binary o)
    b (ignore_blank_lines o) (ignore_case o) (strip_trailing_cr o)
    (ignore_regexps o) (ignore_white_space o) (suppress_common_lines o)
    (output_style o) (group_format_UNCHANGED o) (line_format_UNCHANGED o)
    (file_label0 o) (file_label1 o) (from_file o) (to_file o).

Definition set_from_file (o : options) (f : option string) : options :=
  mk_options (recursive o) (new_file o) (unidirectional_new_file o)
    (report_identical_files o) (no_dereference_symlinks o) (binary o)
    (brief o) (ignore_blank_lines o) (ignore_case o) (strip_trailing_cr o)
    (ignore_regexps o) (ignore_white_space o) (suppress_common_lines o)
    (output_style o) (group_format_UNCHANGED o) (line_format_UNCHANGED o)
    (file_label0 o) (file_label1 o) f (to_file o).

(** A file system given by what [stat] and [lstat] answer and what the
    links hold; every [open] succeeds on descriptor 3, the output stream
    is sound, names are joined with a slash, and both engines find the
    two sides equal. *)
Definition file_system (stats : string -> sys_result stat)
    (links : string -> sys_result string) : world :=
  mk_world stats stats (Err 9%positive) (Err 29%positive) true 0
    links (fun _ => Ok 3%N) (fun _ => Ok tt) (Ok tt) false (Ok tt)
    (fun d n => (d ++ "/" ++ n)%string) (fun n => n)
    (fun s => if S_ISDIR (st_mode s) then "directory"
              else if S_ISLNK (st_mode s) then "symbolic link"
              else if S_ISREG (st_mode s) then
                     if (st_size s =? 0)%N then "regular empty file"
                     else "regular file"
              else "weird file")
    (fun d n => (d ++ "/" ++ n)%string)
    (fun _ => Returned engine_same) (fun _ => Returned engine_same).

Definition no_links : string -> sys_result string := fun _ => Err 22%positive.

Definition regular_file (ino : Z) (size : N) : stat :=
  mk_stat 1 ino 33188 1000 size 0.       (* 0100644 *)
Definition backup_file (ino : Z) : stat :=
  mk_stat 1 ino 32768 1000 0 0.          (* 0100000, empty *)
Definition directory (ino : Z) : stat :=
  mk_stat 1 ino 16877 1000 4096 0.       (* 040755 *)
Definition symbolic_link (ino : Z) : stat :=
  mk_stat 1 ino 41471 1000 8 0.          (* 0120777 *)
Definition fifo (ino : Z) : stat :=
  mk_stat 1 ino 4516 1000 0 0.           (* 010644 *)

(** Nothing exists. *)
Definition empty_file_system : world :=
  file_system (fun _ => Err 2%positive) no_links.

(** Two empty files without any permission, [a] and [b]. *)
Definition two_backup_files : world :=
  file_system (fun n => if String.eqb n "a" then Ok (backup_file 11)
                        else if String.eqb n "b" then Ok (backup_file 12)
                        else Err 2%positive) no_links.

(** A fifo [d1/p] whose counterpart [d2/p] is an empty file without
    permissions, which -N takes as absent. *)
Definition fifo_on_one_side : world :=
  file_system (fun n => if String.eqb n "d1/p" then Ok (fifo 21)
                        else if String.eqb n "d2/p" then Ok (backup_file 22)
                        else Err 2%positive) no_links.

Definition two_directories : comparison :=
  mk_comparison (mk_file_data "d1" UNOPENED (directory 1))
                (mk_file_data "d2" UNOPENED (directory 2)) None.

(** One directory under two names. *)
Definition one_directory_two_names : world :=
  file_system (fun n => if String.eqb n "d" then Ok (directory 5)
                        else if String.eqb n "./d" then Ok (directory 5)
                        else Err 2%positive) no_links.

Definition one_directory_resolved : resolved :=
  mk_resolved
    (mk_comparison (mk_file_data "d" UNOPENED (directory 5))
                   (mk_file_data "./d" UNOPENED (directory 5)) None)
    EXIT_SUCCESS "d".

(** Two directories [d1/s] and [d2/s] inside [d1] and [d2]. *)
Definition two_subdirectories : world :=
  file_system (fun n => if String.eqb n "d1/s" then Ok (directory 31)
                        else if String.eqb n "d2/s" then Ok (directory 32)
                        else Err 2%positive) no_links.

(** Two files of 10 and 12 bytes. *)
Definition two_sizes : world :=
  file_system (fun n => if String.eqb n "a" then Ok (regular_file 41 10)
                        else if String.eqb n "b" then Ok (regular_file 42 12)
                        else Err 2%positive) no_links.

(** Two links [L1] and [L2] and what they hold. *)
Definition two_links (target1 target2 : string) : world :=
  file_system (fun n => if String.eqb n "L1" then Ok (symbolic_link 51)
                        else if String.eqb n "L2" then Ok (symbolic_link 52)
                        else Err 2%positive)
              (fun n => if String.eqb n "L1" then Ok target1
                        else if String.eqb n "L2" then Ok target2
                        else Err 22%positive).

Definition two_links_resolved : resolved :=
  mk_resolved
    (mk_comparison (mk_file_data "L1" UNOPENED (symbolic_link 51))
                   (mk_file_data "L2" UNOPENED (symbolic_link 52)) None)
    EXIT_SUCCESS "L1".

Definition nothing_named_x : comparison :=
  mk_comparison (mk_file_data "x" UNOPENED zero_stat)
                (mk_file_data "x" UNOPENED zero_stat) None.

Definition set_stdin (w : world) (st : sys_result stat) : world :=
  mk_world (sys_stat w) (sys_lstat w) st (sys_lseek_stdin w)
    (sys_isatty_stdin w) (sys_gettime w) (sys_xreadlink w) (sys_open w)
    (sys_close w) (sys_fflush_stdout w) (sys_ferror_stdout w)
    (sys_fclose_stdout w) (file_name_concat w) (last_component w)
    (file_type w) (find_dir_file_pathname w) (diff_2_files w) (diff_dirs w).

(** A directory [d] that holds a file [f], and a file [f] beside it;
    standard input is a pipe. *)
Definition directory_and_file : world :=
  set_stdin
    (file_system (fun n => if String.eqb n "d" then Ok (directory 61)
                           else if String.eqb n "f" then Ok (regular_file 62 10)
                           else if String.eqb n "d/f"
                                then Ok (regular_file 63 10)
                           else Err 2%positive) no_links)
    (Ok (fifo 60)).

(** ** Reading traces: descriptors, names and calls *)

(** The descriptors handed to [close], in order. *)
Definition closed_descriptors (t : list event) : list Z :=
  flat_map (fun e => match e with ev_close fd => [fd] | _ => [] end) t.

(** The names handed to [open], in order. *)
Definition opened_names (t : list event) : list string :=
  flat_map (fun e => match e with ev_open nm => [nm] | _ => [] end) t.

(** The calls of the file comparison engine. *)
Definition engine_calls (t : list event) : list event :=
  filter (fun e => match e with ev_diff_2_files _ => true | _ => false end) t.

(** Every event of the run satisfies [P], however the run ends. *)
Definition only_events {A : Type} (P : event -> Prop) (m : M A) : Prop :=
  Forall P (fst m).

(** The call that reads the attributes of a name is the one that
    --no-dereference asks for: [lstat] with it, [stat] without. *)
Definition stat_call_agrees (o : options) (e : event) : Prop :=
  match e with
  | ev_stat _ => no_dereference_symlinks o = false
  | ev_lstat _ => no_dereference_symlinks o = true
  | _ => True
  end.

(** Before any file is looked at, only [error] has written. *)
Definition is_usage_report (e : event) : Prop :=
  match e with
  | ev_error _ _ => True
  | _ => False
  end.

(** The policy of lines 1154-1155 covers the slot: -N, or -P for the
    first file. *)
Definition policy_covers (o : options) (f : bool) : bool :=
  new_file o || (negb f && unidirectional_new_file o).

(** The test of lines 1157-1159: a regular file without any permission
    and without content. *)
Definition looks_like_backup (c : comparison) (f : bool) : bool :=
  S_ISREG (mode c f)
  && (Z.land (mode c f) S_IRWXUGO =? 0)
  && (st_size (stat_of (file c f)) =? 0)%N.

(** The slot after lines 1162 and 1168-1169 have made it a nonexistent
    file. *)
Definition made_nonexistent (c : comparison) (f : bool) : comparison :=
  set_file c f
    (mk_file_data (name (file c f)) NONEXISTENT
       (with_mode zero_stat (mode c (negb f)))).

(** What follows resolution when the pair goes to the comparison of
    contents. *)
Definition contents_and_finish (w : world) (o : options) (c : comparison)
    (same : bool) : M Z :=
  cs <- compare_contents w c same ;;
  finish w o (fst cs) (snd cs).

Definition set_unidirectional_new_file (o : options) (b : bool) : options :=
  mk_options (recursive o) (new_file o) b
    (report_identical_files o) (no_dereference_symlinks o) (binary o)
    (brief o) (ignore_blank_lines o) (ignore_case o) (strip_trailing_cr o)
    (ignore_regexps o) (ignore_white_space o) (suppress_common_lines o)
    (output_style o) (group_format_UNCHANGED o) (line_format_UNCHANGED o)
    (file_label0 o) (file_label1 o) (from_file o) (to_file o).

(** A world like [w] whose output stream has its error flag set. *)
Definition set_ferror_stdout (w : world) (b : bool) : world :=
  mk_world (sys_stat w) (sys_lstat w) (sys_fstat_stdin w) (sys_lseek_stdin w)
    (sys_isatty_stdin w) (sys_gettime w) (sys_xreadlink w) (sys_open w)
    (sys_close w) (sys_fflush_stdout w) b
    (sys_fclose_stdout w) (file_name_concat w) (last_component w)
    (file_type w) (find_dir_file_pathname w) (diff_2_files w) (diff_dirs w).

(** A world like [w] in which a name cannot be opened. *)
Definition set_open (w : world) (op : string -> sys_result N) : world :=
  mk_world (sys_stat w) (sys_lstat w) (sys_fstat_stdin w) (sys_lseek_stdin w)
    (sys_isatty_stdin w) (sys_gettime w) (sys_xreadlink w) op
    (sys_close w) (sys_fflush_stdout w) (sys_ferror_stdout w)
    (sys_fclose_stdout w) (file_name_concat w) (last_component w)
    (file_type w) (find_dir_file_pathname w) (diff_2_files w) (diff_dirs w).

(** Two files of 10 and 12 bytes, ready for the comparison of contents. *)
Definition two_sizes_unopened : comparison :=
  mk_comparison (mk_file_data "a" UNOPENED (regular_file 41 10))
                (mk_file_data "b" UNOPENED (regular_file 42 12)) None.

(** A directory [d1/x] whose counterpart [d2/x] is a regular file. *)
Definition directory_against_regular : world :=
  file_system (fun n => if String.eqb n "d1/x" then Ok (directory 71)
                        else if String.eqb n "d2/x" then Ok (regular_file 72 5)
                        else Err 2%positive) no_links.

(** Two fifos [d1/p] and [d2/p]. *)
Definition two_fifos : world :=
  file_system (fun n => if String.eqb n "d1/p" then Ok (fifo 81)
                        else if String.eqb n "d2/p" then Ok (fifo 82)
                        else if String.eqb n "p" then Ok (fifo 83)
                        else if String.eqb n "q" then Ok (fifo 84)
                        else Err 2%positive) no_links.

(** The event is not a call of [open]. *)
Definition is_not_open (e : event) : Prop :=
  match e with
  | ev_open _ => False
  | _ => True
  end.

(** Lines 1330-1342 of [compare_contents]: the files are opened. *)
Definition open_files (w : world) (c : comparison) (same : bool)
    : M (comparison * Z) :=
  cs <- (if desc (file0 c) =? UNOPENED
         then open_slot w c false EXIT_SUCCESS
         else ret (c, EXIT_SUCCESS)) ;;
  if desc (file1 (fst cs)) =? UNOPENED then
    if same
    then ret (set_file (fst cs) true
                (set_desc (file1 (fst cs)) (desc (file0 (fst cs)))),
              snd cs)
    else open_slot w (fst cs) true (snd cs)
  else ret cs.

(** Lines 1344-1359 of [compare_contents]: the files are compared and
    closed. *)
Definition compare_and_close (w : world) (c : comparison) (status : Z)
    : M (comparison * Z) :=
  status <- (if status =? EXIT_SUCCESS
             then emit (ev_diff_2_files c) ;;; engine_result (diff_2_files w c)
             else ret status) ;;
  status <- (if 0 <=? desc (file0 c)
             then close_slot w c false status
             else ret status) ;;
  status <- (if (0 <=? desc (file1 c))
                && negb (desc (file0 c) =? desc (file1 c))
             then close_slot w c true status
             else ret status) ;;
  ret (c, status).

(** The descriptors that lines 1351-1359 close. *)
Definition descriptors_to_close (c : comparison) : list Z :=
  (if 0 <=? desc (file0 c) then [desc (file0 c)] else [])
  ++ (if (0 <=? desc (file1 c)) && negb (desc (file0 c) =? desc (file1 c))
      then [desc (file1 c)] else []).

(** The run does not end on a failed [assert] or on the use of a null
    pointer. *)
Definition never_crashes {A : Type} (m : M A) : Prop :=
  match snd m with
  | Crashed _ => False
  | _ => True
  end.

(** Neither side of the pair has the type of a symbolic link. *)
Definition no_links_in (c : comparison) : Prop :=
  S_ISLNK (mode c false) = false /\ S_ISLNK (mode c true) = false.

(** What [stat] and [fstat] promise: they follow symbolic links, so
    that what they answer is never a link. *)
Definition stat_follows_links (w : world) : Prop :=
  (forall nm st, sys_stat w nm = Ok st -> S_ISLNK (st_mode st) = false)
  /\ (forall st, sys_fstat_stdin w = Ok st -> S_ISLNK (st_mode st) = false).

(** The engines themselves do not crash. *)
Definition engines_do_not_crash (w : world) : Prop :=
  (forall c why, diff_2_files w c <> Crashed why)
  /\ (forall c why, diff_dirs w c <> Crashed why).

(** The callers of [compare_files]: [main] gives two names and no
    parent; [diff_dirs] gives a parent and one name at least. *)
Definition called_as_the_callers_do (p : option comparison)
    (name0 name1 : option string) : Prop :=
  (p = None -> is_some name0 && is_some name1 = true)
  /\ is_some name0 || is_some name1 = true.

(** ** Option decoding (diff.c, lines 307-750) *)

(** *** The obsolete option -NUM (lines 312-328) *)

(** The character ['0']. *)
Definition char_0 : Z := 48.

(** Lines 322-327: one digit among the options.  [prev] is the option
    before it and [ocontext] the number read so far.  [CONTEXT_MAX]
    (diff.h) and [ISDIGIT] (system.h) are declared outside diff.c; they
    are parameters.  The division and the remainder are those of C. *)
Definition digit_option (CONTEXT_MAX : Z) (ISDIGIT : Z -> bool)
    (prev ocontext c : Z) : Z :=
  if negb (ISDIGIT prev) then c - char_0
  else if ocontext - Z.b2z (c - char_0 <=? Z.rem CONTEXT_MAX 10)
          <? Z.quot CONTEXT_MAX 10
       then 10 * ocontext + (c - char_0)
       else CONTEXT_MAX.

(** The loop of line 307 on a run of digits: each one is decoded, and
    becomes [prev] (line 653). *)
Fixpoint digit_options (CONTEXT_MAX : Z) (ISDIGIT : Z -> bool)
    (prev ocontext : Z) (cs : list Z) : Z * Z :=
  match cs with
  | [] => (prev, ocontext)
  | c :: rest =>
      digit_options CONTEXT_MAX ISDIGIT c
        (digit_option CONTEXT_MAX ISDIGIT prev ocontext c) rest
  end.

Definition is_digit_char (c : Z) : Prop := char_0 <= c <= char_0 + 9.

(** The number that a run of digits writes in base ten. *)
Definition decimal_value (cs : list Z) : Z :=
  fold_left (fun v c => 10 * v + (c - char_0)) cs 0.

(** *** The width of the output and the two columns (lines 522-531,
    605-615 and 690-713) *)

(** [size_t] on a host where it has 64 bits. *)
Definition SIZE_MAX : Z := 18446744073709551615.
Definition size_t (x : Z) : Z := x mod (SIZE_MAX + 1).

Definition GUTTER_WIDTH_MINIMUM : Z := 3.

(** Lines 523-530: -W.  [strtoimax] is given by what it answers: the
    number, and whether text is left after it. *)
Definition width_option (width numval : Z) (text_left : bool)
    (optarg : string) : M Z :=
  (if negb ((0 <? numval) && (numval <=? SIZE_MAX)) || text_left
   then try_help (Some "invalid width '%s'") (Some optarg)
   else ret tt) ;;;
  if negb (width =? numval) then
    (if negb (width =? 0) then fatal "conflicting width options" else ret tt) ;;;
    ret numval
  else ret width.

(** Lines 606-614: --tabsize. *)
Definition tabsize_option (tabsize numval : Z) (text_left : bool)
    (optarg : string) : M Z :=
  (if negb ((0 <? numval) && (numval <=? SIZE_MAX - GUTTER_WIDTH_MINIMUM))
      || text_left
   then try_help (Some "invalid tabsize '%s'") (Some optarg)
   else ret tt) ;;;
  if negb (tabsize =? numval) then
    (if negb (tabsize =? 0) then fatal "conflicting tabsize options"
     else ret tt) ;;;
    ret numval
  else ret tabsize.

(** [intmax_t], the type of [numval], on the same host. *)
Definition INTMAX_MAX : Z := 9223372036854775807.

(** Line 523 with lines 524-530, and line 606 with lines 607-614:
    [numval = strtoimax (optarg, &numend, 10)], then the checks.
    [strtoimax] belongs to the C library; it is a parameter, which
    answers the number and the text that it leaves at [numend]. *)
Definition option_W (strtoimax : string -> Z * string) (width : Z)
    (optarg : string) : M Z :=
  let (numval, numend) := strtoimax optarg in
  width_option width numval (negb (String.eqb numend "")) optarg.

Definition option_tabsize (strtoimax : string -> Z * string) (tabsize : Z)
    (optarg : string) : M Z :=
  let (numval, numend) := strtoimax optarg in
  tabsize_option tabsize numval (negb (String.eqb numend "")) optarg.

(** The options -W, and the options --tabsize, of a command line, one
    after the other. *)
Fixpoint options_W (strtoimax : string -> Z * string) (width : Z)
    (optargs : list string) : M Z :=
  match optargs with
  | [] => ret width
  | optarg :: rest =>
      width <- option_W strtoimax width optarg ;;
      options_W strtoimax width rest
  end.

Fixpoint options_tabsize (strtoimax : string -> Z * string) (tabsize : Z)
    (optargs : list string) : M Z :=
  match optargs with
  | [] => ret tabsize
  | optarg :: rest =>
      tabsize <- option_tabsize strtoimax tabsize optarg ;;
      options_tabsize strtoimax tabsize rest
  end.

(** The argument is read as a number greater than 0, and no text is
    left after the number. *)
Definition reads_as_positive (strtoimax : string -> Z * string)
    (optarg : string) : bool :=
  (0 <? fst (strtoimax optarg)) && String.eqb (snd (strtoimax optarg)) "".

(** A [strtoimax] for the scenarios: it reads the digits at the start
    of the text in base ten, answers INTMAX_MAX for a number above it,
    and leaves the text after the digits.  Signs and white space are
    not read. *)
Fixpoint read_digits (s : string) (v : Z) : Z * string :=
  match s with
  | String c rest =>
      let d := Z.of_N (N_of_ascii c) - char_0 in
      if (0 <=? d) && (d <=? 9)
      then read_digits rest (Z.min (10 * v + d) INTMAX_MAX)
      else (v, s)
  | EmptyString => (v, s)
  end.

Definition strtoimax_of_digits (s : string) : Z * string := read_digits s 0.

(** The tab size and the width in force after lines 690-693. *)
Definition tabsize_or_default (tabsize : Z) : Z :=
  if tabsize =? 0 then 8 else tabsize.
Definition width_or_default (width : Z) : Z :=
  if width =? 0 then 130 else width.

Record sdiff_layout : Type := mk_sdiff_layout {
  sdiff_half_width : Z;
  sdiff_column2_offset : Z
}.

(** Lines 704-712, in the arithmetic of [size_t]. *)
Definition sdiff_columns (expand_tabs : bool) (tabsize width : Z)
    : sdiff_layout :=
  let t := if expand_tabs then 1 else tabsize_or_default tabsize in
  let w := width_or_default width in
  let t_plus_g := size_t (t + GUTTER_WIDTH_MINIMUM) in
  let unaligned_off :=
    size_t (size_t (Z.shiftr w 1 + Z.shiftr t_plus_g 1)
            + Z.land (Z.land w t_plus_g) 1) in
  let off := size_t (unaligned_off - unaligned_off mod t) in
  let half :=
    if (off <=? GUTTER_WIDTH_MINIMUM) || (w <=? off) then 0
    else Z.min (size_t (off - GUTTER_WIDTH_MINIMUM)) (size_t (w - off)) in
  mk_sdiff_layout half (if negb (half =? 0) then off else w).

(** *** The output style (lines 1002-1009) *)

Definition output_style_eqb (a b : output_style_t) : bool :=
  match a, b with
  | OUTPUT_UNSPECIFIED, OUTPUT_UNSPECIFIED
  | OUTPUT_NORMAL, OUTPUT_NORMAL
  | OUTPUT_CONTEXT, OUTPUT_CONTEXT
  | OUTPUT_UNIFIED, OUTPUT_UNIFIED
  | OUTPUT_ED, OUTPUT_ED
  | OUTPUT_FORWARD_ED, OUTPUT_FORWARD_ED
  | OUTPUT_RCS, OUTPUT_RCS
  | OUTPUT_IFDEF, OUTPUT_IFDEF
  | OUTPUT_SDIFF, OUTPUT_SDIFF => true
  | _, _ => false
  end.

(** [specify_style]: the global [output_style] goes in and comes out. *)
Definition specify_style (output_style style : output_style_t)
    : M output_style_t :=
  if negb (output_style_eqb output_style style) then
    (if negb (output_style_eqb output_style OUTPUT_UNSPECIFIED)
     then try_help (Some "conflicting output style options") None
     else ret tt) ;;;
    ret style
  else ret output_style.

(** The calls of [specify_style] that a command line makes, one after
    the other. *)
Fixpoint specify_styles (output_style : output_style_t)
    (styles : list output_style_t) : M output_style_t :=
  match styles with
  | [] => ret output_style
  | style :: rest =>
      output_style <- specify_style output_style style ;;
      specify_styles output_style rest
  end.

(** *** Option values (lines 992-999) *)

(** [specify_value]: [*var] goes in and comes out.  The name of the
    option is written into the format of the complaint. *)
Definition specify_value (var : option string) (value opt : string)
    : M (option string) :=
  match var with
  | Some v =>
      if negb (String.eqb v value) then
        emit (ev_error ("conflicting " ++ opt ++ " option value '%s'")
                (Some value)) ;;;
        try_help None None
      else ret (Some value)
  | None => ret (Some value)
  end.

(** *** -D NAME (lines 376-393) *)

(** The conversions that the format of line 379 uses. *)
Inductive printf_arg : Type :=
| arg_char (c : ascii)
| arg_string (s : string).

(** [sprintf] for a format made of "%%", "%c", "%s" and plain
    characters.  The result is what is written before the final null
    character; a conversion without its argument writes nothing
    more. *)
Fixpoint sprintf (format : string) (args : list printf_arg) : string :=
  match format with
  | EmptyString => EmptyString
  | String "%" (String "%" rest) => String "%" (sprintf rest args)
  | String "%" (String "c" rest) =>
      match args with
      | arg_char c :: args => String c (sprintf rest args)
      | _ => EmptyString
      end
  | String "%" (String "s" rest) =>
      match args with
      | arg_string s :: args => (s ++ sprintf rest args)%string
      | _ => EmptyString
      end
  | String c rest => String c (sprintf rest args)
  end.

(** The null character. *)
Definition NUL : ascii := Ascii.zero.

(** [strlen (b)] and the string at [b], for a pointer [b] into a buffer
    given by the characters from [b] on. *)
Fixpoint c_string (b : string) : string :=
  match b with
  | EmptyString => EmptyString
  | String c rest =>
      if Ascii.eqb c NUL then EmptyString else String c (c_string rest)
  end.

Definition strlen (b : string) : Z := Z.of_nat (String.length (c_string b)).

(** [b + strlen (b) + 1] *)
Fixpoint after_c_string (b : string) : string :=
  match b with
  | EmptyString => EmptyString
  | String c rest => if Ascii.eqb c NUL then rest else after_c_string rest
  end.

(** Line 379. *)
Definition C_ifdef_group_formats : string :=
  "%%=%c#ifndef %s" ++ nl ++ "%%<#endif /* ! %s */" ++ nl
  ++ "%c#ifdef %s" ++ nl ++ "%%>#endif /* %s */" ++ nl
  ++ "%c#ifndef %s" ++ nl ++ "%%<#else /* %s */" ++ nl
  ++ "%%>#endif /* %s */" ++ nl.

(** [sizeof] of a string literal counts its final null character. *)
Definition sizeof_literal (s : string) : Z := Z.of_nat (String.length s) + 1.

(** Lines 380-382: the size given to [xmalloc], in the arithmetic of
    [size_t]. *)
Definition ifdef_buffer_size (optarg : string) : Z :=
  size_t (size_t (size_t (sizeof_literal C_ifdef_group_formats
                          + size_t (7 * strlen optarg)) - 14) - 8).

(** Lines 383-387: what [sprintf] writes into the buffer. *)
Definition ifdef_buffer (optarg : string) : string :=
  sprintf C_ifdef_group_formats
    [arg_char NUL;
     arg_string optarg; arg_string optarg; arg_char NUL;
     arg_string optarg; arg_string optarg; arg_char NUL;
     arg_string optarg; arg_string optarg; arg_string optarg].

(** Lines 388-391: the loop over [group_format], whose entries are
    UNCHANGED, OLD, NEW and CHANGED in this order (the order of the
    option names of lines 156-162). *)
Fixpoint specify_group_formats (group_format : list (option string))
    (b : string) : M (list (option string)) :=
  match group_format with
  | [] => ret []
  | var :: rest =>
      var <- specify_value var (c_string b) "-D" ;;
      rest <- specify_group_formats rest (after_c_string b) ;;
      ret (var :: rest)
  end.

(** Lines 376-393: the case of -D. *)
Definition ifdef_option (output_style : output_style_t)
    (group_format : list (option string)) (optarg : string)
    : M (output_style_t * list (option string)) :=
  output_style <- specify_style output_style OUTPUT_IFDEF ;;
  group_format <- specify_group_formats group_format (ifdef_buffer optarg) ;;
  ret (output_style, group_format).

(** The name holds no null character, as every C string. *)
Definition is_c_string (s : string) : Prop := c_string s = s.

(** The four group formats that -D NAME stands for: those of the
    unchanged, old, new and changed groups. *)
Definition ifdef_formats (name : string) : list (option string) :=
  [Some "%=";
   Some ("#ifndef " ++ name ++ nl ++ "%<#endif /* ! " ++ name ++ " */" ++ nl);
   Some ("#ifdef " ++ name ++ nl ++ "%>#endif /* " ++ name ++ " */" ++ nl);
   Some ("#ifndef " ++ name ++ nl ++ "%<#else /* " ++ name ++ " */" ++ nl
         ++ "%>#endif /* " ++ name ++ " */" ++ nl)]%string.

(** *** Regular expressions (lines 61-67 and 790-822) *)

(** [struct regexp_list] without [buf]: [rl_regexps] is the string that
    the buffer holds, [None] for a null pointer; the other fields are
    [len], [size] and [multiple_regexps]. *)
Record regexp_list : Type := mk_regexp_list {
  rl_regexps : option string;
  rl_len : Z;
  rl_size : Z;
  rl_multiple_regexps : bool
}.

(** A list as it is before any option: all fields are zero. *)
Definition no_regexp : regexp_list := mk_regexp_list None 0 0 false.

(** Lines 810-811: [do size *= 2; while (size <= newlen);] in the
    arithmetic of [size_t].  The loop is run for [fuel] turns at most,
    and gives nothing when it has not ended by then. *)
Fixpoint double_size (fuel : nat) (sz newlen : Z) : option Z :=
  match fuel with
  | O => None
  | S fuel =>
      let sz := size_t (sz * 2) in
      if sz <=? newlen then double_size fuel sz newlen else Some sz
  end.

(** Lines 792-822.  [re_compile_pattern] is given by what it answers,
    an error message or a null pointer.  The characters of the buffer
    before [len] are kept, the two characters of the disjunction and the
    pattern follow.  The value is [None] when the loop that doubles the
    size has not ended. *)
Definition add_regexp (re_compile_pattern : string -> option string)
    (fuel : nat) (reglist : regexp_list) (pattern : string)
    : M (option regexp_list) :=
  let patlen := strlen pattern in
  match re_compile_pattern (c_string pattern) with
  | Some m => fatal (c_string pattern ++ ": " ++ m)
  | None =>
      let regexps := rl_regexps reglist in
      let len := rl_len reglist in
      let multiple_regexps := is_some regexps in
      let newlen :=
        size_t (size_t (len + size_t (2 * Z.b2z multiple_regexps)) + patlen) in
      let sz := rl_size reglist in
      let grown :=
        if sz <=? newlen
        then double_size fuel (if sz =? 0 then 1 else sz) newlen
        else Some sz in
      match grown with
      | None => ret None
      | Some sz =>
          let kept :=
            substring 0 (Z.to_nat len) (c_string (or_default regexps "")) in
          let written :=
            (kept ++ (if multiple_regexps then "\|" else "")
             ++ c_string pattern)%string in
          ret (Some (mk_regexp_list (Some written) newlen sz multiple_regexps))
      end
  end.

(** The calls of [add_regexp] that the options -I (or -F) of a command
    line make on one list, one after the other. *)
Fixpoint add_regexps (re_compile_pattern : string -> option string)
    (fuel : nat) (reglist : regexp_list) (patterns : list string)
    : M (option regexp_list) :=
  match patterns with
  | [] => ret (Some reglist)
  | pattern :: rest =>
      r <- add_regexp re_compile_pattern fuel reglist pattern ;;
      match r with
      | None => ret None
      | Some reglist => add_regexps re_compile_pattern fuel reglist rest
      end
  end.

(** The list is as [add_regexp] leaves it: the buffer holds a C string
    of [len] characters and has room for it and its final null
    character. *)
Definition regexp_list_ok (r : regexp_list) : Prop :=
  match rl_regexps r with
  | None => rl_len r = 0 /\ rl_size r = 0
  | Some s =>
      is_c_string s /\ rl_len r = strlen s
      /\ rl_len r < rl_size r <= SIZE_MAX
  end.

(** The characters that the patterns take in the buffer, two more for
    each as for the disjunction. *)
Definition patterns_length (patterns : list string) : Z :=
  fold_right (fun p n => strlen p + 2 + n) 0 patterns.

(** Lines 827-841; the allocation of the fastmap is left out. *)
Definition summarize_regexp_list (re_compile_pattern : string -> option string)
    (reglist : regexp_list) : M unit :=
  match rl_regexps reglist with
  | Some s =>
      if rl_multiple_regexps reglist then
        match re_compile_pattern
                (substring 0 (Z.to_nat (rl_len reglist)) s) with
        | Some m => fatal (c_string s ++ ": " ++ m)
        | None => ret tt
        end
      else ret tt
  | None => ret tt
  end.

(** *** The options as one string (lines 238-265) *)

(** [option_list]: the size given to [xmalloc] (lines 249-254), in the
    arithmetic of [size_t], and the string written (lines 258-263).
    [shell_quote_length] and [shell_quote] stand for
    [shell_quote_length] and [shell_quote_copy] of gnulib, which are not
    among the sources; the elements read are the first [count] ones of
    [optionvec]. *)
Definition option_list_size (shell_quote_length : string -> Z)
    (optionvec : list string) (count : Z) : Z :=
  fold_left (fun sz opt => size_t (sz + size_t (1 + shell_quote_length opt)))
    (firstn (Z.to_nat count) optionvec) 1.

Definition option_list (shell_quote : string -> string)
    (optionvec : list string) (count : Z) : string :=
  fold_left (fun result opt => (result ++ " " ++ shell_quote opt)%string)
    (firstn (Z.to_nat count) optionvec) "".

(** *** The defaults of the formats (lines 723-745) *)

(** [group_format] and [line_format] are arrays of strings, null before
    an option sets them; they are indexed by the constants UNCHANGED,
    OLD, NEW and CHANGED of diff.h, which are parameters below. *)
Definition entry (a : list (option string)) (i : nat) : option string :=
  nth i a None.

Fixpoint set_entry (a : list (option string)) (i : nat) (v : option string)
    : list (option string) :=
  match a, i with
  | [], _ => []
  | _ :: rest, O => v :: rest
  | x :: rest, S i => x :: set_entry rest i v
  end.

Definition default_entry (a : list (option string)) (i : nat) (v : string)
    : list (option string) :=
  match entry a i with
  | Some _ => a
  | None => set_entry a i (Some v)
  end.

(** Lines 724-737, under [output_style == OUTPUT_IFDEF].  [concat] is
    the function of util.c that joins three strings; it is a parameter.
    The value is the pair of [group_format] and [line_format]. *)
Definition format_defaults (concat : string -> string -> string -> string)
    (OLD NEW UNCHANGED CHANGED : nat)
    (group_format line_format : list (option string))
    : list (option string) * list (option string) :=
  let line_format :=
    map (fun f => match f with
                  | Some s => Some s
                  | None => Some ("%l" ++ nl)%string
                  end) line_format in
  let group_format :=
    default_entry group_format OLD
      (or_default (entry group_format CHANGED) "%<") in
  let group_format :=
    default_entry group_format NEW
      (or_default (entry group_format CHANGED) "%>") in
  let group_format := default_entry group_format UNCHANGED "%=" in
  let group_format :=
    default_entry group_format CHANGED
      (concat (or_default (entry group_format OLD) "")
              (or_default (entry group_format NEW) "") "") in
  (group_format, line_format).

(** Lines 742-744: the value of [no_diff_means_no_output] for
    OUTPUT_IFDEF, read from the two strings; there is none when one of
    them is a null pointer. *)
Definition ifdef_no_diff_means_no_output (group_unchanged
    line_unchanged : option string) : option bool :=
  match group_unchanged, line_unchanged with
  | Some g, Some l =>
      Some (String.eqb (c_string g) ""
            || (String.eqb g "%=" && String.eqb (c_string l) ""))
  | _, _ => None
  end.

(** The options as far as [no_diff_means_no_output] reads them. *)
Definition ifdef_options (group_unchanged line_unchanged : option string)
    : options :=
  mk_options false false false false false true false false false false
    None 0 false OUTPUT_IFDEF group_unchanged line_unchanged
    None None None None.

(** An entry that an option has set is kept. *)
Definition keeps_what_is_set (before after : list (option string)) : Prop :=
  Forall2 (fun b a => forall s, b = Some s -> a = Some s) before after.

Definition all_set (a : list (option string)) : Prop :=
  Forall (fun f => f <> None) a.

(** *** The labels (lines 442-449) *)

(** -L: [file_label[0]] and [file_label[1]] go in and come out. *)
Definition label_option (file_label0 file_label1 : option string)
    (optarg : string) : M (option string * option string) :=
  match file_label0 with
  | None => ret (Some optarg, file_label1)
  | Some _ =>
      match file_label1 with
      | None => ret (file_label0, Some optarg)
      | Some _ => fatal "too many file label options"
      end
  end.

(** The options -L of a command line, one after the other. *)
Fixpoint label_options (file_label0 file_label1 : option string)
    (optargs : list string) : M (option string * option string) :=
  match optargs with
  | [] => ret (file_label0, file_label1)
  | optarg :: rest =>
      labels <- label_option file_label0 file_label1 optarg ;;
      label_options (fst labels) (snd labels) rest
  end.

(** *** White space (lines 334-342, 399-402 and 504-506) *)

(** The options that change [ignore_white_space]. *)
Inductive white_space_option : Type :=
| option_b | option_Z | option_E | option_w.

Definition white_space_option_eqb (a b : white_space_option) : bool :=
  match a, b with
  | option_b, option_b | option_Z, option_Z
  | option_E, option_E | option_w, option_w => true
  | _, _ => false
  end.

Section WhiteSpace.

(** The values of [enum DIFF_white_space] (diff.h) that diff.c names. *)
Variable IGNORE_TRAILING_SPACE : Z.
Variable IGNORE_TAB_EXPANSION : Z.
Variable IGNORE_SPACE_CHANGE : Z.
Variable IGNORE_ALL_SPACE : Z.

(** One option; [ignore_white_space] goes in and comes out. *)
Definition decode_white_space (ignore_white_space : Z)
    (c : white_space_option) : Z :=
  match c with
  | option_b =>
      if ignore_white_space <? IGNORE_SPACE_CHANGE
      then IGNORE_SPACE_CHANGE else ignore_white_space
  | option_Z =>
      if ignore_white_space <? IGNORE_SPACE_CHANGE
      then Z.lor ignore_white_space IGNORE_TRAILING_SPACE
      else ignore_white_space
  | option_E =>
      if ignore_white_space <? IGNORE_SPACE_CHANGE
      then Z.lor ignore_white_space IGNORE_TAB_EXPANSION
      else ignore_white_space
  | option_w => IGNORE_ALL_SPACE
  end.

(** The options of a command line that change [ignore_white_space], in
    their order. *)
Definition decode_white_spaces (ignore_white_space : Z)
    (cs : list white_space_option) : Z :=
  fold_left decode_white_space cs ignore_white_space.

(** The level that a set of options asks for. *)
Definition white_space_level (cs : list white_space_option) : Z :=
  if existsb (white_space_option_eqb option_w) cs then IGNORE_ALL_SPACE
  else if existsb (white_space_option_eqb option_b) cs
       then IGNORE_SPACE_CHANGE
  else Z.lor
         (if existsb (white_space_option_eqb option_Z) cs
          then IGNORE_TRAILING_SPACE else 0)
         (if existsb (white_space_option_eqb option_E) cs
          then IGNORE_TAB_EXPANSION else 0).

End WhiteSpace.

(** *** The context (lines 348-370, 492-496, 662-669, 683-688 and
    717-718) *)

(** The globals [output_style] and [context] and the local
    [explicit_context] of [main]. *)
Record context_state : Type := mk_context_state {
  cx_output_style : output_style_t;
  cx_context : Z;
  cx_explicit_context : bool
}.

(** The options that set the context: -C and -U with their argument,
    when there is one, and what [strtoimax] answers for it (the number,
    and whether text is left after it); -c and -u. *)
Inductive context_option : Type :=
| option_C_U (unified : bool) (optarg : option string) (numval : Z)
    (text_left : bool)
| option_c_u (unified : bool).

Definition style_of (unified : bool) : output_style_t :=
  if unified then OUTPUT_UNIFIED else OUTPUT_CONTEXT.

(** Lines 348-364 and, for -c and -u, 366-370 and 492-496.
    [CONTEXT_MAX] is the constant of diff.h. *)
Definition decode_context (CONTEXT_MAX : Z) (st : context_state)
    (c : context_option) : M context_state :=
  match c with
  | option_C_U unified optarg numval text_left =>
      numval <- match optarg with
                | Some arg =>
                    (if text_left || (numval <? 0)
                     then try_help (Some "invalid context length '%s'")
                            (Some arg)
                     else ret tt) ;;;
                    ret (if CONTEXT_MAX <? numval then CONTEXT_MAX else numval)
                | None => ret 3
                end ;;
      style <- specify_style (cx_output_style st) (style_of unified) ;;
      ret (mk_context_state style
             (if cx_context st <? numval then numval else cx_context st)
             true)
  | option_c_u unified =>
      style <- specify_style (cx_output_style st) (style_of unified) ;;
      ret (mk_context_state style
             (if cx_context st <? 3 then 3 else cx_context st)
             (cx_explicit_context st))
  end.

(** The options of a command line that set the context, in their
    order. *)
Fixpoint decode_contexts (CONTEXT_MAX : Z) (st : context_state)
    (cs : list context_option) : M context_state :=
  match cs with
  | [] => ret st
  | c :: rest =>
      st <- decode_context CONTEXT_MAX st c ;;
      decode_contexts CONTEXT_MAX st rest
  end.

(** Lines 662-669, 683-688 and 717-718, after the options: the style
    by default, the obsolete -NUM, and the horizon.  The value is the
    state and [horizon_lines]. *)
Definition settle_context (st : context_state) (show_c_function : bool)
    (ocontext horizon_lines : Z) : M (context_state * Z) :=
  st <- (if output_style_eqb (cx_output_style st) OUTPUT_UNSPECIFIED then
           if show_c_function then
             style <- specify_style (cx_output_style st) OUTPUT_CONTEXT ;;
             ret (mk_context_state style
                    (if ocontext <? 0 then 3 else cx_context st)
                    (cx_explicit_context st))
           else
             style <- specify_style (cx_output_style st) OUTPUT_NORMAL ;;
             ret (mk_context_state style (cx_context st)
                    (cx_explicit_context st))
         else ret st) ;;
  let context :=
    if (0 <=? ocontext)
       && (output_style_eqb (cx_output_style st) OUTPUT_CONTEXT
           || output_style_eqb (cx_output_style st) OUTPUT_UNIFIED)
       && ((cx_context st <? ocontext)
           || ((ocontext <? cx_context st)
               && negb (cx_explicit_context st)))
    then ocontext else cx_context st in
  ret (mk_context_state (cx_output_style st) context (cx_explicit_context st),
       if horizon_lines <? context then context else horizon_lines).

(** The option is well formed: a number that is not negative, without
    text after it. *)
Definition context_option_ok (unified : bool) (c : context_option) : Prop :=
  match c with
  | option_C_U u optarg numval text_left =>
      u = unified /\ (optarg <> None -> text_left = false /\ 0 <= numval)
  | option_c_u u => u = unified
  end.

(** The context that the option asks for. *)
Definition context_asked (CONTEXT_MAX : Z) (c : context_option) : Z :=
  match c with
  | option_C_U _ (Some _) numval _ => Z.min numval CONTEXT_MAX
  | option_C_U _ None _ _ => 3
  | option_c_u _ => 3
  end.

Definition is_option_C_U (c : context_option) : bool :=
  match c with
  | option_C_U _ _ _ _ => true
  | option_c_u _ => false
  end.

(** ** A directory against a file (diff.c, lines 1181-1202) *)

(** The call of lines 1198-1199 on a name, and what it answers. *)
Definition stat_call (o : options) (nm : string) : event :=
  if no_dereference_symlinks o then ev_lstat nm else ev_stat nm.

Definition stat_answer (w : world) (o : options) (nm : string)
    : sys_result stat :=
  if no_dereference_symlinks o then sys_lstat w nm else sys_stat w nm.

(** The test of line 1181 on two operands of the command line, on the
    pair that lines 1148-1179 leave: no error was reported, so that the
    status is EXIT_SUCCESS, and one file is a directory while the other
    is not. *)
Definition file_in_directory_wanted (c : comparison) : bool :=
  negb (slot_failed c false || slot_failed c true)
  && negb (Bool.eqb (DIR_P c false) (DIR_P c true)).

(** C10 as the specification states it, for two operands that the loop
    of lines 1116-1145 examined without error and of which it found one
    to be a directory: the run ends on the fatal error when the other
    operand is "-", and otherwise the pair that is classified has the
    joined path in the place of the directory. *)
Definition directory_operand_always_replaced (w : world) (o : options)
    (a b : string) : Prop :=
  forall t1 c1,
    stat_files w o (operands a b) = (t1, Returned c1) ->
    slot_failed c1 false = false -> slot_failed c1 true = false ->
    DIR_P c1 false <> DIR_P c1 true ->
    let fnm_arg := DIR_P c1 false in
    let dir_arg := negb fnm_arg in
    let fnm := name (file c1 fnm_arg) in
    let dir := name (file c1 dir_arg) in
    (fnm = "-" ->
     snd (compare_files w o None (Some a) (Some b))
     = Fatal "cannot compare '-' to a directory")
    /\ (fnm <> "-" ->
        exists tr r,
          resolve w o None (Some a) (Some b) = (tr, Returned r)
          /\ name (file (r_cmp r) dir_arg)
             = find_dir_file_pathname w dir (last_component w fnm)).

(** A directory [d] without any entry, a file [g] and an empty file [b]
    without any permission beside it. *)
Definition directory_and_strays : world :=
  file_system (fun n => if String.eqb n "d" then Ok (directory 61)
                        else if String.eqb n "g" then Ok (regular_file 64 7)
                        else if String.eqb n "b" then Ok (backup_file 65)
                        else Err 2%positive) no_links.

(** ** Laws of the monad *)

Lemma bind_returned {A B : Type} (m : M A) (k : A -> M B) t a :
  m = (t, Returned a) -> bind m k = (t ++ fst (k a), snd (k a)).
Proof.
  intros ->. unfold bind. destruct (k a); reflexivity.
Qed.

Lemma bind_ret {A B : Type} (a : A) (k : A -> M B) : bind (ret a) k = k a.
Proof.
  unfold bind, ret. destruct (k a); reflexivity.
Qed.

Lemma bind_pure {A B : Type} (a : A) (k : A -> M B) :
  bind ([], Returned a) k = k a.
Proof. apply bind_ret. Qed.

Lemma bind_emit {B : Type} (e : event) (k : unit -> M B) :
  bind (emit e) k = (e :: fst (k tt), snd (k tt)).
Proof.
  unfold bind, emit. destruct (k tt); reflexivity.
Qed.

Lemma bind_fatal {A B : Type} (msg : string) (k : A -> M B) :
  bind (fatal msg) k = fatal msg.
Proof. reflexivity. Qed.

Lemma bind_crash {A B : Type} (why : string) (k : A -> M B) :
  bind (crash why) k = crash why.
Proof. reflexivity. Qed.

Lemma bind_inv {A B : Type} (m : M A) (k : A -> M B) t b :
  bind m k = (t, Returned b) ->
  exists t1 a t2,
    m = (t1, Returned a) /\ k a = (t2, Returned b) /\ t = t1 ++ t2.
Proof.
  unfold bind. destruct m as [t1 [a | msg | why]]; try discriminate.
  destruct (k a) as [t2 r] eqn:E. intros H. inversion H; subst.
  exists t1, a, t2. auto.
Qed.

Lemma surjective_M {A : Type} (m : M A) : m = (fst m, snd m).
Proof. destruct m; reflexivity. Qed.

Lemma diagnostics_app t1 t2 :
  diagnostics (t1 ++ t2) = diagnostics t1 ++ diagnostics t2.
Proof. apply filter_app. Qed.

Lemma comparison_work_app t1 t2 :
  comparison_work (t1 ++ t2) = comparison_work t1 ++ comparison_work t2.
Proof. apply filter_app. Qed.

(** ** The stages of compare_files *)

Section Stages.

Variable w : world.
Variable o : options.

Lemma finish_success c :
  finish w o c EXIT_SUCCESS = (identical_report o c, Returned EXIT_SUCCESS).
Proof.
  unfold finish, identical_report, when. cbn [Z.eqb EXIT_SUCCESS].
  destruct (report_identical_files o && negb (DIR_P c false)); reflexivity.
Qed.

Lemma finish_flushed c s :
  s <> EXIT_SUCCESS ->
  sys_fflush_stdout w = Ok tt ->
  finish w o c s = ([ev_fflush_stdout], Returned s).
Proof.
  intros Hs Hf. unfold finish. apply Z.eqb_neq in Hs. rewrite Hs, Hf.
  reflexivity.
Qed.

Lemma compare_files_classified parent name0 name1 tr r t c s :
  only_in_one_directory o name0 name1 = false ->
  resolve w o parent name0 name1 = (tr, Returned r) ->
  classify w o (r_cmp r) (r_status r) (r_name0 r) = (t, Returned (c, s)) ->
  compare_files w o parent name0 name1
  = (tr ++ t ++ fst (finish w o c s), snd (finish w o c s)).
Proof.
  intros Hg Hr Hc. unfold compare_files. rewrite Hg.
  rewrite (bind_returned _ _ _ _ Hr).
  rewrite (bind_returned _ _ _ _ Hc). reflexivity.
Qed.

Lemma compare_files_stopped parent name0 name1 tr r t msg :
  only_in_one_directory o name0 name1 = false ->
  resolve w o parent name0 name1 = (tr, Returned r) ->
  classify w o (r_cmp r) (r_status r) (r_name0 r) = (t, Fatal msg) ->
  compare_files w o parent name0 name1 = (tr ++ t, Fatal msg).
Proof.
  intros Hg Hr Hc. unfold compare_files. rewrite Hg.
  rewrite (bind_returned _ _ _ _ Hr). rewrite Hc. reflexivity.
Qed.

(** Resolution, read backwards. *)
Lemma resolve_inv parent name0 name1 tr r :
  resolve w o parent name0 name1 = (tr, Returned r) ->
  exists c0 t1 c1 t2 st t3,
    init_comparison w parent name0 name1 = ([], Returned (c0, r_name0 r))
    /\ stat_files w o c0 = (t1, Returned c1)
    /\ report_errors (settle_nonexistent o c1) = (t2, Returned st)
    /\ use_file_in_directory w o (settle_nonexistent o c1) st
       = (t3, Returned (r_cmp r, r_status r))
    /\ tr = t1 ++ t2 ++ t3.
Proof.
  unfold resolve. intros H.
  apply bind_inv in H as (ta & [c0 n] & tb & Hi & H & ->).
  apply bind_inv in H as (t1 & c1 & tc & Hs & H & ->).
  apply bind_inv in H as (t2 & st & td & He & H & ->).
  apply bind_inv in H as (t3 & [c s] & te & Hu & H & ->).
  unfold ret in H. inversion H; subst; clear H. cbn in *.
  assert (ta = []) as ->.
  { unfold init_comparison in Hi.
    destruct name0, name1; cbn in Hi; inversion Hi; reflexivity. }
  exists c0, t1, c1, t2, st, t3. rewrite app_nil_r. auto.
Qed.

End Stages.

Section Resolution.

Variable w : world.
Variable o : options.

Lemma report_errors_value c :
  report_errors c
  = (slot_error c false ++ slot_error c true,
     Returned (if slot_failed c false || slot_failed c true
               then EXIT_TROUBLE else EXIT_SUCCESS)).
Proof.
  unfold report_errors, report_slot_error, slot_error, slot_failed,
    perror_with_name.
  destruct (0 <=? ERRNO_DECODE (desc (file c false)));
    destruct (0 <=? ERRNO_DECODE (desc (file c true))); reflexivity.
Qed.

(** The trace of the loop that stats the files holds no line for the
    user. *)
Lemma stat_or_lstat_quiet nm :
  exists e,
    stat_or_lstat w o nm
    = ([e], Returned (if no_dereference_symlinks o
                      then sys_lstat w nm else sys_stat w nm))
    /\ is_diagnostic e = false /\ is_comparison_work e = false.
Proof.
  unfold stat_or_lstat. destruct (no_dereference_symlinks o);
    eexists; repeat split; reflexivity.
Qed.

Lemma stat_stdin_quiet fd :
  exists t fd', stat_stdin w o fd = (t, Returned fd')
    /\ diagnostics t = [] /\ comparison_work t = [] /\ name fd' = name fd.
Proof.
  unfold stat_stdin, when.
  destruct (binary o && negb (sys_isatty_stdin w));
    destruct (sys_fstat_stdin w) as [st | e];
    try destruct (S_ISREG (st_mode st));
    try destruct (sys_lseek_stdin w);
    eexists; eexists; repeat split; reflexivity.
Qed.

Lemma stat_slot_quiet f c :
  exists t c', stat_slot w o f c = (t, Returned c')
    /\ diagnostics t = [] /\ comparison_work t = []
    /\ parent c' = parent c
    /\ name (file c' false) = name (file c false)
    /\ name (file c' true) = name (file c true).
Proof.
  unfold stat_slot.
  destruct (desc (file c f) =? NONEXISTENT).
  { exists [], c. repeat split. }
  destruct (f && (file_name_cmp (name (file c f)) (name (file0 c)) =? 0)).
  { eexists; eexists; split; [reflexivity|].
    destruct f, c; repeat split. }
  destruct (String.eqb (name (file c f)) "-").
  { destruct (stat_stdin_quiet (file c f)) as (t & fd' & H & Hd & Hw & Hn).
    exists (t ++ []), (set_file c f fd').
    split; [rewrite (bind_returned _ _ _ _ H); reflexivity|].
    rewrite app_nil_r.
    destruct f, c; cbn in *; repeat split; auto. }
  destruct (stat_or_lstat_quiet (name (file c f))) as (e & H & Hd & Hw).
  rewrite H. cbn.
  destruct (if no_dereference_symlinks o then _ else _);
    eexists; eexists; (split; [reflexivity|]);
    unfold diagnostics, comparison_work; cbn; rewrite Hd, Hw;
    destruct f, c; repeat split.
Qed.

Lemma stat_files_quiet c :
  exists t c', stat_files w o c = (t, Returned c')
    /\ diagnostics t = [] /\ comparison_work t = []
    /\ parent c' = parent c
    /\ name (file c' false) = name (file c false)
    /\ name (file c' true) = name (file c true).
Proof.
  unfold stat_files.
  destruct (stat_slot_quiet false c) as (t1 & c1 & H1 & Hd1 & Hw1 & Hp1 & Ha1 & Hb1).
  destruct (stat_slot_quiet true c1) as (t2 & c2 & H2 & Hd2 & Hw2 & Hp2 & Ha2 & Hb2).
  exists (t1 ++ t2), c2. rewrite (bind_returned _ _ _ _ H1), H2.
  rewrite diagnostics_app, comparison_work_app, Hd1, Hd2, Hw1, Hw2.
  repeat split; congruence.
Qed.

End Resolution.

Section ResolutionFacts.

Variable w : world.
Variable o : options.

(** After lines 1166-1170 a nonexistent file has the type of the other
    file, and no size. *)
Lemma clear_nonexistent_modes c f :
  let c' := clear_nonexistent (clear_nonexistent c false) true in
  absent c' f = true ->
  mode c' false = mode c' true /\ st_size (stat_of (file c' f)) = 0%N.
Proof.
  destruct c as [[n0 d0 s0] [n1 d1 s1] p].
  unfold clear_nonexistent, absent, mode. cbn.
  destruct (d0 =? NONEXISTENT) eqn:E0; cbn;
    destruct (d1 =? NONEXISTENT) eqn:E1; cbn;
    destruct f; cbn; split; congruence.
Qed.

Lemma settle_nonexistent_modes c f :
  absent (settle_nonexistent o c) f = true ->
  mode (settle_nonexistent o c) false = mode (settle_nonexistent o c) true
  /\ st_size (stat_of (file (settle_nonexistent o c) f)) = 0%N.
Proof. apply clear_nonexistent_modes. Qed.

Lemma settle_nonexistent_names c :
  parent (settle_nonexistent o c) = parent c
  /\ name (file (settle_nonexistent o c) false) = name (file c false)
  /\ name (file (settle_nonexistent o c) true) = name (file c true).
Proof.
  destruct c as [[n0 d0 s0] [n1 d1 s1] p].
  unfold settle_nonexistent, clear_nonexistent, mark_nonexistent.
  repeat match goal with
         | |- context [if ?b then _ else _] => destruct b; cbn
         end; repeat split.
Qed.

Lemma use_file_in_directory_facts c st t c' st' :
  use_file_in_directory w o c st = (t, Returned (c', st')) ->
  (forall f, desc (file c' f) = desc (file c f))
  /\ parent c' = parent c
  /\ comparison_work t = []
  /\ (st' = st
      \/ (st = EXIT_SUCCESS /\ st' = EXIT_TROUBLE
          /\ DIR_P c' false <> DIR_P c' true))
  /\ (st' = EXIT_SUCCESS -> diagnostics t = [])
  /\ (DIR_P c false = DIR_P c true -> c' = c /\ t = [] /\ st' = st)
  /\ (st <> EXIT_SUCCESS -> c' = c /\ t = [] /\ st' = st).
Proof.
  unfold use_file_in_directory.
  destruct (st =? EXIT_SUCCESS) eqn:Es; cbn [andb];
    [apply Z.eqb_eq in Es | apply Z.eqb_neq in Es].
  2:{ intros H; inversion H; subst. repeat split; auto; try tauto. }
  destruct (is_some (parent c)) eqn:Ep; cbn [andb negb].
  { intros H; inversion H; subst. repeat split; auto; try tauto. }
  destruct (Bool.eqb (DIR_P c false) (DIR_P c true)) eqn:Ed; cbn [negb].
  { intros H; inversion H; subst. repeat split; auto; try tauto. }
  rewrite bind_emit. cbn [fst snd].
  destruct (String.eqb (name (file c (DIR_P c false))) "-").
  { rewrite bind_fatal. discriminate. }
  rewrite bind_ret.
  destruct (stat_or_lstat_quiet w o
              (find_dir_file_pathname w (name (file c (negb (DIR_P c false))))
                 (last_component w (name (file c (DIR_P c false))))))
    as (e & He & Hd & Hw).
  rewrite (bind_returned _ _ _ _ He).
  apply eqb_false_iff in Ed.
  destruct (if no_dereference_symlinks o then _ else _) as [s | er];
    cbn; intros H; inversion H; subst; clear H;
    unfold diagnostics, comparison_work; cbn; rewrite ?Hd, ?Hw.
  all: repeat split; auto; try tauto; try (intros; discriminate).
  all: try (intros f; destruct c as [[n0 d0 s0] [n1 d1 s1] p];
            destruct f, (DIR_P _ false); reflexivity).
  all: try (destruct c as [[n0 d0 s0] [n1 d1 s1] p];
            destruct (DIR_P _ false); reflexivity).
  right. repeat split; auto.
  destruct c as [[n0 d0 s0] [n1 d1 s1] p].
  unfold DIR_P, mode in *. cbn in *.
  destruct (S_ISDIR (st_mode s0)) eqn:E0; cbn in *; rewrite ?E0; auto.
Qed.

End ResolutionFacts.

Section ResolveFacts.

Variable w : world.
Variable o : options.

Lemma init_comparison_parent p name0 name1 t c n :
  init_comparison w p name0 name1 = (t, Returned (c, n)) ->
  parent c = p.
Proof.
  unfold init_comparison.
  destruct name0, name1; cbn; intros H; inversion H; reflexivity.
Qed.

Lemma diagnostics_slot_error c f :
  diagnostics (slot_error c f) = slot_error c f.
Proof. unfold slot_error. destruct (slot_failed c f); reflexivity. Qed.

Lemma comparison_work_slot_error c f :
  comparison_work (slot_error c f) = [].
Proof. unfold slot_error. destruct (slot_failed c f); reflexivity. Qed.

Lemma slot_failed_desc c c' f :
  desc (file c' f) = desc (file c f) -> slot_failed c' f = slot_failed c f.
Proof. unfold slot_failed. intros ->. reflexivity. Qed.

Lemma modes_DIR_P c :
  mode c false = mode c true -> DIR_P c false = DIR_P c true.
Proof. unfold DIR_P. intros ->. reflexivity. Qed.

(** What holds of every pair that resolution hands to the
    classification. *)
Lemma resolve_facts p name0 name1 tr r :
  resolve w o p name0 name1 = (tr, Returned r) ->
  comparison_work tr = []
  /\ parent (r_cmp r) = p
  /\ (r_status r = EXIT_SUCCESS \/ r_status r = EXIT_TROUBLE)
  /\ (r_status r = EXIT_SUCCESS ->
      diagnostics tr = [] /\ forall f, slot_failed (r_cmp r) f = false)
  /\ (forall f, absent (r_cmp r) f = true ->
      mode (r_cmp r) false = mode (r_cmp r) true
      /\ st_size (stat_of (file (r_cmp r) f)) = 0%N)
  /\ (r_status r = EXIT_TROUBLE ->
      slot_failed (r_cmp r) false = true \/ slot_failed (r_cmp r) true = true
      \/ DIR_P (r_cmp r) false <> DIR_P (r_cmp r) true)
  /\ (slot_failed (r_cmp r) false || slot_failed (r_cmp r) true = true ->
      diagnostics tr = slot_error (r_cmp r) false ++ slot_error (r_cmp r) true
      /\ r_status r = EXIT_TROUBLE).
Proof.
  intros H. apply resolve_inv in H
    as (c0 & t1 & c1 & t2 & st & t3 & Hi & Hs & He & Hu & ->).
  destruct (stat_files_quiet w o c0)
    as (t1' & c1' & Hs' & Hd1 & Hw1 & Hp1 & _ & _).
  rewrite Hs in Hs'. inversion Hs'; subst t1' c1'; clear Hs'.
  apply init_comparison_parent in Hi.
  rewrite report_errors_value in He. inversion He; subst t2 st; clear He.
  destruct (settle_nonexistent_names o c1) as (Hp2 & _ & _).
  set (c := settle_nonexistent o c1) in *.
  apply use_file_in_directory_facts in Hu
    as (Hdesc & Hp3 & Hw3 & Hst & Hd3 & Hsame & Hidle).
  assert (Hf : forall f, slot_failed (r_cmp r) f = slot_failed c f)
    by (intros f; apply slot_failed_desc, Hdesc).
  rewrite !comparison_work_app, !diagnostics_app, Hw1, Hw3, Hd1,
    !comparison_work_slot_error, !diagnostics_slot_error.
  rewrite !Hf. cbn [app].
  destruct (slot_failed c false || slot_failed c true) eqn:Efail.
  - destruct Hidle as (Hc & Ht & Hs3); [discriminate|].
    rewrite Hc, Ht, Hs3, app_nil_r in *.
    split; [reflexivity|]. split; [congruence|]. split; [auto|].
    split; [discriminate|].
    split; [intros f; apply settle_nonexistent_modes|].
    split; [intros _; apply orb_true_iff in Efail; tauto|]. auto.
  - apply orb_false_iff in Efail as (E0 & E1).
    unfold slot_error. rewrite !Hf, E0, E1. cbn [app].
    split; [reflexivity|]. split; [congruence|].
    split; [destruct Hst as [-> | (_ & -> & _)]; auto|].
    split.
    { intros Hs3. split; [auto|]. intros f. rewrite Hf.
      destruct f; assumption. }
    split.
    { intros f Ha.
      destruct (Bool.bool_dec (DIR_P c false) (DIR_P c true)) as [Eq | Ne].
      - destruct (Hsame Eq) as (Hc & _ & _). rewrite Hc in *.
        apply (settle_nonexistent_modes o c1 f). exact Ha.
      - exfalso. apply Ne. apply modes_DIR_P.
        apply (settle_nonexistent_modes o c1 f).
        unfold absent in *. fold c. rewrite <- Hdesc. exact Ha. }
    split; [|discriminate].
    intros Ht. right. right.
    destruct Hst as [E | (_ & _ & Hne)]; [|exact Hne].
    rewrite Ht in E. discriminate.
Qed.

End ResolveFacts.

(** ** The cases of the classification, one lemma each *)

Section Cases.

Variable w : world.
Variable o : options.

Lemma classify_failed c st n :
  st <> EXIT_SUCCESS -> classify w o c st n = ret (c, st).
Proof.
  intros H. unfold classify. apply Z.eqb_neq in H. rewrite H. reflexivity.
Qed.

Lemma classify_both_absent c n :
  both_absent c = true ->
  classify w o c EXIT_SUCCESS n = ret (c, EXIT_SUCCESS).
Proof.
  unfold both_absent, absent, file. intros H. unfold classify.
  rewrite H. reflexivity.
Qed.

Lemma classify_same_file c n :
  both_absent c = false ->
  same_file_shortcut o c = true ->
  classify w o c EXIT_SUCCESS n = ret (c, EXIT_SUCCESS).
Proof.
  unfold both_absent, absent, file, same_file_shortcut. intros H1 H2.
  unfold classify. rewrite H1, H2. reflexivity.
Qed.

Lemma classify_directories c n :
  both_absent c = false ->
  same_file_shortcut o c = false ->
  both_directories c = true ->
  classify w o c EXIT_SUCCESS n
  = ((if is_OUTPUT_IFDEF (output_style o)
      then fatal "-D option not supported with directories"
      else ret tt) ;;;
     if is_some (parent c) && negb (recursive o) then
       message ("Common subdirectories: %s and %s" ++ nl)
         [name (file0 c); name (file1 c)] ;;;
       ret (c, EXIT_SUCCESS)
     else
       s <- call_diff_dirs w c ;;
       ret (c, s)).
Proof.
  unfold both_absent, absent, file, same_file_shortcut, both_directories.
  intros H1 H2 H3. unfold classify. rewrite H1, H2, H3. reflexivity.
Qed.

Lemma classify_not_compared c n :
  both_absent c = false ->
  same_file_shortcut o c = false ->
  both_directories c = false ->
  not_to_be_compared c = true ->
  classify w o c EXIT_SUCCESS n
  = (if absent c false || absent c true then
       if missing_subtree_is_empty o c then
         s <- call_diff_dirs w c ;;
         ret (c, s)
       else
         match parent c with
         | None => crash "assert (parent)"
         | Some p =>
             message ("Only in %s: %s" ++ nl)
               [name (file p (absent c false)); n] ;;;
             ret (c, EXIT_FAILURE)
         end
     else
       report_file_types w o c ;;;
       ret (c, EXIT_FAILURE)).
Proof.
  unfold both_absent, absent, file, same_file_shortcut, both_directories.
  intros H1 H2 H3 H4. unfold classify. rewrite H1, H2, H3, H4. reflexivity.
Qed.

Lemma classify_symlinks c n :
  both_absent c = false ->
  same_file_shortcut o c = false ->
  both_directories c = false ->
  not_to_be_compared c = false ->
  either_symlink c = true ->
  classify w o c EXIT_SUCCESS n = (s <- compare_symlinks w o c ;; ret (c, s)).
Proof.
  unfold both_absent, absent, file, same_file_shortcut, both_directories,
    either_symlink.
  intros H1 H2 H3 H4 H5. unfold classify. rewrite H1, H2, H3, H4, H5.
  reflexivity.
Qed.

Lemma classify_quick_binary c n :
  both_absent c = false ->
  same_file_shortcut o c = false ->
  both_directories c = false ->
  not_to_be_compared c = false ->
  either_symlink c = false ->
  quick_binary_differ o c = true ->
  classify w o c EXIT_SUCCESS n
  = ([ev_message ("Files %s and %s differ" ++ nl)
        [label_or_name o c false; label_or_name o c true]],
     Returned (c, EXIT_FAILURE)).
Proof.
  unfold both_absent, absent, file, same_file_shortcut, both_directories,
    either_symlink.
  intros H1 H2 H3 H4 H5 H6. unfold classify. rewrite H1, H2, H3, H4, H5, H6.
  reflexivity.
Qed.

Lemma classify_contents c n :
  both_absent c = false ->
  same_file_shortcut o c = false ->
  both_directories c = false ->
  not_to_be_compared c = false ->
  either_symlink c = false ->
  quick_binary_differ o c = false ->
  classify w o c EXIT_SUCCESS n = compare_contents w c (same_files c).
Proof.
  unfold both_absent, absent, file, same_file_shortcut, both_directories,
    either_symlink.
  intros H1 H2 H3 H4 H5 H6. unfold classify. rewrite H1, H2, H3, H4, H5, H6.
  reflexivity.
Qed.

End Cases.

(** ** C8 *)

Lemma absent_not_failed c f : absent c f = true -> slot_failed c f = false.
Proof.
  unfold absent, slot_failed. intros H. apply Z.eqb_eq in H. rewrite H.
  reflexivity.
Qed.

Lemma both_absent_resolved w o p name0 name1 tr r :
  resolve w o p name0 name1 = (tr, Returned r) ->
  both_absent (r_cmp r) = true ->
  r_status r = EXIT_SUCCESS.
Proof.
  intros Hr Hb. apply andb_true_iff in Hb as (H0 & H1).
  destruct (resolve_facts _ _ _ _ _ _ _ Hr)
    as (_ & _ & [Hs | Ht] & _ & Hm & Hwhy & _); [exact Hs|].
  destruct (Hwhy Ht) as [F | [F | F]].
  - rewrite (absent_not_failed _ _ H0) in F. discriminate.
  - rewrite (absent_not_failed _ _ H1) in F. discriminate.
  - exfalso. apply F. apply modes_DIR_P. apply (proj1 (Hm false H0)).
Qed.

(** C8, amended.  When both sides of a pair are absent, [compare_files]
    returns EXIT_SUCCESS without reading anything, and what it writes is
    the line "Files A and B are identical" when -s asks for it, and
    nothing otherwise. *)
Theorem both_absent_is_success w o p name0 name1 tr r :
  only_in_one_directory o name0 name1 = false ->
  resolve w o p name0 name1 = (tr, Returned r) ->
  both_absent (r_cmp r) = true ->
  compare_files w o p name0 name1
  = (tr ++ identical_report o (r_cmp r), Returned EXIT_SUCCESS)
  /\ diagnostics (fst (compare_files w o p name0 name1))
     = identical_report o (r_cmp r)
  /\ comparison_work (fst (compare_files w o p name0 name1)) = []
  /\ (report_identical_files o = false ->
      diagnostics (fst (compare_files w o p name0 name1)) = []).
Proof.
  intros Hg Hr Hb.
  pose proof (both_absent_resolved _ _ _ _ _ _ _ Hr Hb) as Hs.
  destruct (resolve_facts _ _ _ _ _ _ _ Hr)
    as (Hw & _ & _ & Hquiet & _). destruct (Hquiet Hs) as (Hd & _).
  assert (E : compare_files w o p name0 name1
              = (tr ++ identical_report o (r_cmp r), Returned EXIT_SUCCESS)).
  { rewrite (compare_files_classified w o _ _ _ _ _ [] (r_cmp r) EXIT_SUCCESS
               Hg Hr).
    - rewrite finish_success. reflexivity.
    - rewrite Hs. apply classify_both_absent, Hb. }
  rewrite E. cbn [fst snd].
  rewrite diagnostics_app, comparison_work_app, Hd, Hw. cbn [app].
  unfold identical_report.
  destruct (report_identical_files o); cbn [andb];
    [destruct (negb (DIR_P (r_cmp r) false))|]; repeat split; discriminate.
Qed.

Lemma both_absent_is_success_witness :
  compare_files two_backup_files (set_new_file plain_options true) None
    (Some "a") (Some "b")
  = ([ev_stat "a"; ev_stat "b"], Returned EXIT_SUCCESS).
Proof.
  refine (proj1 (both_absent_is_success two_backup_files
                   (set_new_file plain_options true) None (Some "a") (Some "b")
                   [ev_stat "a"; ev_stat "b"]
                   (mk_resolved
                      (mk_comparison
                         (mk_file_data "a" NONEXISTENT (with_mode zero_stat 32768))
                         (mk_file_data "b" NONEXISTENT (with_mode zero_stat 32768))
                         None)
                      EXIT_SUCCESS "a") _ _ _)); reflexivity.
Defined.

(** With -N and -s, two empty files without permissions are both taken
    as absent, and the line for identical files is written. *)
Lemma both_absent_is_silent_counterexample :
  ~ both_absent_is_silent two_backup_files
      (set_report_identical_files (set_new_file plain_options true) true)
      None (Some "a") (Some "b").
Proof.
  intros H.
  destruct (H [ev_stat "a"; ev_stat "b"]
              (mk_resolved
                 (mk_comparison
                    (mk_file_data "a" NONEXISTENT (with_mode zero_stat 32768))
                    (mk_file_data "b" NONEXISTENT (with_mode zero_stat 32768))
                    None)
                 EXIT_SUCCESS "a") eq_refl eq_refl eq_refl) as (_ & Hd).
  vm_compute in Hd. discriminate.
Qed.

(** ** C6 *)

(** C6.  When the resolution of one slot at least has failed (its
    descriptor holds an encoded errno, not turned into NONEXISTENT), each
    failed slot has been reported once, by [perror_with_name] in the
    loop of lines 1172-1179, and the status is EXIT_TROUBLE when the
    classification starts; and whenever resolution ends on a status
    other than EXIT_SUCCESS the classification writes nothing more,
    nothing is opened, read or walked, and, the flush of standard output
    passing, [compare_files] returns EXIT_TROUBLE. *)
Theorem failed_slot_is_trouble w o p name0 name1 tr r :
  only_in_one_directory o name0 name1 = false ->
  resolve w o p name0 name1 = (tr, Returned r) ->
  (slot_failed (r_cmp r) false || slot_failed (r_cmp r) true = true ->
   r_status r = EXIT_TROUBLE
   /\ diagnostics tr
      = slot_error (r_cmp r) false ++ slot_error (r_cmp r) true)
  /\ (r_status r <> EXIT_SUCCESS ->
      sys_fflush_stdout w = Ok tt ->
      compare_files w o p name0 name1
      = (tr ++ [ev_fflush_stdout], Returned EXIT_TROUBLE)
      /\ diagnostics (fst (compare_files w o p name0 name1)) = diagnostics tr
      /\ comparison_work (fst (compare_files w o p name0 name1)) = []).
Proof.
  intros Hg Hr.
  destruct (resolve_facts _ _ _ _ _ _ _ Hr)
    as (Hw & _ & Hst & _ & _ & _ & Hrep).
  split.
  - intros Hfail. destruct (Hrep Hfail) as (Hd & Hs). auto.
  - intros Hne Hflush.
    assert (Hs : r_status r = EXIT_TROUBLE) by tauto.
    assert (E : compare_files w o p name0 name1
                = (tr ++ [ev_fflush_stdout], Returned EXIT_TROUBLE)).
    { rewrite (compare_files_classified w o _ _ _ _ _ [] (r_cmp r)
                 EXIT_TROUBLE Hg Hr).
      - rewrite finish_flushed by (discriminate || assumption). reflexivity.
      - rewrite Hs. apply classify_failed. discriminate. }
    rewrite E. cbn [fst].
    rewrite diagnostics_app, comparison_work_app, Hw. cbn.
    rewrite app_nil_r. auto.
Qed.

Lemma failed_slot_is_trouble_witness :
  compare_files empty_file_system plain_options None (Some "x") (Some "y")
  = ([ev_stat "x"; ev_stat "y";
      ev_perror_with_name "x" ENOENT; ev_perror_with_name "y" ENOENT;
      ev_fflush_stdout],
     Returned EXIT_TROUBLE).
Proof.
  destruct (failed_slot_is_trouble empty_file_system plain_options None
              (Some "x") (Some "y")
              [ev_stat "x"; ev_stat "y";
               ev_perror_with_name "x" ENOENT;
               ev_perror_with_name "y" ENOENT]
              (mk_resolved
                 (mk_comparison
                    (mk_file_data "x" (ERRNO_ENCODE ENOENT) zero_stat)
                    (mk_file_data "y" (ERRNO_ENCODE ENOENT) zero_stat)
                    None)
                 EXIT_TROUBLE "x") eq_refl eq_refl) as (Hreported & Hrun).
  destruct (Hreported eq_refl) as (Hs & _).
  apply Hrun; [discriminate | reflexivity].
Defined.

(** ** C4 *)

Lemma resolve_name0 w o p name0 name1 n tr r :
  resolve w o p name0 name1 = (tr, Returned r) ->
  first_name name0 name1 = Some n ->
  r_name0 r = n.
Proof.
  intros Hr Hn. apply resolve_inv in Hr as (c0 & _ & _ & _ & _ & _ & Hi & _).
  unfold init_comparison, first_name in *.
  destruct name0, name1; cbn in *; inversion Hi; congruence.
Qed.

(** C4.  A pair inside a directory comparison of which one side is
    absent, and is not to be taken as an empty file, makes
    [compare_files] write the one line "Only in DIR: NAME" and return
    EXIT_FAILURE; DIR is the name, in the parent comparison, of the
    directory that holds the entity, and NAME the name of the entity in
    it.  The guard of lines 1067-1069 decides this before any file is
    looked at; with -N or -P in force the same line is written at
    lines 1248-1257 for an entity that is neither a directory, a regular
    file nor a symbolic link (the flush of standard output passing). *)
Theorem only_in_one_side w o p :
  (forall n,
      new_file o = false ->
      compare_files w o (Some p) (Some n) None
      = ([ev_message ("Only in %s: %s" ++ nl) [name (file p false); n]],
         Returned EXIT_FAILURE))
  /\ (forall n,
      new_file o = false -> unidirectional_new_file o = false ->
      compare_files w o (Some p) None (Some n)
      = ([ev_message ("Only in %s: %s" ++ nl) [name (file p true); n]],
         Returned EXIT_FAILURE))
  /\ (forall name0 name1 n tr r f,
      only_in_one_directory o name0 name1 = false ->
      first_name name0 name1 = Some n ->
      resolve w o (Some p) name0 name1 = (tr, Returned r) ->
      r_status r = EXIT_SUCCESS ->
      absent (r_cmp r) f = true ->
      absent (r_cmp r) (negb f) = false ->
      DIR_P (r_cmp r) (negb f) = false ->
      regular_or_link (r_cmp r) (negb f) = false ->
      sys_fflush_stdout w = Ok tt ->
      compare_files w o (Some p) name0 name1
      = (tr ++ [ev_message ("Only in %s: %s" ++ nl)
                  [name (file p (negb f)); n];
                ev_fflush_stdout],
         Returned EXIT_FAILURE)
      /\ diagnostics (fst (compare_files w o (Some p) name0 name1))
         = [ev_message ("Only in %s: %s" ++ nl) [name (file p (negb f)); n]]).
Proof.
  split; [|split].
  - intros n Hn. unfold compare_files, only_in_one_directory.
    rewrite Hn. cbn. rewrite andb_false_r. reflexivity.
  - intros n Hn Hu. unfold compare_files, only_in_one_directory.
    rewrite Hn, Hu. reflexivity.
  - intros name0 name1 n tr r f Hg Hn Hr Hs Ha Hb Hd Hk Hflush.
    rewrite <- (resolve_name0 _ _ _ _ _ _ _ _ Hr Hn).
    destruct (resolve_facts _ _ _ _ _ _ _ Hr)
      as (_ & Hp & _ & Hquiet & Hm & _ & _).
    destruct (Hquiet Hs) as (Hdiag & _).
    match goal with
    | |- ?run = ?v /\ _ =>
        assert (E : run = v); [|split; [exact E|rewrite E; cbn [fst];
          rewrite diagnostics_app, Hdiag; reflexivity]]
    end.
    pose proof (proj1 (Hm f Ha)) as Hmode.
    assert (Hmf : mode (r_cmp r) f = mode (r_cmp r) (negb f))
      by (destruct f; cbn [negb]; congruence).
    assert (Hdf : DIR_P (r_cmp r) f = false)
      by (unfold DIR_P in *; rewrite Hmf; exact Hd).
    assert (Hkf : regular_or_link (r_cmp r) f = false)
      by (unfold regular_or_link in *; rewrite Hmf; exact Hk).
    rewrite (compare_files_classified w o _ _ _ _ _
               [ev_message ("Only in %s: %s" ++ nl)
                  [name (file p (negb f)); r_name0 r]]
               (r_cmp r) EXIT_FAILURE Hg Hr).
    + rewrite finish_flushed by (discriminate || assumption). reflexivity.
    + rewrite Hs, classify_not_compared.
      * replace (absent (r_cmp r) false || absent (r_cmp r) true) with true
          by (destruct f; cbn [negb] in *; rewrite Ha, Hb; reflexivity).
        replace (missing_subtree_is_empty o (r_cmp r)) with false
          by (unfold missing_subtree_is_empty;
              destruct f; cbn [negb] in *; rewrite Hd, Hdf; reflexivity).
        rewrite Hp.
        replace (absent (r_cmp r) false) with (negb f)
          by (destruct f; cbn [negb] in *; congruence).
        reflexivity.
      * unfold both_absent. destruct f; cbn [negb] in *; rewrite Ha, Hb;
          reflexivity.
      * unfold same_file_shortcut, same_files. unfold absent, file in Ha.
        destruct f; rewrite Ha; cbn; rewrite ?andb_false_r; reflexivity.
      * unfold both_directories. destruct f; cbn [negb] in *;
          rewrite Hd, Hdf; reflexivity.
      * unfold not_to_be_compared. rewrite Hp.
        destruct f; cbn [negb] in *; rewrite Hd, Hdf, Hk, Hkf; reflexivity.
Qed.

Lemma only_in_one_side_witness :
  compare_files empty_file_system plain_options (Some two_directories)
    (Some "b") None
  = ([ev_message ("Only in %s: %s" ++ nl) ["d1"; "b"]], Returned EXIT_FAILURE)
  /\ compare_files empty_file_system plain_options (Some two_directories)
       None (Some "c")
     = ([ev_message ("Only in %s: %s" ++ nl) ["d2"; "c"]], Returned EXIT_FAILURE)
  /\ compare_files fifo_on_one_side (set_new_file plain_options true)
       (Some two_directories) (Some "p") (Some "p")
     = ([ev_stat "d1/p"; ev_stat "d2/p";
         ev_message ("Only in %s: %s" ++ nl) ["d1"; "p"]; ev_fflush_stdout],
        Returned EXIT_FAILURE).
Proof.
  split; [|split].
  - apply (proj1 (only_in_one_side empty_file_system plain_options
                    two_directories) "b"). reflexivity.
  - apply (proj1 (proj2 (only_in_one_side empty_file_system plain_options
                           two_directories)) "c"); reflexivity.
  - refine (proj1 (proj2 (proj2 (only_in_one_side fifo_on_one_side
                            (set_new_file plain_options true) two_directories))
              (Some "p") (Some "p") "p" [ev_stat "d1/p"; ev_stat "d2/p"]
              (mk_resolved
                 (mk_comparison
                    (mk_file_data "d1/p" UNOPENED (fifo 21))
                    (mk_file_data "d2/p" NONEXISTENT (with_mode zero_stat 4516))
                    (Some two_directories))
                 EXIT_SUCCESS "p") true _ _ _ _ _ _ _ _ _)); reflexivity.
Defined.

(** ** C2 *)

Lemma same_file_shortcut_iff o c :
  same_file_shortcut o c = true <-> same_entity o c.
Proof.
  unfold same_file_shortcut, same_files, same_entity, same_file,
    same_file_attributes, absent, file.
  rewrite !andb_true_iff, !negb_true_iff.
  destruct ((st_ino (stat_of (file0 c)) =? st_ino (stat_of (file1 c)))
            && (st_dev (stat_of (file0 c)) =? st_dev (stat_of (file1 c))))
    eqn:E.
  - apply andb_true_iff in E as (E1 & E2).
    rewrite Z.eqb_eq in E1, E2. rewrite !Z.eqb_eq, N.eqb_eq. cbn.
    intuition.
  - cbn. split; [intuition discriminate|].
    intros (_ & _ & Hd & Hi & _).
    apply Z.eqb_eq in Hd, Hi. rewrite Hd, Hi in E. discriminate.
Qed.

Lemma bind_acts {A B : Type} (m : M A) (k : A -> M B) x :
  fst m <> [] -> bind m k <> ([], x).
Proof.
  destruct m as [t [a | msg | why]]; cbn; intros Hne H.
  - destruct (k a). inversion H. destruct t; [tauto | discriminate].
  - inversion H. tauto.
  - inversion H. tauto.
Qed.

Lemma open_slot_acts w c f st x : open_slot w c f st <> ([], x).
Proof. unfold open_slot. rewrite bind_emit. discriminate. Qed.

(** The comparison of the contents always does something. *)
Lemma compare_contents_acts w c same x :
  compare_contents w c same <> ([], Returned x).
Proof.
  unfold compare_contents. intros H.
  apply bind_inv in H as (t1 & a & t2 & HA & H & Ht).
  symmetry in Ht. apply app_eq_nil in Ht as (-> & ->).
  apply bind_inv in H as (t3 & b & t4 & HB & H & Ht).
  symmetry in Ht. apply app_eq_nil in Ht as (-> & ->).
  apply bind_inv in H as (t5 & s & t6 & HC & _ & Ht).
  symmetry in Ht. apply app_eq_nil in Ht as (-> & ->).
  assert (Ha : snd a = EXIT_SUCCESS).
  { destruct (desc (file0 c) =? UNOPENED).
    - exfalso. exact (open_slot_acts _ _ _ _ _ HA).
    - inversion HA. reflexivity. }
  assert (Hb : snd b = EXIT_SUCCESS).
  { destruct (desc (file1 (fst a)) =? UNOPENED); [destruct same|].
    - inversion HB. exact Ha.
    - exfalso. exact (open_slot_acts _ _ _ _ _ HB).
    - inversion HB. subst. exact Ha. }
  rewrite Hb in HC. cbn [Z.eqb EXIT_SUCCESS] in HC.
  rewrite bind_emit in HC. discriminate.
Qed.

(** Past the short-circuit every case does something, or ends the
    process. *)
Lemma classify_acts w o c n x :
  both_absent c = false ->
  same_file_shortcut o c = false ->
  classify w o c EXIT_SUCCESS n <> ([], Returned x).
Proof.
  intros H1 H2.
  destruct (both_directories c) eqn:H3.
  { rewrite classify_directories by assumption.
    destruct (is_OUTPUT_IFDEF (output_style o)); [discriminate|].
    rewrite bind_ret.
    destruct (is_some (parent c) && negb (recursive o)); [discriminate|].
    unfold call_diff_dirs. destruct (diff_dirs w c); discriminate. }
  destruct (not_to_be_compared c) eqn:H4.
  { rewrite classify_not_compared by assumption.
    destruct (absent c false || absent c true); [|discriminate].
    destruct (missing_subtree_is_empty o c).
    - unfold call_diff_dirs. destruct (diff_dirs w c); discriminate.
    - destruct (parent c); discriminate. }
  destruct (either_symlink c) eqn:H5.
  { rewrite classify_symlinks by assumption.
    unfold compare_symlinks.
    destruct (no_dereference_symlinks o); [|discriminate].
    cbn [assert]. rewrite bind_ret.
    destruct (S_ISLNK (mode c false) && S_ISLNK (mode c true));
      [|discriminate].
    apply bind_acts. rewrite bind_emit. discriminate. }
  destruct (quick_binary_differ o c) eqn:H6.
  { rewrite classify_quick_binary by assumption. discriminate. }
  rewrite classify_contents by assumption. apply compare_contents_acts.
Qed.

Lemma shortcut_taken_iff w o r :
  r_status r = EXIT_SUCCESS ->
  shortcut_taken w o r <-> same_entity o (r_cmp r).
Proof.
  intros Hs. rewrite <- same_file_shortcut_iff. unfold shortcut_taken.
  rewrite Hs. split.
  - intros (Hb & Hc).
    destruct (same_file_shortcut o (r_cmp r)) eqn:E; [reflexivity|].
    exfalso. exact (classify_acts _ _ _ _ _ Hb E Hc).
  - intros E. assert (Hb : both_absent (r_cmp r) = false).
    { apply same_file_shortcut_iff in E. destruct E as (E0 & _).
      unfold both_absent. rewrite E0. reflexivity. }
    split; [exact Hb|]. apply classify_same_file; assumption.
Qed.

(** C2, amended.  For a pair resolved without error, [compare_files]
    takes the short-circuit exactly when both sides are present, their
    device and inode match, their attributes (mode, size, owner) are
    equal and [no_diff_means_no_output] holds, whatever the type of the
    entity; it then returns EXIT_SUCCESS having opened and read nothing;
    and it never takes it when [no_diff_means_no_output] is false. *)
Theorem shortcut_for_same_entity w o p name0 name1 tr r :
  only_in_one_directory o name0 name1 = false ->
  resolve w o p name0 name1 = (tr, Returned r) ->
  r_status r = EXIT_SUCCESS ->
  (shortcut_taken w o r <-> same_entity o (r_cmp r))
  /\ (shortcut_taken w o r ->
      compare_files w o p name0 name1
      = (tr ++ identical_report o (r_cmp r), Returned EXIT_SUCCESS)
      /\ comparison_work (fst (compare_files w o p name0 name1)) = [])
  /\ (no_diff_means_no_output o = false -> ~ shortcut_taken w o r).
Proof.
  intros Hg Hr Hs. split; [|split].
  - apply shortcut_taken_iff, Hs.
  - intros (Hb & Hc).
    destruct (resolve_facts _ _ _ _ _ _ _ Hr) as (Hw & _).
    assert (E : compare_files w o p name0 name1
                = (tr ++ identical_report o (r_cmp r), Returned EXIT_SUCCESS)).
    { rewrite (compare_files_classified w o _ _ _ _ _ [] (r_cmp r)
                 EXIT_SUCCESS Hg Hr Hc).
      rewrite finish_success. reflexivity. }
    rewrite E. split; [reflexivity|]. cbn [fst].
    rewrite comparison_work_app, Hw. unfold identical_report.
    destruct (report_identical_files o && negb (DIR_P (r_cmp r) false));
      reflexivity.
  - intros Hn Ht. apply (shortcut_taken_iff _ _ _ Hs) in Ht.
    destruct Ht as (_ & _ & _ & _ & _ & _ & _ & Ht). congruence.
Qed.

Lemma shortcut_for_same_entity_witness :
  shortcut_taken one_directory_two_names plain_options one_directory_resolved
  /\ compare_files one_directory_two_names plain_options None
       (Some "d") (Some "./d")
     = ([ev_stat "d"; ev_stat "./d"], Returned EXIT_SUCCESS).
Proof.
  destruct (shortcut_for_same_entity one_directory_two_names plain_options
              None (Some "d") (Some "./d") [ev_stat "d"; ev_stat "./d"]
              one_directory_resolved eq_refl eq_refl eq_refl)
    as (Hiff & Hrun & _).
  assert (Ht : shortcut_taken one_directory_two_names plain_options
                 one_directory_resolved).
  { apply Hiff. unfold same_entity. cbn. repeat split. }
  split; [exact Ht|]. exact (proj1 (Hrun Ht)).
Defined.

(** A directory compared with itself under another name: the
    short-circuit is taken, and the two are not regular files. *)
Lemma shortcut_exactly_for_regular_files_counterexample :
  ~ shortcut_exactly_for_regular_files one_directory_two_names plain_options
      None (Some "d") (Some "./d").
Proof.
  intros H.
  destruct (H [ev_stat "d"; ev_stat "./d"] one_directory_resolved
              eq_refl eq_refl eq_refl) as (Hreg & _).
  assert (Ht : shortcut_taken one_directory_two_names plain_options
                 one_directory_resolved) by (split; reflexivity).
  destruct (Hreg Ht) as (_ & _ & Hr & _). vm_compute in Hr. discriminate.
Qed.

(** ** C7 *)

Lemma finish_directory w o c s :
  DIR_P c false = true ->
  sys_fflush_stdout w = Ok tt ->
  snd (finish w o c s) = Returned s.
Proof.
  intros Hd Hf. destruct (Z.eq_dec s EXIT_SUCCESS) as [-> | Hs].
  - rewrite finish_success. reflexivity.
  - rewrite finish_flushed by assumption. reflexivity.
Qed.

(** C7, amended.  For a pair resolved without error of which both sides
    are directories, one at least present, that is not cut short as one
    physical file and with an output style other than OUTPUT_IFDEF:
    inside a directory comparison and without -r, [compare_files] writes
    "Common subdirectories: A and B" and returns EXIT_SUCCESS without
    walking; otherwise it calls [diff_dirs] on the pair and returns the
    status of the walk (the flush of standard output passing).  With
    OUTPUT_IFDEF the run ends on a fatal error instead. *)
Theorem directories_are_walked_unless_same w o p name0 name1 tr r :
  only_in_one_directory o name0 name1 = false ->
  resolve w o p name0 name1 = (tr, Returned r) ->
  r_status r = EXIT_SUCCESS ->
  both_directories (r_cmp r) = true ->
  both_absent (r_cmp r) = false ->
  same_file_shortcut o (r_cmp r) = false ->
  (is_OUTPUT_IFDEF (output_style o) = false ->
   compare_files w o p name0 name1 = directory_pair_run w o p tr (r_cmp r)
   /\ (is_some p && negb (recursive o) = false ->
       forall s,
         diff_dirs w (r_cmp r) = Returned s ->
         sys_fflush_stdout w = Ok tt ->
         snd (compare_files w o p name0 name1) = Returned (status_of_engine s)))
  /\ (is_OUTPUT_IFDEF (output_style o) = true ->
      compare_files w o p name0 name1
      = (tr, Fatal "-D option not supported with directories")).
Proof.
  intros Hg Hr Hs Hd Hb Hsame.
  destruct (resolve_facts _ _ _ _ _ _ _ Hr) as (_ & Hp & _).
  pose proof (classify_directories w o (r_cmp r) (r_name0 r) Hb Hsame Hd) as Hc.
  rewrite <- Hs in Hc at 1. rewrite Hp in Hc.
  apply andb_true_iff in Hd as (Hd0 & _).
  split.
  - intros Hstyle. rewrite Hstyle, bind_ret in Hc.
    assert (E : compare_files w o p name0 name1
                = directory_pair_run w o p tr (r_cmp r)).
    { unfold directory_pair_run, walk_and_finish.
      unfold compare_files. rewrite Hg, (bind_returned _ _ _ _ Hr), Hc.
      destruct (is_some p && negb (recursive o)).
      - cbn [bind message emit ret fst snd app].
        rewrite finish_success. unfold identical_report.
        rewrite Hd0, andb_false_r. reflexivity.
      - unfold call_diff_dirs, engine_result.
        destruct (diff_dirs w (r_cmp r)) as [s | msg | why]; cbn;
          try rewrite app_nil_r; try reflexivity.
        destruct (finish w o (r_cmp r) (status_of_engine s)).
        cbn. rewrite <- app_assoc. reflexivity. }
    split; [exact E|].
    intros Hwalk s Hdd Hflush. rewrite E. unfold directory_pair_run.
    rewrite Hwalk. unfold walk_and_finish. rewrite Hdd.
    pose proof (finish_directory w o (r_cmp r) (status_of_engine s) Hd0 Hflush)
      as Hfin.
    unfold bind. destruct (finish w o (r_cmp r) (status_of_engine s)).
    exact Hfin.
  - intros Hstyle. rewrite Hstyle in Hc.
    rewrite (compare_files_stopped w o _ _ _ _ _ [] _ Hg Hr Hc).
    rewrite app_nil_r. reflexivity.
Qed.

Lemma directories_are_walked_unless_same_witness :
  compare_files two_subdirectories plain_options (Some two_directories)
    (Some "s") (Some "s")
  = ([ev_stat "d1/s"; ev_stat "d2/s";
      ev_message ("Common subdirectories: %s and %s" ++ nl) ["d1/s"; "d2/s"]],
     Returned EXIT_SUCCESS).
Proof.
  refine (proj1 (proj1 (directories_are_walked_unless_same two_subdirectories
                          plain_options (Some two_directories)
                          (Some "s") (Some "s") [ev_stat "d1/s"; ev_stat "d2/s"]
                          (mk_resolved
                             (mk_comparison
                                (mk_file_data "d1/s" UNOPENED (directory 31))
                                (mk_file_data "d2/s" UNOPENED (directory 32))
                                (Some two_directories))
                             EXIT_SUCCESS "s") _ _ _ _ _ _) _)); reflexivity.
Defined.

(** A directory compared with itself under another name, on the command
    line: both sides are directories and there is no parent, and yet
    [diff_dirs] is not called. *)
Lemma directories_are_walked_counterexample :
  ~ directories_are_walked one_directory_two_names plain_options
      None (Some "d") (Some "./d").
Proof.
  intros H.
  specialize (H [ev_stat "d"; ev_stat "./d"] one_directory_resolved
                eq_refl eq_refl eq_refl eq_refl).
  vm_compute in H. discriminate.
Qed.

(** ** C3 *)

Lemma files_can_be_treated_as_binary_iff o :
  files_can_be_treated_as_binary o = true <-> quick_binary_gate o.
Proof.
  unfold files_can_be_treated_as_binary, files_can_be_treated_as_binary_bits,
    quick_binary_gate.
  destruct (ignore_white_space o =? 0) eqn:E;
    [apply Z.eqb_eq in E | apply Z.eqb_neq in E];
    destruct (brief o), (binary o), (ignore_blank_lines o), (ignore_case o),
      (strip_trailing_cr o), (ignore_regexps o); cbn;
    split; intros H; repeat split; try tauto; try discriminate;
    try (destruct H as (? & ? & ? & ? & ? & ? & ?); congruence).
Qed.

Lemma S_ISREG_only m :
  S_ISREG m = true -> S_ISDIR m = false /\ S_ISLNK m = false.
Proof.
  unfold S_ISREG, S_ISDIR, S_ISLNK. intros H. apply Z.eqb_eq in H.
  rewrite H. split; reflexivity.
Qed.

Lemma starts_quietly_bind {A B : Type} (m : M A) (k : A -> M B) :
  starts_quietly m -> starts_quietly (bind m k).
Proof.
  intros (e & t & Hm & He). destruct m as [t0 [a | msg | why]]; cbn in *;
    subst t0.
  - destruct (k a) as [t' x]. exists e, (t ++ t'). auto.
  - exists e, t. auto.
  - exists e, t. auto.
Qed.

Lemma starts_quietly_emit {B : Type} e (k : unit -> M B) :
  is_diagnostic e = false -> starts_quietly (bind (emit e) k).
Proof.
  intros He. rewrite bind_emit. exists e, (fst (k tt)). auto.
Qed.

Lemma starts_quietly_not_message {A : Type} (m : M A) format args t x :
  starts_quietly m -> m <> (ev_message format args :: t, x).
Proof.
  intros (e & t' & Hm & He) H. rewrite H in Hm. cbn in Hm.
  inversion Hm; subst. discriminate.
Qed.

Lemma compare_contents_starts_quietly w c same :
  starts_quietly (compare_contents w c same).
Proof.
  unfold compare_contents.
  destruct (desc (file0 c) =? UNOPENED).
  { apply starts_quietly_bind. unfold open_slot.
    apply starts_quietly_emit. reflexivity. }
  rewrite bind_ret. cbn [fst snd].
  assert (Hrest : forall c',
             starts_quietly
               (cs <- ret (c', EXIT_SUCCESS) ;;
                (let c0 := fst cs in
                 status <- (if snd cs =? EXIT_SUCCESS
                            then emit (ev_diff_2_files c0) ;;;
                                 engine_result (diff_2_files w c0)
                            else ret (snd cs)) ;;
                 status <- (if 0 <=? desc (file0 c0)
                            then close_slot w c0 false status
                            else ret status) ;;
                 status <- (if (0 <=? desc (file1 c0))
                               && negb (desc (file0 c0) =? desc (file1 c0))
                            then close_slot w c0 true status
                            else ret status) ;;
                 ret (c0, status)))).
  { intros c'. rewrite bind_ret. cbn [fst snd Z.eqb EXIT_SUCCESS].
    apply starts_quietly_bind, starts_quietly_emit. reflexivity. }
  destruct (desc (file1 c) =? UNOPENED); [destruct same|].
  - apply Hrest.
  - apply starts_quietly_bind. unfold open_slot.
    apply starts_quietly_emit. reflexivity.
  - apply Hrest.
Qed.

(** From the line written, the case taken. *)
Lemma quick_binary_fires_inv w o r :
  quick_binary_fires w o r ->
  r_status r = EXIT_SUCCESS
  /\ both_absent (r_cmp r) = false
  /\ same_file_shortcut o (r_cmp r) = false
  /\ quick_binary_differ o (r_cmp r) = true.
Proof.
  unfold quick_binary_fires. intros H.
  destruct (Z.eq_dec (r_status r) EXIT_SUCCESS) as [Hs | Hs].
  2:{ rewrite classify_failed in H by assumption. discriminate. }
  rewrite Hs in H. split; [exact Hs|].
  destruct (both_absent (r_cmp r)) eqn:H1.
  { rewrite classify_both_absent in H by assumption. discriminate. }
  destruct (same_file_shortcut o (r_cmp r)) eqn:H2.
  { rewrite classify_same_file in H by assumption. discriminate. }
  repeat split.
  destruct (both_directories (r_cmp r)) eqn:H3.
  { rewrite classify_directories in H by assumption. exfalso.
    destruct (is_OUTPUT_IFDEF (output_style o)); [discriminate|].
    rewrite bind_ret in H.
    destruct (is_some (parent (r_cmp r)) && negb (recursive o));
      [discriminate|].
    unfold call_diff_dirs in H.
    destruct (diff_dirs w (r_cmp r)); discriminate. }
  destruct (not_to_be_compared (r_cmp r)) eqn:H4.
  { rewrite classify_not_compared in H by assumption. exfalso.
    destruct (absent (r_cmp r) false || absent (r_cmp r) true);
      [|discriminate].
    destruct (missing_subtree_is_empty o (r_cmp r)).
    - unfold call_diff_dirs in H.
      destruct (diff_dirs w (r_cmp r)); discriminate.
    - destruct (parent (r_cmp r)); discriminate. }
  destruct (either_symlink (r_cmp r)) eqn:H5.
  { rewrite classify_symlinks in H by assumption. exfalso.
    unfold compare_symlinks in H.
    destruct (no_dereference_symlinks o); [|discriminate].
    cbn [assert] in H. rewrite bind_ret in H.
    destruct (S_ISLNK (mode (r_cmp r) false) && S_ISLNK (mode (r_cmp r) true));
      [|discriminate].
    revert H. apply starts_quietly_not_message.
    apply starts_quietly_bind, starts_quietly_emit. reflexivity. }
  destruct (quick_binary_differ o (r_cmp r)) eqn:H6; [reflexivity|].
  rewrite classify_contents in H by assumption. exfalso.
  revert H. apply starts_quietly_not_message.
  apply compare_contents_starts_quietly.
Qed.

Lemma quick_binary_differ_iff o c :
  quick_binary_differ o c = true
  <-> quick_binary_gate o
      /\ S_ISREG (mode c false) = true /\ S_ISREG (mode c true) = true
      /\ size c false <> size c true
      /\ size c false <> 0%N /\ size c true <> 0%N.
Proof.
  unfold quick_binary_differ, size, file.
  rewrite !andb_true_iff, negb_true_iff, N.eqb_neq, !N.ltb_lt,
    files_can_be_treated_as_binary_iff.
  pose proof (N.neq_0_lt_0 (st_size (stat_of (file0 c)))).
  pose proof (N.neq_0_lt_0 (st_size (stat_of (file1 c)))).
  tauto.
Qed.

(** Two regular files of which neither is absent and that differ in
    size reach the test of lines 1313-1318. *)
Lemma regular_files_reach_quick_test o c :
  S_ISREG (mode c false) = true -> S_ISREG (mode c true) = true ->
  absent c false = false ->
  size c false <> size c true ->
  both_absent c = false
  /\ same_file_shortcut o c = false
  /\ both_directories c = false
  /\ not_to_be_compared c = false
  /\ either_symlink c = false.
Proof.
  intros Hr0 Hr1 Ha Hsize.
  destruct (S_ISREG_only _ Hr0) as (Hd0 & Hl0).
  destruct (S_ISREG_only _ Hr1) as (Hd1 & Hl1).
  unfold both_absent, same_file_shortcut, same_files, same_file_attributes,
    both_directories, not_to_be_compared, regular_or_link, either_symlink,
    DIR_P.
  rewrite Ha, Hr0, Hr1, Hd0, Hd1, Hl0, Hl1.
  apply N.eqb_neq in Hsize. unfold size, file in Hsize. rewrite Hsize.
  rewrite ?andb_false_r. cbn. rewrite ?andb_false_r.
  repeat split.
Qed.

(** C3.  The binary fast path fires exactly when the gate computed at
    lines 747-750 is open (-q, binary I/O, and none of -B, -i,
    --strip-trailing-cr, -I, -b/-w/-E/-Z), both sides were resolved to
    regular files, their sizes differ and neither size is zero.  When it
    fires nothing is opened or read and [compare_files] returns
    EXIT_FAILURE (the flush of standard output passing).  It never fires
    for two equal sizes. *)
Theorem quick_binary_exactly w o p name0 name1 tr r :
  only_in_one_directory o name0 name1 = false ->
  resolve w o p name0 name1 = (tr, Returned r) ->
  (quick_binary_fires w o r
   <-> quick_binary_gate o
       /\ resolved_regular (r_cmp r) false /\ resolved_regular (r_cmp r) true
       /\ size (r_cmp r) false <> size (r_cmp r) true
       /\ size (r_cmp r) false <> 0%N /\ size (r_cmp r) true <> 0%N)
  /\ (quick_binary_fires w o r ->
      comparison_work (fst (compare_files w o p name0 name1)) = []
      /\ (sys_fflush_stdout w = Ok tt ->
          compare_files w o p name0 name1
          = (tr ++ [ev_message ("Files %s and %s differ" ++ nl)
                      [label_or_name o (r_cmp r) false;
                       label_or_name o (r_cmp r) true];
                    ev_fflush_stdout],
             Returned EXIT_FAILURE)))
  /\ (size (r_cmp r) false = size (r_cmp r) true -> ~ quick_binary_fires w o r).
Proof.
  intros Hg Hr.
  destruct (resolve_facts _ _ _ _ _ _ _ Hr)
    as (Hw & _ & Hst & Hok & Habs & Hwhy & _).
  assert (Hiff : quick_binary_fires w o r
                 <-> quick_binary_gate o
                     /\ resolved_regular (r_cmp r) false
                     /\ resolved_regular (r_cmp r) true
                     /\ size (r_cmp r) false <> size (r_cmp r) true
                     /\ size (r_cmp r) false <> 0%N
                     /\ size (r_cmp r) true <> 0%N).
  { unfold resolved_regular. split.
    - intros H. apply quick_binary_fires_inv in H as (Hs & _ & _ & Hq).
      apply quick_binary_differ_iff in Hq.
      destruct (Hok Hs) as (_ & Hnf).
      pose proof (Hnf false). pose proof (Hnf true). tauto.
    - intros (Hgate & (Hf0 & Hr0) & (Hf1 & Hr1) & Hne & Hz0 & Hz1).
      assert (Hs : r_status r = EXIT_SUCCESS).
      { destruct Hst as [Hs | Ht]; [exact Hs|].
        destruct (Hwhy Ht) as [F | [F | F]]; try congruence.
        exfalso. apply F. unfold DIR_P.
        destruct (S_ISREG_only _ Hr0) as (-> & _).
        destruct (S_ISREG_only _ Hr1) as (-> & _). reflexivity. }
      assert (Ha : absent (r_cmp r) false = false).
      { destruct (absent (r_cmp r) false) eqn:E; [|reflexivity].
        destruct (Habs false E) as (_ & Hz). contradiction. }
      destruct (regular_files_reach_quick_test o (r_cmp r) Hr0 Hr1 Ha Hne)
        as (H1 & H2 & H3 & H4 & H5).
      unfold quick_binary_fires. rewrite Hs.
      apply classify_quick_binary; try assumption.
      apply quick_binary_differ_iff. tauto. }
  split; [exact Hiff|]. split.
  - intros Hfire. unfold quick_binary_fires in Hfire.
    pose proof (compare_files_classified w o _ _ _ _ _ _ _ _ Hg Hr Hfire) as E.
    split.
    + rewrite E. cbn [fst]. rewrite !comparison_work_app, Hw.
      unfold finish. cbn [Z.eqb EXIT_FAILURE EXIT_SUCCESS].
      rewrite bind_emit. cbn [fst app].
      destruct (sys_fflush_stdout w); reflexivity.
    + intros Hflush. rewrite E.
      rewrite finish_flushed by (discriminate || assumption). reflexivity.
  - intros Heq Hfire. apply Hiff in Hfire. tauto.
Qed.

Lemma quick_binary_exactly_witness :
  compare_files two_sizes (set_brief plain_options true) None
    (Some "a") (Some "b")
  = ([ev_stat "a"; ev_stat "b";
      ev_message ("Files %s and %s differ" ++ nl) ["a"; "b"];
      ev_fflush_stdout],
     Returned EXIT_FAILURE).
Proof.
  destruct (quick_binary_exactly two_sizes (set_brief plain_options true) None
              (Some "a") (Some "b") [ev_stat "a"; ev_stat "b"]
              (mk_resolved
                 (mk_comparison
                    (mk_file_data "a" UNOPENED (regular_file 41 10))
                    (mk_file_data "b" UNOPENED (regular_file 42 12)) None)
                 EXIT_SUCCESS "a") eq_refl eq_refl) as (Hiff & Hrun & _).
  apply Hrun; [|reflexivity].
  apply Hiff. unfold quick_binary_gate, resolved_regular. cbn.
  repeat split; discriminate.
Defined.

(** ** C5 *)

Lemma S_ISLNK_only m :
  S_ISLNK m = true -> S_ISDIR m = false /\ S_ISREG m = false.
Proof.
  unfold S_ISREG, S_ISDIR, S_ISLNK. intros H. apply Z.eqb_eq in H.
  rewrite H. split; reflexivity.
Qed.

(** What [compare_symlinks] does with two links that can be read. *)
Lemma compare_symlinks_both w o c target0 target1 :
  no_dereference_symlinks o = true ->
  S_ISLNK (mode c false) = true -> S_ISLNK (mode c true) = true ->
  sys_xreadlink w (name (file0 c)) = Ok target0 ->
  sys_xreadlink w (name (file1 c)) = Ok target1 ->
  compare_symlinks w o c
  = ([ev_xreadlink (name (file0 c)); ev_xreadlink (name (file1 c))]
     ++ (if String.eqb target0 target1 then []
         else [ev_message ("Symbolic links %s and %s differ" ++ nl)
                 [name (file0 c); name (file1 c)]]),
     Returned (if String.eqb target0 target1
               then EXIT_SUCCESS else EXIT_FAILURE)).
Proof.
  intros Hn H0 H1 Hl0 Hl1. unfold compare_symlinks.
  rewrite Hn, H0, H1, Hl0, Hl1.
  destruct (String.eqb target0 target1); reflexivity.
Qed.

(** A link against something else that exists: the line of lines
    1263-1267 or 1304-1308, which are the same. *)
Lemma classify_one_symlink w o c n f :
  no_dereference_symlinks o = true ->
  absent c false = false -> absent c true = false ->
  S_ISLNK (mode c f) = true -> S_ISLNK (mode c (negb f)) = false ->
  classify w o c EXIT_SUCCESS n
  = ([ev_message ("File %s is a %s while file %s is a %s" ++ nl)
        [label_or_name o c false; file_type w (stat_of (file0 c));
         label_or_name o c true; file_type w (stat_of (file1 c))]],
     Returned (c, EXIT_FAILURE)).
Proof.
  intros Hn Ha0 Ha1 Hl Hnl.
  destruct (S_ISLNK_only _ Hl) as (Hd & _).
  assert (H1 : both_absent c = false)
    by (unfold both_absent; rewrite Ha0; reflexivity).
  assert (H2 : same_file_shortcut o c = false).
  { unfold same_file_shortcut, same_files, same_file_attributes.
    replace (st_mode (stat_of (file0 c)) =? st_mode (stat_of (file1 c)))
      with false; [rewrite !andb_false_r; reflexivity|].
    symmetry. apply Z.eqb_neq. intros E.
    assert (Em : mode c f = mode c (negb f))
      by (unfold mode, file; destruct f; cbn [negb]; congruence).
    rewrite Em in Hl. congruence. }
  assert (H3 : both_directories c = false).
  { unfold both_directories, DIR_P. destruct f; rewrite Hd;
      rewrite ?andb_false_r; reflexivity. }
  destruct (not_to_be_compared c) eqn:H4.
  - rewrite classify_not_compared by assumption.
    rewrite Ha0, Ha1. reflexivity.
  - assert (H5 : either_symlink c = true).
    { unfold either_symlink. destruct f; rewrite Hl;
        rewrite ?orb_true_r; reflexivity. }
    rewrite classify_symlinks by assumption.
    unfold compare_symlinks. rewrite Hn.
    replace (S_ISLNK (mode c false) && S_ISLNK (mode c true)) with false.
    + reflexivity.
    + destruct f; cbn [negb] in Hnl; rewrite Hnl, ?andb_false_r; reflexivity.
Qed.

(** C5, amended.  With --no-dereference, for a pair resolved without
    error and with both sides present: when both sides are symbolic
    links and the pair is not cut short as one physical file,
    [compare_files] reads both links; if both reads succeed, equal
    targets give EXIT_SUCCESS and no line but "Files A and B are
    identical" when -s asks for it, and unequal targets give
    EXIT_FAILURE and the line "Symbolic links A and B differ"; when one
    side only is a symbolic link the line "File A is a ... while file B
    is a ..." is written and the value is EXIT_FAILURE (the flush of
    standard output passing). *)
Theorem symlinks_are_compared w o p name0 name1 tr r :
  only_in_one_directory o name0 name1 = false ->
  resolve w o p name0 name1 = (tr, Returned r) ->
  r_status r = EXIT_SUCCESS ->
  no_dereference_symlinks o = true ->
  absent (r_cmp r) false = false -> absent (r_cmp r) true = false ->
  (S_ISLNK (mode (r_cmp r) false) = true ->
   S_ISLNK (mode (r_cmp r) true) = true ->
   same_file_shortcut o (r_cmp r) = false ->
   forall target0 target1,
     sys_xreadlink w (name (file0 (r_cmp r))) = Ok target0 ->
     sys_xreadlink w (name (file1 (r_cmp r))) = Ok target1 ->
     (target0 = target1 ->
      compare_files w o p name0 name1
      = (tr ++ [ev_xreadlink (name (file0 (r_cmp r)));
                ev_xreadlink (name (file1 (r_cmp r)))]
            ++ (if report_identical_files o
                then [ev_message ("Files %s and %s are identical" ++ nl)
                        [label_or_name o (r_cmp r) false;
                         label_or_name o (r_cmp r) true]]
                else []),
         Returned EXIT_SUCCESS))
     /\ (target0 <> target1 ->
         sys_fflush_stdout w = Ok tt ->
         compare_files w o p name0 name1
         = (tr ++ [ev_xreadlink (name (file0 (r_cmp r)));
                   ev_xreadlink (name (file1 (r_cmp r)));
                   ev_message ("Symbolic links %s and %s differ" ++ nl)
                     [name (file0 (r_cmp r)); name (file1 (r_cmp r))];
                   ev_fflush_stdout],
            Returned EXIT_FAILURE)))
  /\ (forall f,
      S_ISLNK (mode (r_cmp r) f) = true ->
      S_ISLNK (mode (r_cmp r) (negb f)) = false ->
      sys_fflush_stdout w = Ok tt ->
      compare_files w o p name0 name1
      = (tr ++ [ev_message ("File %s is a %s while file %s is a %s" ++ nl)
                  [label_or_name o (r_cmp r) false;
                   file_type w (stat_of (file0 (r_cmp r)));
                   label_or_name o (r_cmp r) true;
                   file_type w (stat_of (file1 (r_cmp r)))];
                ev_fflush_stdout],
         Returned EXIT_FAILURE)).
Proof.
  intros Hg Hr Hs Hn Ha0 Ha1. split.
  - intros Hl0 Hl1 Hsame target0 target1 Ht0 Ht1.
    destruct (S_ISLNK_only _ Hl0) as (Hd0 & Hr0).
    destruct (S_ISLNK_only _ Hl1) as (Hd1 & Hr1).
    assert (Hc : classify w o (r_cmp r) (r_status r) (r_name0 r)
                 = (s <- compare_symlinks w o (r_cmp r) ;; ret (r_cmp r, s))).
    { rewrite Hs. apply classify_symlinks; try assumption.
      - unfold both_absent. rewrite Ha0. reflexivity.
      - unfold both_directories, DIR_P. rewrite Hd0. reflexivity.
      - unfold not_to_be_compared, regular_or_link, DIR_P.
        rewrite Hd0, Hd1, Hl0, Hl1, !orb_true_r, andb_false_r. reflexivity.
      - unfold either_symlink. rewrite Hl0. reflexivity. }
    rewrite (compare_symlinks_both w o _ _ _ Hn Hl0 Hl1 Ht0 Ht1) in Hc.
    split.
    + intros ->. rewrite String.eqb_refl in Hc. cbn in Hc.
      rewrite (compare_files_classified w o _ _ _ _ _ _ _ _ Hg Hr Hc).
      rewrite finish_success. unfold identical_report, DIR_P.
      rewrite Hd0, andb_true_r. cbn [fst snd app]. reflexivity.
    + intros Hne Hflush. apply String.eqb_neq in Hne. rewrite Hne in Hc.
      cbn in Hc.
      rewrite (compare_files_classified w o _ _ _ _ _ _ _ _ Hg Hr Hc).
      rewrite finish_flushed by (discriminate || assumption). reflexivity.
  - intros f Hl Hnl Hflush.
    pose proof (classify_one_symlink w o (r_cmp r) (r_name0 r) f
                  Hn Ha0 Ha1 Hl Hnl) as Hc.
    rewrite <- Hs in Hc at 1.
    rewrite (compare_files_classified w o _ _ _ _ _ _ _ _ Hg Hr Hc).
    rewrite finish_flushed by (discriminate || assumption). reflexivity.
Qed.

Lemma symlinks_are_compared_witness :
  compare_files (two_links "/tmp/foo" "/tmp/bar")
    (set_no_dereference_symlinks plain_options true) None
    (Some "L1") (Some "L2")
  = ([ev_lstat "L1"; ev_lstat "L2"; ev_xreadlink "L1"; ev_xreadlink "L2";
      ev_message ("Symbolic links %s and %s differ" ++ nl) ["L1"; "L2"];
      ev_fflush_stdout],
     Returned EXIT_FAILURE).
Proof.
  destruct (symlinks_are_compared (two_links "/tmp/foo" "/tmp/bar")
              (set_no_dereference_symlinks plain_options true) None
              (Some "L1") (Some "L2") [ev_lstat "L1"; ev_lstat "L2"]
              two_links_resolved eq_refl eq_refl eq_refl eq_refl eq_refl eq_refl)
    as (Hboth & _).
  destruct (Hboth eq_refl eq_refl eq_refl "/tmp/foo" "/tmp/bar" eq_refl eq_refl)
    as (_ & Hdiffer).
  apply Hdiffer; [discriminate | reflexivity].
Defined.

(** With -s, two links with one target: the line for identical files is
    written. *)
Lemma equal_links_are_silent_counterexample :
  ~ equal_links_are_silent (two_links "/tmp/foo" "/tmp/foo")
      (set_report_identical_files
         (set_no_dereference_symlinks plain_options true) true)
      None (Some "L1") (Some "L2").
Proof.
  intros H.
  destruct (H [ev_lstat "L1"; ev_lstat "L2"] two_links_resolved "/tmp/foo"
              eq_refl eq_refl eq_refl eq_refl eq_refl eq_refl eq_refl eq_refl
              eq_refl eq_refl) as (_ & Hd).
  vm_compute in Hd. discriminate.
Qed.

(** ** C9 *)

Lemma stat_slot_other w o f c t c' :
  stat_slot w o f c = (t, Returned c') ->
  file c' (negb f) = file c (negb f).
Proof.
  unfold stat_slot.
  destruct (desc (file c f) =? NONEXISTENT).
  { intros H; inversion H; reflexivity. }
  destruct (f && (file_name_cmp (name (file c f)) (name (file0 c)) =? 0)).
  { intros H; inversion H. destruct f, c; reflexivity. }
  destruct (String.eqb (name (file c f)) "-").
  { intros H. apply bind_inv in H as (t1 & fd & t2 & _ & H & _).
    inversion H. destruct f, c; reflexivity. }
  intros H. apply bind_inv in H as (t1 & x & t2 & _ & H & _).
  destruct x; inversion H; destruct f, c; reflexivity.
Qed.

(** A failure that both slots share is not turned into absence. *)
Lemma settle_nonexistent_shared_failure o c :
  slot_failed c false = true ->
  desc (file1 c) = desc (file0 c) ->
  settle_nonexistent o c = c.
Proof.
  destruct c as [[n0 d0 s0] [n1 d1 s1] q].
  unfold slot_failed, ERRNO_DECODE. cbn [file file0 file1 desc].
  intros Hf ->. apply Z.leb_le in Hf.
  unfold settle_nonexistent, mark_nonexistent, stands_for_nonexistent,
    clear_nonexistent, UNOPENED, NONEXISTENT, STDIN_FILENO. cbn.
  assert (E1 : (d0 =? (-2)) = false) by (apply Z.eqb_neq; lia).
  assert (E2 : (d0 =? (-1)) = false) by (apply Z.eqb_neq; lia).
  assert (E3 : (d0 =? 0) = false) by (apply Z.eqb_neq; lia).
  repeat (progress (cbn; rewrite ?E1, ?E2, ?E3, ?andb_false_r)).
  reflexivity.
Qed.

(** C9, amended.  When both names are given and the full name on the
    right equals the full name on the left, the loop of lines 1115-1146
    stats the left name only and copies its descriptor and its metadata
    to the right slot.  The copy holds the error too: a failure on that
    name stays a failure on both slots and is reported once for each
    slot, twice in all, and [compare_files] returns EXIT_TROUBLE (the
    flush of standard output passing). *)
Theorem same_name_is_resolved_once w o p name0 name1 c0 n t1 c1 :
  init_comparison w p (Some name0) (Some name1) = ([], Returned (c0, n)) ->
  name (file1 c0) = name (file0 c0) ->
  stat_slot w o false c0 = (t1, Returned c1) ->
  stat_files w o c0 = (t1, Returned (copy_left c1))
  /\ desc (file1 (copy_left c1)) = desc (file0 c1)
  /\ stat_of (file1 (copy_left c1)) = stat_of (file0 c1)
  /\ (slot_failed c1 false = true ->
      sys_fflush_stdout w = Ok tt ->
      compare_files w o p (Some name0) (Some name1)
      = (t1 ++ [ev_perror_with_name (name (file0 c0))
                  (ERRNO_DECODE (desc (file0 c1)));
                ev_perror_with_name (name (file0 c0))
                  (ERRNO_DECODE (desc (file0 c1)));
                ev_fflush_stdout],
         Returned EXIT_TROUBLE)).
Proof.
  intros Hi Hname Hleft.
  pose proof (stat_slot_other _ _ _ _ _ _ Hleft) as Hright. cbn [negb] in Hright.
  destruct (stat_slot_quiet w o false c0)
    as (t1' & c1' & Hq & _ & _ & Hp1 & Hn0 & Hn1).
  rewrite Hleft in Hq. inversion Hq; subst t1' c1'; clear Hq.
  assert (Hd1 : desc (file1 c0) = UNOPENED).
  { unfold init_comparison in Hi. cbn in Hi. inversion Hi. reflexivity. }
  assert (Hfiles : stat_files w o c0 = (t1, Returned (copy_left c1))).
  { unfold stat_files. rewrite (bind_returned _ _ _ _ Hleft).
    unfold stat_slot. cbn [file] in *.
    rewrite Hright, Hd1. cbn [Z.eqb UNOPENED NONEXISTENT andb].
    replace (name (file0 c1)) with (name (file0 c0)) by (symmetry; exact Hn0).
    rewrite Hname. unfold file_name_cmp. rewrite String.eqb_refl.
    cbn [Z.eqb fst snd ret]. rewrite app_nil_r.
    unfold copy_left. cbn [file]. rewrite Hright. reflexivity. }
  split; [exact Hfiles|].
  split; [destruct c1; reflexivity|].
  split; [destruct c1; reflexivity|].
  intros Hfail Hflush.
  set (c2 := copy_left c1).
  assert (Hd2 : desc (file1 c2) = desc (file0 c2)) by (destruct c1; reflexivity).
  assert (Hf2 : slot_failed c2 false = true) by (destruct c1; exact Hfail).
  assert (Hf3 : slot_failed c2 true = true).
  { unfold slot_failed in *. cbn [file] in *. rewrite Hd2. exact Hf2. }
  assert (Hres : resolve w o p (Some name0) (Some name1)
                 = (t1 ++ slot_error c2 false ++ slot_error c2 true,
                    Returned (mk_resolved c2 EXIT_TROUBLE n))).
  { unfold resolve. rewrite (bind_returned _ _ _ _ Hi). cbn [fst snd app].
    rewrite (bind_returned _ _ _ _ Hfiles). fold c2.
    rewrite (settle_nonexistent_shared_failure o c2 Hf2 Hd2).
    rewrite report_errors_value, Hf2, Hf3. cbn [orb].
    cbn [bind]. unfold use_file_in_directory.
    cbn [Z.eqb EXIT_TROUBLE EXIT_SUCCESS andb].
    rewrite bind_ret. cbn [ret fst snd]. rewrite app_nil_r. reflexivity. }
  assert (Hg : only_in_one_directory o (Some name0) (Some name1) = false)
    by reflexivity.
  rewrite (compare_files_classified w o _ _ _ _ _ [] c2 EXIT_TROUBLE
             Hg Hres).
  - rewrite finish_flushed by (discriminate || assumption).
    unfold slot_error. rewrite Hf2, Hf3. cbn [fst snd app].
    rewrite <- app_assoc. cbn [app].
    replace (name (file c2 false)) with (name (file0 c0))
      by (destruct c1; cbn in *; congruence).
    replace (name (file c2 true)) with (name (file0 c0))
      by (destruct c1; cbn in *; congruence).
    replace (desc (file c2 true)) with (desc (file0 c1))
      by (destruct c1; reflexivity).
    replace (desc (file c2 false)) with (desc (file0 c1))
      by (destruct c1; reflexivity).
    reflexivity.
  - apply classify_failed. discriminate.
Qed.

Lemma same_name_is_resolved_once_witness :
  stat_files empty_file_system plain_options nothing_named_x
  = ([ev_stat "x"],
     Returned (mk_comparison
                 (mk_file_data "x" (ERRNO_ENCODE ENOENT) zero_stat)
                 (mk_file_data "x" (ERRNO_ENCODE ENOENT) zero_stat) None))
  /\ compare_files empty_file_system plain_options None (Some "x") (Some "x")
     = ([ev_stat "x"; ev_perror_with_name "x" ENOENT;
         ev_perror_with_name "x" ENOENT; ev_fflush_stdout],
        Returned EXIT_TROUBLE).
Proof.
  destruct (same_name_is_resolved_once empty_file_system plain_options None
              "x" "x" nothing_named_x "x" [ev_stat "x"]
              (mk_comparison
                 (mk_file_data "x" (ERRNO_ENCODE ENOENT) zero_stat)
                 (mk_file_data "x" UNOPENED zero_stat) None)
              eq_refl eq_refl eq_refl) as (Hstat & _ & _ & Hrun).
  split; [exact Hstat|]. apply Hrun; reflexivity.
Defined.

(** [diff x x] when nothing is named x: the failure is reported
    twice. *)
Lemma same_name_reported_once_counterexample :
  ~ same_name_reported_once empty_file_system plain_options None "x" "x".
Proof.
  intros H. specialize (H nothing_named_x "x" eq_refl eq_refl).
  vm_compute in H. lia.
Qed.

(** ** C10 *)

(** The resolution of two operands of the command line, up to the test
    of line 1181. *)
Lemma resolve_operands w o a b t1 c1 :
  stat_files w o (operands a b) = (t1, Returned c1) ->
  let c := settle_nonexistent o c1 in
  let status := if slot_failed c false || slot_failed c true
                then EXIT_TROUBLE else EXIT_SUCCESS in
  resolve w o None (Some a) (Some b)
  = (t1 ++ slot_error c false ++ slot_error c true
        ++ fst (use_file_in_directory w o c status),
     match snd (use_file_in_directory w o c status) with
     | Returned cs => Returned (mk_resolved (fst cs) (snd cs) a)
     | Fatal msg => Fatal msg
     | Crashed why => Crashed why
     end).
Proof.
  intros Hstat c status.
  assert (Hi : init_comparison w None (Some a) (Some b)
               = ([], Returned (operands a b, a))) by reflexivity.
  unfold resolve. rewrite (bind_returned _ _ _ _ Hi). cbn [fst snd app].
  rewrite (bind_returned _ _ _ _ Hstat). fold c.
  rewrite report_errors_value. fold status.
  rewrite (bind_returned _ _ _ _ eq_refl).
  destruct (use_file_in_directory w o c status) as [t [cs | msg | why]];
    cbn [bind ret fst snd]; rewrite ?app_nil_r, <- ?app_assoc; reflexivity.
Qed.

(** C10.  Two operands of the command line, once the loops of lines
    1148-1170 have settled which of them stand for absent files.  When
    no error was reported and exactly one of the two is then a
    directory, [find_dir_file_pathname] is called on the directory and
    on the last component of the other name; if that other name is "-"
    the run ends there on the fatal error "cannot compare '-' to a
    directory", and no status is returned; otherwise the name of the
    directory slot becomes the joined path, [stat] ([lstat] under
    --no-dereference) is called on it, and the slot holds what the call
    answers, or, when the call fails, the failure is reported by
    [perror_with_name] on the joined path and the status is
    EXIT_TROUBLE, the slot keeping the joined name (a call that fails
    is taken to write nothing into the slot).  The other slot and both
    descriptors are left as they are.  In every other case nothing is joined: the pair keeps the two
    names of the operands.  The classification then works on the pair
    that resolution leaves. *)
Theorem directory_operand_is_replaced w o a b t1 c1 :
  stat_files w o (operands a b) = (t1, Returned c1) ->
  let c := settle_nonexistent o c1 in
  let fnm_arg := DIR_P c false in
  let dir_arg := negb fnm_arg in
  let fnm := name (file c fnm_arg) in
  let dir := name (file c dir_arg) in
  let joined := ev_find_dir_file_pathname dir (last_component w fnm) in
  let filename := find_dir_file_pathname w dir (last_component w fnm) in
  (file_in_directory_wanted c = true ->
   (fnm = "-" ->
    compare_files w o None (Some a) (Some b)
    = (t1 ++ [joined], Fatal "cannot compare '-' to a directory"))
   /\ (fnm <> "-" ->
       resolve w o None (Some a) (Some b)
       = match stat_answer w o filename with
         | Ok st =>
             (t1 ++ [joined; stat_call o filename],
              Returned
                (mk_resolved
                   (set_file c dir_arg
                      (mk_file_data filename (desc (file c dir_arg)) st))
                   EXIT_SUCCESS a))
         | Err e =>
             (t1 ++ [joined; stat_call o filename;
                     ev_perror_with_name filename (Zpos e)],
              Returned
                (mk_resolved
                   (set_file c dir_arg
                      (mk_file_data filename (desc (file c dir_arg))
                         (stat_of (file c dir_arg))))
                   EXIT_TROUBLE a))
         end))
  /\ (file_in_directory_wanted c = false ->
      resolve w o None (Some a) (Some b)
      = (t1 ++ slot_error c false ++ slot_error c true,
         Returned
           (mk_resolved c
              (if slot_failed c false || slot_failed c true
               then EXIT_TROUBLE else EXIT_SUCCESS) a))
      /\ name (file c false) = a /\ name (file c true) = b)
  /\ (forall tr r,
        resolve w o None (Some a) (Some b) = (tr, Returned r) ->
        compare_files w o None (Some a) (Some b)
        = (tr ++ fst (classify_and_finish w o r),
           snd (classify_and_finish w o r))).
Proof.
  intros Hstat c fnm_arg dir_arg fnm dir joined filename.
  pose proof (resolve_operands w o a b t1 c1 Hstat) as Hres.
  cbv zeta in Hres. fold c in Hres.
  destruct (stat_files_quiet w o (operands a b))
    as (t' & c' & Hq & _ & _ & Hp & Hn0 & Hn1).
  rewrite Hstat in Hq. inversion Hq; subst t' c'; clear Hq.
  destruct (settle_nonexistent_names o c1) as (Hp' & Hs0 & Hs1).
  assert (Hpc : parent c = None) by (unfold c; rewrite Hp', Hp; reflexivity).
  split; [|split].
  - intros Hwanted. unfold file_in_directory_wanted in Hwanted.
    apply andb_true_iff in Hwanted as (Hfail & Hdir).
    apply negb_true_iff in Hfail. apply negb_true_iff in Hdir.
    rewrite Hfail in Hres.
    apply orb_false_iff in Hfail as (Hf0 & Hf1).
    unfold slot_error in Hres. rewrite Hf0, Hf1 in Hres. cbn [app] in Hres.
    assert (Huse : use_file_in_directory w o c EXIT_SUCCESS
                   = (emit joined ;;;
                      (if String.eqb fnm "-"
                       then fatal "cannot compare '-' to a directory"
                       else ret tt) ;;;
                      r <- stat_or_lstat w o filename ;;
                      match r with
                      | Ok st =>
                          ret (set_file c dir_arg
                                 (mk_file_data filename
                                    (desc (file c dir_arg)) st),
                               EXIT_SUCCESS)
                      | Err e =>
                          perror_with_name filename (Zpos e) ;;;
                          ret (set_file c dir_arg
                                 (mk_file_data filename
                                    (desc (file c dir_arg))
                                    (stat_of (file c dir_arg))),
                               EXIT_TROUBLE)
                      end)).
    { unfold use_file_in_directory. rewrite Hpc, Hdir.
      cbn [Z.eqb EXIT_SUCCESS is_some negb andb].
      fold fnm_arg. fold dir_arg. fold fnm. fold dir. fold joined.
      fold filename.
      f_equal.
      destruct c as [[n0 d0 s0] [n1 d1 s1] q]; destruct dir_arg;
        reflexivity. }
    rewrite Huse in Hres. clear Huse. split.
    + intros Hminus. apply String.eqb_eq in Hminus.
      rewrite Hminus in Hres. rewrite bind_emit, bind_fatal in Hres.
      cbn [fst snd fatal] in Hres.
      unfold compare_files.
      cbn [only_in_one_directory is_some andb orb negb].
      rewrite Hres. reflexivity.
    + intros Hfile. apply String.eqb_neq in Hfile.
      rewrite Hfile in Hres. rewrite bind_emit, bind_ret in Hres.
      rewrite Hres. unfold stat_or_lstat, stat_answer, stat_call,
        perror_with_name.
      destruct (no_dereference_symlinks o);
        [destruct (sys_lstat w filename) | destruct (sys_stat w filename)];
        reflexivity.
  - intros Hidle.
    assert (Huse : use_file_in_directory w o c
                     (if slot_failed c false || slot_failed c true
                      then EXIT_TROUBLE else EXIT_SUCCESS)
                   = ret (c, if slot_failed c false || slot_failed c true
                             then EXIT_TROUBLE else EXIT_SUCCESS)).
    { unfold use_file_in_directory, file_in_directory_wanted in *.
      destruct (slot_failed c false || slot_failed c true); [reflexivity|].
      cbn [negb andb] in Hidle. rewrite Hidle, andb_false_r. reflexivity. }
    rewrite Huse in Hres. cbn [ret fst snd] in Hres.
    rewrite !app_nil_r in Hres.
    split; [exact Hres|]. unfold c. rewrite Hs0, Hs1, Hn0, Hn1.
    split; reflexivity.
  - intros tr r Hr. unfold compare_files.
    cbn [only_in_one_directory is_some andb orb negb].
    rewrite (bind_returned _ _ _ _ Hr). reflexivity.
Qed.

(** [diff d -], [diff d f] where [d] holds an [f], [diff g d] where [d]
    holds no [g], and [diff -N d zz] where there is no [zz]: the missing
    operand takes the type of [d], and nothing is joined. *)
Lemma directory_operand_is_replaced_witness :
  compare_files directory_and_file plain_options None (Some "d") (Some "-")
  = ([ev_stat "d"; ev_fstat_stdin; ev_gettime;
      ev_find_dir_file_pathname "d" "-"],
     Fatal "cannot compare '-' to a directory")
  /\ resolve directory_and_file plain_options None (Some "d") (Some "f")
     = ([ev_stat "d"; ev_stat "f"; ev_find_dir_file_pathname "d" "f";
         ev_stat "d/f"],
        Returned
          (mk_resolved
             (mk_comparison
                (mk_file_data "d/f" UNOPENED (regular_file 63 10))
                (mk_file_data "f" UNOPENED (regular_file 62 10)) None)
             EXIT_SUCCESS "d"))
  /\ resolve directory_and_strays plain_options None (Some "g") (Some "d")
     = ([ev_stat "g"; ev_stat "d"; ev_find_dir_file_pathname "d" "g";
         ev_stat "d/g"; ev_perror_with_name "d/g" ENOENT],
        Returned
          (mk_resolved
             (mk_comparison
                (mk_file_data "g" UNOPENED (regular_file 64 7))
                (mk_file_data "d/g" UNOPENED (directory 61)) None)
             EXIT_TROUBLE "g"))
  /\ resolve directory_and_strays (set_new_file plain_options true) None
       (Some "d") (Some "zz")
     = ([ev_stat "d"; ev_stat "zz"],
        Returned
          (mk_resolved
             (mk_comparison
                (mk_file_data "d" UNOPENED (directory 61))
                (mk_file_data "zz" NONEXISTENT
                   (with_mode zero_stat (st_mode (directory 61)))) None)
             EXIT_SUCCESS "d")).
Proof.
  split; [|split; [|split]].
  - refine (proj1 (proj1 (directory_operand_is_replaced directory_and_file
                            plain_options "d" "-"
                            [ev_stat "d"; ev_fstat_stdin; ev_gettime]
                            (mk_comparison
                               (mk_file_data "d" UNOPENED (directory 61))
                               (mk_file_data "-" STDIN_FILENO (fifo 60)) None)
                            _) _) _); reflexivity.
  - refine (proj2 (proj1 (directory_operand_is_replaced directory_and_file
                            plain_options "d" "f" [ev_stat "d"; ev_stat "f"]
                            (mk_comparison
                               (mk_file_data "d" UNOPENED (directory 61))
                               (mk_file_data "f" UNOPENED (regular_file 62 10))
                               None)
                            _) _) _); try reflexivity. discriminate.
  - refine (proj2 (proj1 (directory_operand_is_replaced directory_and_strays
                            plain_options "g" "d" [ev_stat "g"; ev_stat "d"]
                            (mk_comparison
                               (mk_file_data "g" UNOPENED (regular_file 64 7))
                               (mk_file_data "d" UNOPENED (directory 61))
                               None)
                            _) _) _); try reflexivity. discriminate.
  - refine (proj1 (proj1 (proj2 (directory_operand_is_replaced
                                   directory_and_strays
                                   (set_new_file plain_options true)
                                   "d" "zz" [ev_stat "d"; ev_stat "zz"]
                                   (mk_comparison
                                      (mk_file_data "d" UNOPENED (directory 61))
                                      (mk_file_data "zz" (ERRNO_ENCODE ENOENT)
                                         zero_stat) None)
                                   _)) _)); reflexivity.
Defined.

(** [diff -N d b], where [d] is a directory and [b] an empty file
    without any permission: both exist and one of the two is a
    directory, yet -N takes [b] for an absent file, which gets the type
    of [d] (lines 1157-1169), so that the test of line 1181 fails and
    the pair that is classified still holds [d], not [d/b].  The same
    happens in [diff -N d zz] when there is no [zz]. *)
Lemma directory_operand_always_replaced_counterexample :
  ~ directory_operand_always_replaced directory_and_strays
      (set_new_file plain_options true) "d" "b".
Proof.
  intros H.
  assert (Hdir : true <> false) by discriminate.
  specialize (H [ev_stat "d"; ev_stat "b"]
                (mk_comparison (mk_file_data "d" UNOPENED (directory 61))
                   (mk_file_data "b" UNOPENED (backup_file 65)) None)
                eq_refl eq_refl eq_refl Hdir).
  cbv zeta in H. destruct H as (_ & H).
  destruct H as (tr & r & Hr & Hname); [discriminate|].
  vm_compute in Hr. inversion Hr; subst. vm_compute in Hname.
  discriminate.
Qed.

(** ** C1 *)

Section Statuses.

Variable w : world.
Variable o : options.

Lemma is_exit_value_engine e : is_exit_value (status_of_engine e).
Proof. unfold is_exit_value. destruct e; cbn; auto. Qed.

Lemma engine_result_status r t s :
  engine_result r = (t, Returned s) -> is_exit_value s.
Proof.
  destruct r; cbn; intros H; inversion H. apply is_exit_value_engine.
Qed.

Lemma call_diff_dirs_status c t s :
  call_diff_dirs w c = (t, Returned s) -> is_exit_value s.
Proof.
  unfold call_diff_dirs. intros H.
  apply bind_inv in H as (_ & _ & t2 & _ & H & _).
  exact (engine_result_status _ _ _ H).
Qed.

Lemma compare_symlinks_status c t s :
  compare_symlinks w o c = (t, Returned s) -> is_exit_value s.
Proof.
  unfold compare_symlinks, is_exit_value.
  destruct (no_dereference_symlinks o); [|discriminate].
  cbn [assert]. rewrite bind_ret.
  destruct (S_ISLNK (mode c false) && S_ISLNK (mode c true)).
  - rewrite bind_emit.
    destruct (sys_xreadlink w (name (file0 c))) as [l0 | e0].
    + rewrite bind_emit.
      destruct (sys_xreadlink w (name (file1 c))) as [l1 | e1].
      * destruct (negb (String.eqb l0 l1)); cbn; intros H; inversion H; auto.
      * cbn; intros H; inversion H; auto.
    + cbn; intros H; inversion H; auto.
  - cbn; intros H; inversion H; auto.
Qed.

Lemma status_or_trouble s st :
  s = st \/ s = EXIT_TROUBLE -> is_exit_value st -> is_exit_value s.
Proof.
  intros [-> | ->] H; [exact H|]. unfold is_exit_value. auto.
Qed.

Lemma open_slot_status c f st t c' s :
  open_slot w c f st = (t, Returned (c', s)) -> s = st \/ s = EXIT_TROUBLE.
Proof.
  unfold open_slot. rewrite bind_emit.
  destruct (sys_open w (name (file c f))); cbn; intros H; inversion H; auto.
Qed.

Lemma close_slot_status c f st t s :
  close_slot w c f st = (t, Returned s) -> s = st \/ s = EXIT_TROUBLE.
Proof.
  unfold close_slot. rewrite bind_emit.
  destruct (sys_close w (desc (file c f))); cbn; intros H; inversion H; auto.
Qed.

Lemma compare_contents_status c same t c' s :
  compare_contents w c same = (t, Returned (c', s)) -> is_exit_value s.
Proof.
  unfold compare_contents. intros H.
  apply bind_inv in H as (t1 & [ca sa] & t2 & HA & H & _).
  apply bind_inv in H as (t3 & [cb sb] & t4 & HB & H & _).
  apply bind_inv in H as (t5 & sc & t6 & HC & H & _).
  apply bind_inv in H as (t7 & sd & t8 & HD & H & _).
  apply bind_inv in H as (t9 & se & t10 & HE & H & _).
  inversion H; subst; clear H. cbn [fst snd] in *.
  assert (Ha : is_exit_value sa).
  { destruct (desc (file0 c) =? UNOPENED).
    - apply open_slot_status in HA. apply (status_or_trouble _ _ HA).
      unfold is_exit_value. auto.
    - inversion HA. unfold is_exit_value. auto. }
  assert (Hb : is_exit_value sb).
  { destruct (desc (file1 ca) =? UNOPENED); [destruct same|].
    - inversion HB; subst. exact Ha.
    - apply open_slot_status in HB. exact (status_or_trouble _ _ HB Ha).
    - inversion HB; subst. exact Ha. }
  assert (Hc : is_exit_value sc).
  { destruct (sb =? EXIT_SUCCESS).
    - apply bind_inv in HC as (_ & _ & tt2 & _ & HC & _).
      exact (engine_result_status _ _ _ HC).
    - inversion HC; subst. exact Hb. }
  assert (Hd : is_exit_value sd).
  { destruct (0 <=? desc (file0 c')).
    - apply close_slot_status in HD. exact (status_or_trouble _ _ HD Hc).
    - inversion HD; subst. exact Hc. }
  destruct ((0 <=? desc (file1 c')) && negb (desc (file0 c') =? desc (file1 c'))).
  - apply close_slot_status in HE. exact (status_or_trouble _ _ HE Hd).
  - inversion HE; subst. exact Hd.
Qed.

Lemma classify_status c st n t c' s :
  classify w o c st n = (t, Returned (c', s)) ->
  is_exit_value st -> is_exit_value s.
Proof.
  intros H Hst.
  destruct (Z.eq_dec st EXIT_SUCCESS) as [-> | Hne].
  2:{ rewrite classify_failed in H by assumption. inversion H; subst.
      exact Hst. }
  destruct (both_absent c) eqn:H1.
  { rewrite classify_both_absent in H by assumption. inversion H; subst.
    exact Hst. }
  destruct (same_file_shortcut o c) eqn:H2.
  { rewrite classify_same_file in H by assumption. inversion H; subst.
    exact Hst. }
  destruct (both_directories c) eqn:H3.
  { rewrite classify_directories in H by assumption.
    destruct (is_OUTPUT_IFDEF (output_style o)); [discriminate|].
    rewrite bind_ret in H.
    destruct (is_some (parent c) && negb (recursive o)).
    - inversion H; subst. exact Hst.
    - apply bind_inv in H as (t1 & s1 & t2 & Hd & H & _).
      inversion H; subst. exact (call_diff_dirs_status _ _ _ Hd). }
  destruct (not_to_be_compared c) eqn:H4.
  { rewrite classify_not_compared in H by assumption.
    destruct (absent c false || absent c true).
    - destruct (missing_subtree_is_empty o c).
      + apply bind_inv in H as (t1 & s1 & t2 & Hd & H & _).
        inversion H; subst. exact (call_diff_dirs_status _ _ _ Hd).
      + destruct (parent c); [|discriminate].
        inversion H; subst. unfold is_exit_value; auto.
    - inversion H; subst. unfold is_exit_value; auto. }
  destruct (either_symlink c) eqn:H5.
  { rewrite classify_symlinks in H by assumption.
    apply bind_inv in H as (t1 & s1 & t2 & Hd & H & _).
    inversion H; subst. exact (compare_symlinks_status _ _ _ Hd). }
  destruct (quick_binary_differ o c) eqn:H6.
  { rewrite classify_quick_binary in H by assumption.
    inversion H; subst. unfold is_exit_value; auto. }
  rewrite classify_contents in H by assumption.
  exact (compare_contents_status _ _ _ _ _ H).
Qed.

Lemma finish_status c st t s :
  finish w o c st = (t, Returned s) -> s = st.
Proof.
  unfold finish. intros H.
  apply bind_inv in H as (_ & _ & t2 & _ & H & _). inversion H. reflexivity.
Qed.

(** [compare_files] returns one of the three exit values. *)
Lemma compare_files_status p name0 name1 t s :
  compare_files w o p name0 name1 = (t, Returned s) -> is_exit_value s.
Proof.
  unfold compare_files.
  destruct (only_in_one_directory o name0 name1).
  - unfold report_only_in.
    destruct p; [|discriminate].
    destruct (match name0 with Some n => Some n | None => name1 end);
      [|discriminate].
    intros H. inversion H. unfold is_exit_value. auto.
  - intros H.
    apply bind_inv in H as (t1 & r & t2 & Hr & H & _).
    apply bind_inv in H as (t3 & [c st] & t4 & Hc & H & _).
    apply finish_status in H. cbn [fst snd] in H. subst s.
    apply (classify_status _ _ _ _ _ _ Hc).
    destruct (resolve_facts _ _ _ _ _ _ _ Hr) as (_ & _ & Hst & _).
    unfold is_exit_value. tauto.
Qed.

(** The loop: every operand is compared, in turn, and the status kept
    is the maximum so far. *)
Lemma compare_operands_runs pair ops : forall runs acc,
  runs_of w o (map pair ops) runs ->
  compare_operands w o pair ops acc
  = (List.concat (map fst runs),
     Returned (fold_left Z.max (map snd runs) acc)).
Proof.
  induction ops as [| a ops IH]; intros runs acc Hruns.
  - inversion Hruns; subst. reflexivity.
  - inversion Hruns as [| pr run prs runs' Hrun Hrest]; subst.
    cbn [compare_operands]. rewrite (bind_returned _ _ _ _ Hrun).
    replace (if acc <? snd run then snd run else acc)
      with (Z.max acc (snd run))
      by (unfold Z.max, Z.ltb; destruct (acc ?= snd run); reflexivity).
    rewrite (IH runs' (Z.max acc (snd run)) Hrest). reflexivity.
Qed.

Lemma check_stdout_sound :
  sys_ferror_stdout w = false ->
  sys_fclose_stdout w = Ok tt ->
  check_stdout w = ([ev_ferror_stdout; ev_fclose_stdout], Returned tt).
Proof.
  intros H1 H2. unfold check_stdout. rewrite H1, H2. reflexivity.
Qed.

End Statuses.

Lemma compare_operands_snoc w o pair a t' s : forall ops acc t e,
  compare_operands w o pair ops acc = (t, Returned e) ->
  compare_files w o None (fst (pair a)) (snd (pair a)) = (t', Returned s) ->
  compare_operands w o pair (ops ++ [a]) acc = (t ++ t', Returned (Z.max e s)).
Proof.
  induction ops as [| b ops IH]; intros acc t e Hops Ha.
  - inversion Hops; subst. cbn [app compare_operands].
    rewrite (bind_returned _ _ _ _ Ha). cbn.
    rewrite app_nil_r. unfold Z.max, Z.ltb.
    destruct (e ?= s); reflexivity.
  - cbn [app compare_operands] in *.
    apply bind_inv in Hops as (t1 & s1 & t2 & Hb & Hrest & ->).
    rewrite (bind_returned _ _ _ _ Hb).
    rewrite (IH _ _ _ Hrest Ha). cbn. rewrite app_assoc. reflexivity.
Qed.

Lemma max_status_one s : is_exit_value s -> max_status [s] = s.
Proof.
  unfold max_status, is_exit_value. cbn. intros [-> | [-> | ->]]; reflexivity.
Qed.

(** C1, amended.  For every invocation that passes the checks on the
    operands (not both --from-file and --to-file; two operands exactly
    when neither is given), in which every comparison returns and
    standard output closes without error, the exit status is the
    maximum, for 0 < 1 < 2, of the statuses that [compare_files]
    returned for the pairs of the operand loop, EXIT_SUCCESS for none;
    every pair is visited, in order, whatever the earlier statuses; and
    one more pair never lowers the status kept. *)
Theorem exit_status_is_maximum_of_runs w o argv optind runs :
  usage_ok o (skipn optind argv) = true ->
  runs_of w o (root_pairs o (skipn optind argv)) runs ->
  sys_ferror_stdout w = false ->
  sys_fclose_stdout w = Ok tt ->
  main_compare w o argv optind
  = (List.concat (map fst runs)
     ++ [ev_print_message_queue; ev_ferror_stdout; ev_fclose_stdout],
     Returned (max_status (map snd runs)))
  /\ process_exit_status (snd (main_compare w o argv optind))
     = Some (max_status (map snd runs))
  /\ (forall pair ops a acc t e t' s,
      compare_operands w o pair ops acc = (t, Returned e) ->
      compare_files w o None (fst (pair a)) (snd (pair a)) = (t', Returned s) ->
      compare_operands w o pair (ops ++ [a]) acc
      = (t ++ t', Returned (Z.max e s))
      /\ e <= Z.max e s).
Proof.
  intros Husage Hruns Herr Hclose.
  assert (E : main_compare w o argv optind
              = (List.concat (map fst runs)
                 ++ [ev_print_message_queue; ev_ferror_stdout; ev_fclose_stdout],
                 Returned (max_status (map snd runs)))).
  { unfold main_compare, usage_ok, root_pairs, max_status in *.
    destruct (from_file o) as [from |], (to_file o) as [to |];
      try discriminate.
    - rewrite (bind_returned _ _ _ _
                 (compare_operands_runs w o _ _ _ EXIT_SUCCESS Hruns)).
      rewrite bind_emit, (check_stdout_sound w Herr Hclose). reflexivity.
    - rewrite (bind_returned _ _ _ _
                 (compare_operands_runs w o _ _ _ EXIT_SUCCESS Hruns)).
      rewrite bind_emit, (check_stdout_sound w Herr Hclose). reflexivity.
    - destruct (skipn optind argv) as [| a [| b [| c rest]]];
        try discriminate.
      inversion Hruns as [| pr run prs runs' Hrun Hrest]; subst.
      inversion Hrest; subst. cbn [fst snd] in Hrun.
      rewrite (bind_returned _ _ _ _ Hrun).
      rewrite bind_emit, (check_stdout_sound w Herr Hclose).
      cbn [map List.concat fst snd bind ret app].
      rewrite app_nil_r.
      change (fold_left Z.max [snd run] EXIT_SUCCESS) with (max_status [snd run]).
      rewrite (max_status_one _ (compare_files_status _ _ _ _ _ _ _ Hrun)).
      reflexivity. }
  split; [exact E|]. split; [rewrite E; reflexivity|].
  intros pair ops a acc t e t' s Hops Ha.
  split; [exact (compare_operands_snoc _ _ _ _ _ _ _ _ _ _ Hops Ha)|].
  apply Z.le_max_l.
Qed.

(** [diff -q --from-file=a a b c] where [c] does not exist. *)
Lemma exit_status_is_maximum_of_runs_witness :
  main_compare two_sizes (set_from_file (set_brief plain_options true) (Some "a"))
    ["diff"; "a"; "b"; "c"] 1
  = ([ev_stat "a";
      ev_stat "a"; ev_stat "b";
      ev_message ("Files %s and %s differ" ++ nl) ["a"; "b"]; ev_fflush_stdout;
      ev_stat "a"; ev_stat "c"; ev_perror_with_name "c" ENOENT;
      ev_fflush_stdout;
      ev_print_message_queue; ev_ferror_stdout; ev_fclose_stdout],
     Returned EXIT_TROUBLE).
Proof.
  refine (proj1 (exit_status_is_maximum_of_runs two_sizes
                   (set_from_file (set_brief plain_options true) (Some "a"))
                   ["diff"; "a"; "b"; "c"] 1
                   [([ev_stat "a"], EXIT_SUCCESS);
                    ([ev_stat "a"; ev_stat "b";
                      ev_message ("Files %s and %s differ" ++ nl) ["a"; "b"];
                      ev_fflush_stdout], EXIT_FAILURE);
                    ([ev_stat "a"; ev_stat "c";
                      ev_perror_with_name "c" ENOENT; ev_fflush_stdout],
                     EXIT_TROUBLE)] _ _ _ _)); try reflexivity.
  repeat constructor.
Defined.

(** [diff a]: the operand check ends the run with status 2, and no pair
    was visited. *)
Lemma exit_status_is_maximum_counterexample :
  ~ exit_status_is_maximum empty_file_system plain_options ["diff"; "a"] 1.
Proof.
  intros H. specialize (H [] (Forall2_nil _)).
  vm_compute in H. discriminate.
Qed.

(** ** The assertion of line 1251 *)

(** "PARENT must be non-NULL here": on a pair that comes out of
    resolution, the case of lines 1238-1258 is reached with a parent
    only, so that the [assert] of line 1251 holds. *)
Lemma parent_is_not_null w o p name0 name1 tr r :
  resolve w o p name0 name1 = (tr, Returned r) ->
  both_directories (r_cmp r) = false ->
  not_to_be_compared (r_cmp r) = true ->
  absent (r_cmp r) false || absent (r_cmp r) true = true ->
  parent (r_cmp r) <> None.
Proof.
  intros Hr Hd Hn Ha.
  destruct (resolve_facts _ _ _ _ _ _ _ Hr) as (_ & _ & _ & _ & Hm & _).
  assert (Hmode : mode (r_cmp r) false = mode (r_cmp r) true).
  { apply orb_true_iff in Ha as [Ha | Ha]; exact (proj1 (Hm _ Ha)). }
  apply modes_DIR_P in Hmode.
  unfold both_directories in Hd. unfold not_to_be_compared in Hn.
  rewrite <- Hmode in Hd, Hn.
  destruct (DIR_P (r_cmp r) false); [discriminate|].
  destruct (parent (r_cmp r)); [discriminate|]. discriminate.
Qed.

(** ** Runs of the model *)

(** Two links with one target, under --no-dereference: both are read
    and nothing is written. *)
Example links_with_one_target :
  compare_files (two_links "/tmp/foo" "/tmp/foo")
    (set_no_dereference_symlinks plain_options true) None
    (Some "L1") (Some "L2")
  = ([ev_lstat "L1"; ev_lstat "L2"; ev_xreadlink "L1"; ev_xreadlink "L2"],
     Returned EXIT_SUCCESS).
Proof. reflexivity. Qed.

(** [diff d f]: the file [d/f] is compared with [f]; both are opened,
    the engine finds them equal, and the one descriptor of the model is
    closed once. *)
Example directory_against_file :
  compare_files directory_and_file plain_options None (Some "d") (Some "f")
  = ([ev_stat "d"; ev_stat "f"; ev_find_dir_file_pathname "d" "f";
      ev_stat "d/f"; ev_open "d/f"; ev_open "f";
      ev_diff_2_files
        (mk_comparison (mk_file_data "d/f" 3 (regular_file 63 10))
                       (mk_file_data "f" 3 (regular_file 62 10)) None);
      ev_close 3],
     Returned EXIT_SUCCESS).
Proof. reflexivity. Qed.

(** [diff --from-file=a] with no operand left: no pair, and the exit
    status is 0. *)
Example from_file_alone :
  main_compare empty_file_system (set_from_file plain_options (Some "a"))
    ["diff"] 1
  = ([ev_print_message_queue; ev_ferror_stdout; ev_fclose_stdout],
     Returned EXIT_SUCCESS).
Proof. reflexivity. Qed.

(** [diff a]: an operand is missing, and the process exits with
    status 2. *)
Example missing_operand :
  main_compare empty_file_system plain_options ["diff"; "a"] 1
  = ([ev_error "missing operand after '%s'" (Some "a")],
     Fatal "Try '%s --help' for more information.")
  /\ process_exit_status
       (snd (main_compare empty_file_system plain_options ["diff"; "a"] 1))
     = Some EXIT_TROUBLE.
Proof. split; reflexivity. Qed.

(** * Further properties of the code *)

(** ** Traces of a run, however it ends *)

Lemma only_events_ret {A : Type} P (a : A) : only_events P (ret a).
Proof. constructor. Qed.

Lemma only_events_fatal {A : Type} P msg : only_events P (@fatal A msg).
Proof. constructor. Qed.

Lemma only_events_crash {A : Type} P why : only_events P (@crash A why).
Proof. constructor. Qed.

Lemma only_events_emit P e : P e -> only_events P (emit e).
Proof. intros H. repeat constructor. exact H. Qed.

Lemma only_events_bind {A B : Type} P (m : M A) (k : A -> M B) :
  only_events P m -> (forall a, only_events P (k a)) ->
  only_events P (bind m k).
Proof.
  unfold only_events, bind. destruct m as [t [a | msg | why]]; cbn; auto.
  intros Hm Hk. specialize (Hk a). destruct (k a) as [t' r]. cbn in *.
  apply Forall_app. auto.
Qed.

Ltac trace_events :=
  repeat first
    [ apply only_events_ret
    | apply only_events_fatal
    | apply only_events_crash
    | apply only_events_emit; cbn; trivial
    | apply only_events_bind; [|intros ?]
    | match goal with
      | |- only_events _ (if ?b then _ else _) => destruct b eqn:?
      | |- only_events _ (match ?x with _ => _ end) => destruct x eqn:?
      end ].

(** ** The values that diff exits with *)

Lemma compare_operands_status w o pair : forall ops acc t e,
  compare_operands w o pair ops acc = (t, Returned e) ->
  is_exit_value acc -> is_exit_value e.
Proof.
  induction ops as [| a ops IH]; intros acc t e H Hacc.
  - inversion H; subst. exact Hacc.
  - cbn [compare_operands] in H.
    apply bind_inv in H as (t1 & s & t2 & Ha & H & _).
    apply (IH _ _ _ H).
    destruct (acc <? s);
      [exact (compare_files_status _ _ _ _ _ _ _ Ha) | exact Hacc].
Qed.

(** X1.  Whenever the operand loop of [main] ends the process with an
    exit status, by returning or through a fatal error, the status is
    EXIT_SUCCESS, EXIT_FAILURE or EXIT_TROUBLE: whatever the engines
    answer and however many operands there are, diff exits with 0, 1
    or 2. *)
Theorem exit_status_is_0_1_or_2 w o argv optind s :
  process_exit_status (snd (main_compare w o argv optind)) = Some s ->
  is_exit_value s.
Proof.
  destruct (main_compare w o argv optind) as [t [e | msg | why]] eqn:E;
    cbn; intros H; inversion H; subst.
  - unfold main_compare in E.
    apply bind_inv in E as (t1 & e' & t2 & Hc & E & _).
    apply bind_inv in E as (_ & _ & t3 & _ & E & _).
    apply bind_inv in E as (_ & _ & t4 & _ & E & _).
    inversion E; subst e'.
    assert (H0 : is_exit_value EXIT_SUCCESS) by (left; reflexivity).
    destruct (from_file o), (to_file o); try discriminate.
    + exact (compare_operands_status _ _ _ _ _ _ _ Hc H0).
    + exact (compare_operands_status _ _ _ _ _ _ _ Hc H0).
    + destruct (skipn optind argv) as [| a [| b [| c rest]]];
        try discriminate.
      exact (compare_files_status _ _ _ _ _ _ _ Hc).
  - right; right; reflexivity.
Qed.

(** [diff -q a b] on two files of different sizes exits with 1. *)
Lemma exit_status_is_0_1_or_2_witness : is_exit_value EXIT_FAILURE.
Proof.
  apply (exit_status_is_0_1_or_2 two_sizes (set_brief plain_options true)
           ["diff"; "a"; "b"] 1 EXIT_FAILURE).
  reflexivity.
Defined.

(** ** Failures that the policy does not forgive *)

Section Forgiveness.

Variable w : world.
Variable o : options.

Lemma mark_nonexistent_other c f :
  file (mark_nonexistent o c f) (negb f) = file c (negb f)
  /\ parent (mark_nonexistent o c f) = parent c.
Proof.
  unfold mark_nonexistent. destruct (stands_for_nonexistent o c f); [|auto].
  destruct f, c; split; reflexivity.
Qed.

(** A slot that has failed, and that lines 1154-1163 do not turn into a
    nonexistent file, is left as it is by the two loops. *)
Lemma settle_nonexistent_keeps_failure c f :
  slot_failed c f = true ->
  stands_for_nonexistent o c f = false ->
  (f = true -> stands_for_nonexistent o (mark_nonexistent o c false) true = false) ->
  file (settle_nonexistent o c) f = file c f.
Proof.
  intros Hf Hs Hs'.
  assert (E : (desc (file c f) =? NONEXISTENT) = false).
  { unfold slot_failed, ERRNO_DECODE in Hf. apply Z.leb_le in Hf.
    apply Z.eqb_neq. unfold NONEXISTENT. lia. }
  unfold settle_nonexistent.
  assert (Hm : file (mark_nonexistent o (mark_nonexistent o c false) true) f
               = file c f).
  { destruct f.
    - unfold mark_nonexistent at 1. rewrite (Hs' eq_refl).
      apply (proj1 (mark_nonexistent_other c false)).
    - rewrite (proj1 (mark_nonexistent_other _ true)).
      unfold mark_nonexistent. rewrite Hs. reflexivity. }
  set (c' := mark_nonexistent o (mark_nonexistent o c false) true) in *.
  rewrite <- Hm in E. rewrite <- Hm. clear Hm Hs Hs' Hf.
  destruct c' as [[n0 d0 s0] [n1 d1 s1] q].
  unfold clear_nonexistent.
  destruct f; cbn [file file0 file1 desc] in *.
  - destruct (d0 =? NONEXISTENT); cbn; rewrite E; reflexivity.
  - rewrite E. cbn. destruct (d1 =? NONEXISTENT); reflexivity.
Qed.

(** What makes the test of lines 1154-1163 fail on a slot that holds an
    error: a parent, a policy that does not cover the slot, an error
    other than ENOENT and EBADF, or an error on the other slot too. *)
Lemma failure_not_forgiven c f :
  slot_failed c f = true ->
  is_some (parent c) = true
  \/ policy_covers o f = false
  \/ (ERRNO_DECODE (desc (file c f)) <> ENOENT
      /\ ERRNO_DECODE (desc (file c f)) <> EBADF)
  \/ slot_failed c (negb f) = true ->
  stands_for_nonexistent o c f = false.
Proof.
  unfold slot_failed, ERRNO_DECODE, stands_for_nonexistent, policy_covers.
  intros Hf H. apply Z.leb_le in Hf.
  assert (E : (desc (file c f) =? UNOPENED) = false)
    by (apply Z.eqb_neq; unfold UNOPENED; lia).
  rewrite E.
  destruct H as [H | [H | [(H1 & H2) | H]]].
  - rewrite H. cbn. rewrite andb_false_r. cbn. apply andb_false_r.
  - rewrite H. reflexivity.
  - assert (E1 : (desc (file c f) =? ERRNO_ENCODE ENOENT) = false)
      by (apply Z.eqb_neq; unfold ERRNO_ENCODE, ENOENT in *; lia).
    assert (E2 : (desc (file c f) =? ERRNO_ENCODE EBADF) = false)
      by (apply Z.eqb_neq; unfold ERRNO_ENCODE, EBADF in *; lia).
    rewrite E1, E2. cbn. apply andb_false_r.
  - apply Z.leb_le in H.
    assert (E1 : (desc (file c (negb f)) =? UNOPENED) = false)
      by (apply Z.eqb_neq; unfold UNOPENED; lia).
    assert (E2 : (desc (file c (negb f)) =? STDIN_FILENO) = false)
      by (apply Z.eqb_neq; unfold STDIN_FILENO; lia).
    rewrite E1, E2. cbn. rewrite !andb_false_r. reflexivity.
Qed.

(** The run of [compare_files] when a slot is still failed after the
    two loops of lines 1148-1170. *)
Lemma compare_files_failed p name0 name1 c0 n t1 c1 :
  only_in_one_directory o name0 name1 = false ->
  init_comparison w p name0 name1 = ([], Returned (c0, n)) ->
  stat_files w o c0 = (t1, Returned c1) ->
  slot_failed (settle_nonexistent o c1) false
  || slot_failed (settle_nonexistent o c1) true = true ->
  sys_fflush_stdout w = Ok tt ->
  compare_files w o p name0 name1
  = (t1 ++ slot_error (settle_nonexistent o c1) false
        ++ slot_error (settle_nonexistent o c1) true ++ [ev_fflush_stdout],
     Returned EXIT_TROUBLE).
Proof.
  intros Hg Hi Hs Hfail Hflush.
  set (c2 := settle_nonexistent o c1) in *.
  assert (Hres : resolve w o p name0 name1
                 = (t1 ++ slot_error c2 false ++ slot_error c2 true,
                    Returned (mk_resolved c2 EXIT_TROUBLE n))).
  { unfold resolve. rewrite (bind_returned _ _ _ _ Hi). cbn [fst snd app].
    rewrite (bind_returned _ _ _ _ Hs). fold c2.
    rewrite report_errors_value, Hfail.
    cbn [bind]. unfold use_file_in_directory.
    cbn [Z.eqb EXIT_TROUBLE EXIT_SUCCESS andb].
    rewrite bind_ret. cbn [ret fst snd]. rewrite app_nil_r. reflexivity. }
  rewrite (compare_files_classified w o _ _ _ _ _ [] c2 EXIT_TROUBLE Hg Hres).
  - rewrite finish_flushed by (discriminate || assumption).
    cbn [fst snd app]. rewrite <- !app_assoc. reflexivity.
  - apply classify_failed. discriminate.
Qed.

End Forgiveness.

(** X2.  A name that cannot be examined is taken as an absent file only
    where the policy of lines 1154-1163 says so.  When the pair has a
    parent (it was found by a directory walk), or neither -N nor, for
    the first file, -P is in force, or the error is neither ENOENT nor
    EBADF, or the other file could not be examined either, the slot
    stays failed: its error is reported by [perror_with_name], nothing
    is opened, read or walked, and [compare_files] returns EXIT_TROUBLE
    (the flush of standard output passing).  In particular -P never
    forgives the second file, -N forgives nothing inside a directory,
    and two missing operands are trouble even under -N. *)
Theorem failure_outside_policy_is_trouble w o p name0 name1 c0 n t1 c1 f :
  only_in_one_directory o name0 name1 = false ->
  init_comparison w p name0 name1 = ([], Returned (c0, n)) ->
  stat_files w o c0 = (t1, Returned c1) ->
  slot_failed c1 f = true ->
  is_some p = true
  \/ policy_covers o f = false
  \/ (ERRNO_DECODE (desc (file c1 f)) <> ENOENT
      /\ ERRNO_DECODE (desc (file c1 f)) <> EBADF)
  \/ slot_failed c1 (negb f) = true ->
  sys_fflush_stdout w = Ok tt ->
  snd (compare_files w o p name0 name1) = Returned EXIT_TROUBLE
  /\ In (ev_perror_with_name (name (file c1 f))
           (ERRNO_DECODE (desc (file c1 f))))
        (fst (compare_files w o p name0 name1))
  /\ comparison_work (fst (compare_files w o p name0 name1)) = [].
Proof.
  intros Hg Hi Hs Hfail Hwhy Hflush.
  destruct (stat_files_quiet w o c0) as (t1' & c1' & Hq & _ & Hw1 & Hp & _ & _).
  rewrite Hs in Hq. inversion Hq; subst t1' c1'; clear Hq.
  pose proof (init_comparison_parent _ _ _ _ _ _ _ Hi) as Hp0.
  rewrite <- Hp0, <- Hp in Hwhy.
  assert (Hkeep : file (settle_nonexistent o c1) f = file c1 f).
  { apply settle_nonexistent_keeps_failure.
    - exact Hfail.
    - apply failure_not_forgiven; assumption.
    - intros ->.
      destruct (mark_nonexistent_other o c1 false) as (Hother & Hpar).
      cbn [negb] in Hother, Hwhy.
      apply failure_not_forgiven.
      + unfold slot_failed in *. rewrite Hother. exact Hfail.
      + rewrite Hpar, Hother. cbn [negb].
        destruct Hwhy as [H | [H | [H | H]]]; auto.
        right. right. right.
        unfold mark_nonexistent.
        rewrite (failure_not_forgiven o c1 false H); [exact H|].
        right. right. right. exact Hfail. }
  assert (Hfail2 : slot_failed (settle_nonexistent o c1) f = true)
    by (unfold slot_failed in *; rewrite Hkeep; exact Hfail).
  assert (Hany : slot_failed (settle_nonexistent o c1) false
                 || slot_failed (settle_nonexistent o c1) true = true)
    by (destruct f; rewrite Hfail2; auto using orb_true_r).
  rewrite (compare_files_failed w o _ _ _ _ _ _ _ Hg Hi Hs Hany Hflush).
  cbn [fst snd]. split; [reflexivity|]. split.
  - apply in_or_app. right.
    assert (Hin : In (ev_perror_with_name (name (file c1 f))
                        (ERRNO_DECODE (desc (file c1 f))))
                     (slot_error (settle_nonexistent o c1) f)).
    { unfold slot_error. rewrite Hfail2, Hkeep. left. reflexivity. }
    destruct f; [apply in_or_app; right|]; apply in_or_app; left; exact Hin.
  - rewrite !comparison_work_app, Hw1, !comparison_work_slot_error.
    reflexivity.
Qed.

(** [diff -P a zz] where [zz] does not exist: -P covers the first file
    only. *)
Lemma failure_outside_policy_is_trouble_witness :
  snd (compare_files two_sizes (set_unidirectional_new_file plain_options true)
         None (Some "a") (Some "zz"))
  = Returned EXIT_TROUBLE
  /\ In (ev_perror_with_name "zz" ENOENT)
        (fst (compare_files two_sizes
                (set_unidirectional_new_file plain_options true)
                None (Some "a") (Some "zz")))
  /\ comparison_work
       (fst (compare_files two_sizes
               (set_unidirectional_new_file plain_options true)
               None (Some "a") (Some "zz"))) = [].
Proof.
  refine (failure_outside_policy_is_trouble two_sizes
            (set_unidirectional_new_file plain_options true)
            None (Some "a") (Some "zz")
            (operands "a" "zz") "a" [ev_stat "a"; ev_stat "zz"]
            (mk_comparison (mk_file_data "a" UNOPENED (regular_file 41 10))
               (mk_file_data "zz" (ERRNO_ENCODE ENOENT) zero_stat) None)
            true _ _ _ _ _ _); try reflexivity.
  right. left. reflexivity.
Defined.

(** ** A missing operand under -N and -P *)

Lemma fst_bind {A B : Type} (m : M A) (k : A -> M B) :
  fst (bind m k)
  = fst m ++ match snd m with
             | Returned a => fst (k a)
             | _ => []
             end.
Proof.
  unfold bind. destruct m as [t [a | msg | why]]; cbn;
    rewrite ?app_nil_r; try reflexivity.
  destruct (k a); reflexivity.
Qed.

Lemma opened_names_app t1 t2 :
  opened_names (t1 ++ t2) = opened_names t1 ++ opened_names t2.
Proof. apply flat_map_app. Qed.

Lemma opened_names_none t : Forall is_not_open t -> opened_names t = [].
Proof.
  induction 1 as [| e t He _ IH]; [reflexivity|].
  destruct e; cbn [opened_names flat_map app] in *;
    try exact IH. destruct He.
Qed.

Lemma comparison_work_opened_names t :
  comparison_work t = [] -> opened_names t = [].
Proof.
  induction t as [| e t IH]; [reflexivity|].
  unfold comparison_work. cbn [filter].
  destruct e; cbn [is_comparison_work]; try discriminate; exact IH.
Qed.

Section Contents.

Variable w : world.
Variable o : options.

Lemma finish_opens_nothing c s : only_events is_not_open (finish w o c s).
Proof.
  unfold finish, when, message, pfatal_with_name. trace_events.
Qed.

Lemma close_slot_opens_nothing c f s :
  only_events is_not_open (close_slot w c f s).
Proof. unfold close_slot, perror_with_name. trace_events. Qed.

Lemma engine_opens_nothing c s :
  only_events is_not_open
    (if s =? EXIT_SUCCESS
     then emit (ev_diff_2_files c) ;;; engine_result (diff_2_files w c)
     else ret s).
Proof. unfold engine_result. trace_events. Qed.

(** [open] is called for the files that are not open yet, and not for
    the second one when it is the first one again. *)
Lemma compare_contents_opened_names c same :
  opened_names (fst (compare_contents w c same))
  = (if desc (file0 c) =? UNOPENED then [name (file0 c)] else [])
    ++ (if (desc (file1 c) =? UNOPENED) && negb same
        then [name (file1 c)] else []).
Proof.
  unfold compare_contents.
  assert (HA : exists tA cA sA,
             (if desc (file0 c) =? UNOPENED
              then open_slot w c false EXIT_SUCCESS
              else ret (c, EXIT_SUCCESS)) = (tA, Returned (cA, sA))
             /\ opened_names tA
                = (if desc (file0 c) =? UNOPENED then [name (file0 c)] else [])
             /\ file1 cA = file1 c).
  { destruct (desc (file0 c) =? UNOPENED).
    - unfold open_slot, perror_with_name. rewrite bind_emit.
      destruct (sys_open w (name (file c false)));
        do 3 eexists; (split; [reflexivity|]); destruct c; split; reflexivity.
    - do 3 eexists. split; [reflexivity|]. split; reflexivity. }
  destruct HA as (tA & cA & sA & HA & HoA & H1).
  rewrite (bind_returned _ _ _ _ HA). cbn [fst snd].
  rewrite opened_names_app, HoA. f_equal.
  rewrite H1.
  assert (HB : exists tB cB sB,
             (if desc (file1 c) =? UNOPENED then
                if same
                then ret (set_file cA true
                            (set_desc (file1 c) (desc (file0 cA))), sA)
                else open_slot w cA true sA
              else ret (cA, sA)) = (tB, Returned (cB, sB))
             /\ opened_names tB
                = (if (desc (file1 c) =? UNOPENED) && negb same
                   then [name (file1 c)] else [])).
  { destruct (desc (file1 c) =? UNOPENED); [destruct same|].
    - do 3 eexists. split; reflexivity.
    - unfold open_slot, perror_with_name. rewrite bind_emit.
      cbn [file]. rewrite H1.
      destruct (sys_open w (name (file1 c)));
        do 3 eexists; split; reflexivity.
    - do 3 eexists. split; reflexivity. }
  destruct HB as (tB & cB & sB & HB & HoB).
  rewrite (bind_returned _ _ _ _ HB). cbn [fst snd].
  rewrite opened_names_app, HoB.
  rewrite <- (app_nil_r (if (desc (file1 c) =? UNOPENED) && negb same
                         then [name (file1 c)] else [])) at 2.
  f_equal.
  apply opened_names_none.
  change (only_events is_not_open
            (status <- (if sB =? EXIT_SUCCESS
                        then emit (ev_diff_2_files cB) ;;;
                             engine_result (diff_2_files w cB)
                        else ret sB) ;;
             status <- (if 0 <=? desc (file0 cB)
                        then close_slot w cB false status
                        else ret status) ;;
             status <- (if (0 <=? desc (file1 cB))
                           && negb (desc (file0 cB) =? desc (file1 cB))
                        then close_slot w cB true status
                        else ret status) ;;
             ret (cB, status))).
  apply only_events_bind; [apply engine_opens_nothing|intros s1].
  apply only_events_bind; [|intros s2].
  { destruct (0 <=? desc (file0 cB));
      [apply close_slot_opens_nothing|apply only_events_ret]. }
  apply only_events_bind; [|intros s3; apply only_events_ret].
  destruct ((0 <=? desc (file1 cB))
            && negb (desc (file0 cB) =? desc (file1 cB)));
    [apply close_slot_opens_nothing|apply only_events_ret].
Qed.

(** Lines 1148-1170 on a pair of operands of which one does not exist
    and the policy makes it an empty file. *)
Lemma settle_nonexistent_promotes c f :
  parent c = None ->
  policy_covers o f = true ->
  desc (file c f) = ERRNO_ENCODE ENOENT
  \/ desc (file c f) = ERRNO_ENCODE EBADF ->
  desc (file c (negb f)) = UNOPENED ->
  policy_covers o (negb f) && looks_like_backup c (negb f) = false ->
  settle_nonexistent o c = made_nonexistent c f.
Proof.
  destruct c as [[n0 d0 s0] [n1 d1 s1] q].
  unfold policy_covers, looks_like_backup, made_nonexistent, mode.
  destruct f; cbn [file file0 file1 desc parent negb stat_of andb orb];
    intros -> Hp Hd -> Hb;
    unfold settle_nonexistent, mark_nonexistent, stands_for_nonexistent,
      clear_nonexistent, mode;
    cbn [file file0 file1 desc parent negb stat_of set_file set_desc name
         is_some andb orb];
    destruct (new_file o), (unidirectional_new_file o);
    cbn [andb orb negb] in Hp, Hb |- *; try discriminate;
    destruct Hd as [-> | ->];
    repeat (progress (cbn; rewrite ?Hb, ?andb_false_r, ?orb_false_r));
    reflexivity.
Qed.

End Contents.

(** X3.  An operand that does not exist (ENOENT, or EBADF) and that the
    policy covers (-N for either operand, -P for the first) is compared
    as an empty file against the other operand, provided that the other
    operand was examined by name (it is not standard input, and its
    [stat] succeeded), that it is a regular file, and that it is not
    itself taken for an absent file, which the policy does, where it
    covers the operand, with an empty file without any permission.
    Then nothing is reported about the missing name, the slot becomes a
    nonexistent file with the type of the other file and no content,
    the pair goes to the comparison of contents, and [open] is called
    for the existing file only. *)
Theorem absent_operand_is_read_as_empty w o a b c0 n t1 c1 f :
  init_comparison w None (Some a) (Some b) = ([], Returned (c0, n)) ->
  stat_files w o c0 = (t1, Returned c1) ->
  policy_covers o f = true ->
  desc (file c1 f) = ERRNO_ENCODE ENOENT
  \/ desc (file c1 f) = ERRNO_ENCODE EBADF ->
  desc (file c1 (negb f)) = UNOPENED ->
  S_ISREG (mode c1 (negb f)) = true ->
  policy_covers o (negb f) && looks_like_backup c1 (negb f) = false ->
  compare_files w o None (Some a) (Some b)
  = (t1 ++ fst (contents_and_finish w o (made_nonexistent c1 f) false),
     snd (contents_and_finish w o (made_nonexistent c1 f) false))
  /\ diagnostics t1 = []
  /\ opened_names (fst (compare_files w o None (Some a) (Some b)))
     = [name (file c1 (negb f))].
Proof.
  intros Hi Hs Hpol Hd Hother Hreg Hbackup.
  destruct (stat_files_quiet w o c0) as (t1' & c1' & Hq & Hd1 & Hw1 & Hp & _ & _).
  rewrite Hs in Hq. inversion Hq; subst t1' c1'; clear Hq.
  pose proof (init_comparison_parent _ _ _ _ _ _ _ Hi) as Hp0.
  rewrite Hp0 in Hp.
  pose proof (settle_nonexistent_promotes o c1 f Hp Hpol Hd Hother Hbackup)
    as Hsettle.
  set (c2 := made_nonexistent c1 f) in *.
  assert (Hdesc : desc (file c2 f) = NONEXISTENT
                  /\ desc (file c2 (negb f)) = UNOPENED
                  /\ mode c2 f = mode c1 (negb f)
                  /\ mode c2 (negb f) = mode c1 (negb f)
                  /\ st_size (stat_of (file c2 f)) = 0%N
                  /\ parent c2 = None
                  /\ name (file c2 (negb f)) = name (file c1 (negb f))).
  { subst c2. unfold made_nonexistent, mode.
    destruct c1 as [[n0 d0 s0] [n1 d1 s1] q], f;
      cbn in *; repeat split; auto. }
  destruct Hdesc as (Hdf & Hdo & Hmf & Hmo & Hsz & Hp2 & Hnm).
  destruct (S_ISREG_only _ Hreg) as (Hnd & Hnl).
  assert (Hres : resolve w o None (Some a) (Some b)
                 = (t1, Returned (mk_resolved c2 EXIT_SUCCESS n))).
  { unfold resolve. rewrite (bind_returned _ _ _ _ Hi). cbn [fst snd app].
    rewrite (bind_returned _ _ _ _ Hs). rewrite Hsettle.
    rewrite report_errors_value.
    assert (F : forall g, slot_failed c2 g = false).
    { intros g. unfold slot_failed, ERRNO_DECODE.
      destruct f, g; cbn [negb] in *; rewrite ?Hdf, ?Hdo; reflexivity. }
    rewrite !F. cbn [orb bind fst snd]. unfold slot_error. rewrite !F.
    unfold use_file_in_directory.
    replace (Bool.eqb (DIR_P c2 false) (DIR_P c2 true)) with true.
    2:{ unfold DIR_P. destruct f; cbn [negb] in *; rewrite Hmf, Hmo, Hnd;
          reflexivity. }
    rewrite andb_false_r. cbn. rewrite app_nil_r. reflexivity. }
  assert (Hg : only_in_one_directory o (Some a) (Some b) = false)
    by reflexivity.
  assert (Hcl : classify w o c2 EXIT_SUCCESS n
                = compare_contents w c2 false).
  { assert (Hsame : same_files c2 = false).
    { unfold same_files. unfold file in Hdf.
      destruct f; rewrite Hdf; cbn; rewrite ?andb_false_r; reflexivity. }
    rewrite <- Hsame. apply classify_contents.
    - unfold both_absent, absent.
      destruct f; cbn [negb] in *; rewrite Hdf, Hdo; reflexivity.
    - unfold same_file_shortcut, same_files. unfold file in Hdf.
      destruct f; rewrite Hdf; cbn; rewrite ?andb_false_r; reflexivity.
    - unfold both_directories, DIR_P.
      destruct f; cbn [negb] in *; rewrite Hmf, Hmo, Hnd; reflexivity.
    - unfold not_to_be_compared, DIR_P. rewrite Hp2.
      destruct f; cbn [negb] in *; rewrite Hmf, Hmo, Hnd; reflexivity.
    - unfold either_symlink.
      destruct f; cbn [negb] in *; rewrite Hmf, Hmo, Hnl; reflexivity.
    - unfold quick_binary_differ. unfold file in Hsz.
      destruct f; rewrite Hsz; cbn; rewrite ?andb_false_r; reflexivity. }
  assert (E : compare_files w o None (Some a) (Some b)
              = (t1 ++ fst (contents_and_finish w o c2 false),
                 snd (contents_and_finish w o c2 false))).
  { unfold compare_files. rewrite Hg.
    rewrite (bind_returned _ _ _ _ Hres). cbn [r_cmp r_status r_name0].
    rewrite Hcl. reflexivity. }
  split; [exact E|]. split; [exact Hd1|].
  rewrite E. cbn [fst]. rewrite opened_names_app.
  rewrite (comparison_work_opened_names _ Hw1). cbn [app].
  unfold contents_and_finish. rewrite fst_bind, opened_names_app.
  rewrite compare_contents_opened_names.
  replace (opened_names
             match snd (compare_contents w c2 false) with
             | Returned a0 => fst (finish w o (fst a0) (snd a0))
             | _ => []
             end) with (@nil string).
  2:{ destruct (snd (compare_contents w c2 false)); try reflexivity.
      symmetry. apply opened_names_none. apply finish_opens_nothing. }
  rewrite app_nil_r, <- Hnm. unfold file in *.
  destruct f; cbn [negb] in *; rewrite Hdf, Hdo; reflexivity.
Qed.

(** [diff -N a zz] where [zz] does not exist: [a] alone is opened.
    [diff -P zz b] where [b] is an empty file without any permission:
    -P does not cover the second operand, and [b] alone is opened. *)
Lemma absent_operand_is_read_as_empty_witness :
  opened_names
    (fst (compare_files two_sizes (set_new_file plain_options true) None
            (Some "a") (Some "zz")))
  = ["a"]
  /\ opened_names
       (fst (compare_files directory_and_strays
               (set_unidirectional_new_file plain_options true) None
               (Some "zz") (Some "b")))
     = ["b"].
Proof.
  split.
  - refine (proj2 (proj2 (absent_operand_is_read_as_empty two_sizes
              (set_new_file plain_options true) "a" "zz"
              (operands "a" "zz") "a" [ev_stat "a"; ev_stat "zz"]
              (mk_comparison (mk_file_data "a" UNOPENED (regular_file 41 10))
                 (mk_file_data "zz" (ERRNO_ENCODE ENOENT) zero_stat) None)
              true _ _ _ _ _ _ _))); try reflexivity.
    left. reflexivity.
  - refine (proj2 (proj2 (absent_operand_is_read_as_empty directory_and_strays
              (set_unidirectional_new_file plain_options true) "zz" "b"
              (operands "zz" "b") "zz" [ev_stat "zz"; ev_stat "b"]
              (mk_comparison
                 (mk_file_data "zz" (ERRNO_ENCODE ENOENT) zero_stat)
                 (mk_file_data "b" UNOPENED (backup_file 65)) None)
              false _ _ _ _ _ _ _))); try reflexivity.
    left. reflexivity.
Defined.

(** ** The comparison of contents: what is opened, compared and closed *)

Lemma bind_assoc {A B C : Type} (m : M A) (k : A -> M B) (h : B -> M C) :
  bind (bind m k) h = bind m (fun a => bind (k a) h).
Proof.
  unfold bind. destruct m as [t [a | msg | why]]; try reflexivity.
  destruct (k a) as [t' [b | msg | why]]; try reflexivity.
  destruct (h b) as [t'' r]. rewrite app_assoc. reflexivity.
Qed.

Lemma closed_descriptors_app t1 t2 :
  closed_descriptors (t1 ++ t2)
  = closed_descriptors t1 ++ closed_descriptors t2.
Proof. apply flat_map_app. Qed.

Lemma engine_calls_app t1 t2 :
  engine_calls (t1 ++ t2) = engine_calls t1 ++ engine_calls t2.
Proof. apply filter_app. Qed.

Section OpenAndClose.

Variable w : world.

Lemma compare_contents_stages c same :
  compare_contents w c same
  = (cs <- open_files w c same ;; compare_and_close w (fst cs) (snd cs)).
Proof.
  unfold compare_contents, open_files, compare_and_close.
  rewrite bind_assoc. reflexivity.
Qed.

(** [open_slot] always returns; it closes nothing and compares
    nothing. *)
Lemma open_slot_returns c f st :
  exists t d st',
    open_slot w c f st = (t, Returned (set_file c f (set_desc (file c f) d), st'))
    /\ closed_descriptors t = [] /\ engine_calls t = []
    /\ (st' = st \/ st' = EXIT_TROUBLE)
    /\ -1 <= d
    /\ (forall e, sys_open w (name (file c f)) = Err e ->
        st' = EXIT_TROUBLE /\ d = -1
        /\ In (ev_perror_with_name (name (file c f)) (Zpos e)) t).
Proof.
  unfold open_slot, perror_with_name. rewrite bind_emit.
  destruct (sys_open w (name (file c f))) as [fd | e].
  - exists [ev_open (name (file c f))], (Z.of_N fd), st.
    split; [reflexivity|]. split; [reflexivity|]. split; [reflexivity|].
    split; [auto|]. split; [lia|]. intros e H. discriminate.
  - exists [ev_open (name (file c f));
            ev_perror_with_name (name (file c f)) (Zpos e)],
      (-1), EXIT_TROUBLE.
    split; [reflexivity|]. split; [reflexivity|]. split; [reflexivity|].
    split; [auto|]. split; [lia|].
    intros e' H. inversion H; subst. cbn. auto.
Qed.

Lemma open_files_returns c same :
  exists t c' s,
    open_files w c same = (t, Returned (c', s))
    /\ closed_descriptors t = [] /\ engine_calls t = []
    /\ (s = EXIT_SUCCESS \/ s = EXIT_TROUBLE)
    /\ (forall f e,
        desc (file c f) = UNOPENED -> (f = true -> same = false) ->
        sys_open w (name (file c f)) = Err e ->
        s = EXIT_TROUBLE /\ desc (file c' f) = -1
        /\ In (ev_perror_with_name (name (file c f)) (Zpos e)) t).
Proof.
  unfold open_files.
  assert (HA : exists tA cA sA,
             (if desc (file0 c) =? UNOPENED
              then open_slot w c false EXIT_SUCCESS
              else ret (c, EXIT_SUCCESS)) = (tA, Returned (cA, sA))
             /\ closed_descriptors tA = [] /\ engine_calls tA = []
             /\ (sA = EXIT_SUCCESS \/ sA = EXIT_TROUBLE)
             /\ file1 cA = file1 c
             /\ (desc (file0 cA) = UNOPENED -> False)
             /\ (forall e, desc (file0 c) = UNOPENED ->
                 sys_open w (name (file0 c)) = Err e ->
                 sA = EXIT_TROUBLE /\ desc (file0 cA) = -1
                 /\ In (ev_perror_with_name (name (file0 c)) (Zpos e)) tA)).
  { destruct (desc (file0 c) =? UNOPENED) eqn:E0.
    - destruct (open_slot_returns c false EXIT_SUCCESS)
        as (t & d & st' & H & Hc & He & Hs & Hd & Hf).
      exists t, (set_file c false (set_desc (file c false) d)), st'.
      split; [exact H|]. split; [exact Hc|]. split; [exact He|].
      split; [tauto|]. split; [destruct c; reflexivity|].
      split.
      + destruct c; cbn. unfold UNOPENED. lia.
      + intros e _ Ho. destruct (Hf e Ho) as (H1 & H2 & H3).
        split; [exact H1|]. split; [destruct c; exact H2|exact H3].
    - apply Z.eqb_neq in E0.
      exists [], c, EXIT_SUCCESS.
      split; [reflexivity|]. split; [reflexivity|]. split; [reflexivity|].
      split; [auto|]. split; [reflexivity|]. split; [exact E0|].
      intros e Hd. contradiction. }
  destruct HA as (tA & cA & sA & HA & HcA & HeA & HsA & H1 & Hn0 & HfA).
  rewrite (bind_returned _ _ _ _ HA). cbn [fst snd]. rewrite H1.
  destruct (desc (file1 c) =? UNOPENED) eqn:E1; [destruct same|].
  - cbn [ret fst snd]. rewrite app_nil_r.
    exists tA, (set_file cA true (set_desc (file1 c) (desc (file0 cA)))), sA.
    split; [reflexivity|]. split; [exact HcA|]. split; [exact HeA|].
    split; [exact HsA|].
    intros f e Hd Hsame Ho.
    destruct f; [specialize (Hsame eq_refl); discriminate|].
    destruct (HfA e Hd Ho) as (G1 & G2 & G3).
    split; [exact G1|]. split; [destruct cA; exact G2|exact G3].
  - destruct (open_slot_returns cA true sA)
      as (t & d & st' & H & Hc & He & Hs & _ & Hf).
    rewrite H. cbn [fst snd].
    exists (tA ++ t), (set_file cA true (set_desc (file cA true) d)), st'.
    rewrite closed_descriptors_app, engine_calls_app, HcA, Hc, HeA, He.
    split; [reflexivity|]. split; [reflexivity|]. split; [reflexivity|].
    split; [destruct Hs as [-> | ->]; auto|].
    intros f e Hd _ Ho. destruct f.
    + cbn [file] in *. rewrite <- H1 in Ho.
      destruct (Hf e Ho) as (G1 & G2 & G3). rewrite H1 in G3.
      split; [exact G1|]. split; [destruct cA; exact G2|].
      apply in_or_app. right. exact G3.
    + destruct (HfA e Hd Ho) as (G1 & G2 & G3).
      split; [destruct Hs as [-> | ->]; auto|].
      split; [destruct cA; exact G2|]. apply in_or_app. left. exact G3.
  - cbn [ret fst snd]. rewrite app_nil_r. exists tA, cA, sA.
    split; [reflexivity|]. split; [exact HcA|]. split; [exact HeA|].
    split; [exact HsA|].
    intros f e Hd _ Ho. destruct f.
    + cbn [file] in Hd. rewrite Hd in E1. discriminate.
    + exact (HfA e Hd Ho).
Qed.

Lemma close_slot_returns c f st :
  exists t st',
    close_slot w c f st = (t, Returned st')
    /\ closed_descriptors t = [desc (file c f)] /\ engine_calls t = []
    /\ (st' = st \/ st' = EXIT_TROUBLE).
Proof.
  unfold close_slot, perror_with_name. rewrite bind_emit.
  destruct (sys_close w (desc (file c f))) as [[] | e];
    do 2 eexists; (split; [reflexivity|]); repeat split; auto.
Qed.

(** Lines 1351-1359 always return, and close what is to be closed. *)
Lemma close_files_returns c st :
  exists t st',
    (status <- (if 0 <=? desc (file0 c)
                then close_slot w c false st
                else ret st) ;;
     status <- (if (0 <=? desc (file1 c))
                   && negb (desc (file0 c) =? desc (file1 c))
                then close_slot w c true status
                else ret status) ;;
     ret (c, status)) = (t, Returned (c, st'))
    /\ closed_descriptors t = descriptors_to_close c
    /\ engine_calls t = []
    /\ (st' = st \/ st' = EXIT_TROUBLE).
Proof.
  unfold descriptors_to_close.
  assert (HD : exists tD sD,
             (if 0 <=? desc (file0 c)
              then close_slot w c false st
              else ret st) = (tD, Returned sD)
             /\ closed_descriptors tD
                = (if 0 <=? desc (file0 c) then [desc (file0 c)] else [])
             /\ engine_calls tD = []
             /\ (sD = st \/ sD = EXIT_TROUBLE)).
  { destruct (0 <=? desc (file0 c)).
    - apply close_slot_returns.
    - exists [], st. repeat split; auto. }
  destruct HD as (tD & sD & HD & HcD & HeD & HsD).
  rewrite (bind_returned _ _ _ _ HD).
  assert (HE : exists tE sE,
             (if (0 <=? desc (file1 c))
                 && negb (desc (file0 c) =? desc (file1 c))
              then close_slot w c true sD
              else ret sD) = (tE, Returned sE)
             /\ closed_descriptors tE
                = (if (0 <=? desc (file1 c))
                      && negb (desc (file0 c) =? desc (file1 c))
                   then [desc (file1 c)] else [])
             /\ engine_calls tE = []
             /\ (sE = sD \/ sE = EXIT_TROUBLE)).
  { destruct ((0 <=? desc (file1 c))
              && negb (desc (file0 c) =? desc (file1 c))).
    - apply close_slot_returns.
    - exists [], sD. repeat split; auto. }
  destruct HE as (tE & sE & HE & HcE & HeE & HsE).
  rewrite (bind_returned _ _ _ _ HE). cbn [fst snd ret].
  exists (tD ++ tE ++ []), sE. rewrite app_nil_r.
  rewrite closed_descriptors_app, engine_calls_app, HcD, HcE, HeD, HeE.
  repeat split.
  destruct HsE as [-> | ->]; auto.
Qed.

Lemma descriptors_to_close_spec c :
  NoDup (descriptors_to_close c)
  /\ (forall d, In d (descriptors_to_close c)
                <-> 0 <= d /\ exists f, d = desc (file c f)).
Proof.
  unfold descriptors_to_close.
  destruct c as [[n0 d0 s0] [n1 d1 s1] q]. cbn [file0 file1 desc].
  destruct (Z.leb_spec 0 d0) as [L0 | L0], (Z.leb_spec 0 d1) as [L1 | L1],
    (Z.eqb_spec d0 d1) as [L | L]; cbn [andb negb app].
  all: split; [repeat constructor; cbn; lia|].
  all: intros d; split;
    [ cbn; intros Hin; split; [lia|];
      repeat match goal with
             | G : _ \/ _ |- _ => destruct G as [G | G]
             end;
      try contradiction;
      first [ exists false; cbn; symmetry; assumption
            | exists true; cbn; symmetry; assumption ]
    | intros (Hd & f & ->); destruct f; cbn in *; lia ].
Qed.

End OpenAndClose.

Lemma compare_and_close_after_trouble w c :
  exists t,
    compare_and_close w c EXIT_TROUBLE = (t, Returned (c, EXIT_TROUBLE))
    /\ closed_descriptors t = descriptors_to_close c
    /\ engine_calls t = [].
Proof.
  unfold compare_and_close.
  change (EXIT_TROUBLE =? EXIT_SUCCESS) with false. cbv iota.
  rewrite bind_ret.
  destruct (close_files_returns w c EXIT_TROUBLE)
    as (t & st' & H & Hc & He & Hs).
  exists t. rewrite H.
  replace st' with EXIT_TROUBLE by (destruct Hs as [-> | ->]; reflexivity).
  auto.
Qed.

(** X4.  When [open] fails on a file that [compare_contents] has to open
    (lines 1330-1342), the error is reported by [perror_with_name], the
    slot holds -1, the engine [diff_2_files] is not called, whatever
    the other [open] gave is closed all the same, and the status is
    EXIT_TROUBLE; the function always returns in this case. *)
Theorem failed_open_is_trouble w c same f e :
  desc (file c f) = UNOPENED ->
  (f = true -> same = false) ->
  sys_open w (name (file c f)) = Err e ->
  exists t c',
    compare_contents w c same = (t, Returned (c', EXIT_TROUBLE))
    /\ In (ev_perror_with_name (name (file c f)) (Zpos e)) t
    /\ desc (file c' f) = -1
    /\ engine_calls t = []
    /\ closed_descriptors t = descriptors_to_close c'.
Proof.
  intros Hd Hsame Ho.
  destruct (open_files_returns w c same)
    as (tA & cA & sA & HA & HcA & HeA & _ & Hfail).
  destruct (Hfail f e Hd Hsame Ho) as (-> & Hdesc & Hin).
  destruct (compare_and_close_after_trouble w cA) as (tB & HB & HcB & HeB).
  exists (tA ++ tB), cA.
  rewrite compare_contents_stages, (bind_returned _ _ _ _ HA).
  cbn [fst snd]. rewrite HB. cbn [fst snd].
  rewrite closed_descriptors_app, engine_calls_app, HcA, HeA, HcB, HeB.
  split; [reflexivity|]. split; [apply in_or_app; left; exact Hin|].
  split; [exact Hdesc|]. split; reflexivity.
Qed.

(** The second of two files cannot be opened: the first is opened and
    closed, and no comparison is made. *)
Lemma failed_open_is_trouble_witness :
  exists t c',
    compare_contents
      (set_open two_sizes
         (fun n => if String.eqb n "b" then Err 13%positive else Ok 3%N))
      two_sizes_unopened false
    = (t, Returned (c', EXIT_TROUBLE))
    /\ In (ev_perror_with_name "b" 13) t
    /\ desc (file c' true) = -1
    /\ engine_calls t = []
    /\ closed_descriptors t = descriptors_to_close c'.
Proof.
  apply (failed_open_is_trouble
           (set_open two_sizes
              (fun n => if String.eqb n "b" then Err 13%positive else Ok 3%N))
           two_sizes_unopened false true 13%positive);
    reflexivity.
Defined.

(** X5.  [compare_contents] calls [open] for the slots that are still
    unopened and for no other name, whatever happens afterwards: for
    the first file when its descriptor is UNOPENED, and for the second
    when its descriptor is UNOPENED and the two are not the same file.
    A second slot that is the same file takes the descriptor of the
    first instead, so that one file is opened once. *)
Theorem opens_what_is_unopened w c same :
  opened_names (fst (compare_contents w c same))
  = (if desc (file0 c) =? UNOPENED then [name (file0 c)] else [])
    ++ (if (desc (file1 c) =? UNOPENED) && negb same
        then [name (file1 c)] else [])
  /\ (same = true -> desc (file1 c) = UNOPENED ->
      forall t c' s,
        compare_contents w c same = (t, Returned (c', s)) ->
        desc (file1 c') = desc (file0 c')).
Proof.
  split; [apply compare_contents_opened_names|].
  intros -> Hd t c' s H.
  rewrite compare_contents_stages in H.
  apply bind_inv in H as (tA & [cA sA] & tB & HA & HB & _).
  cbn [fst snd] in HB.
  assert (Hc : c' = cA).
  { unfold compare_and_close in HB.
    apply bind_inv in HB as (u1 & s1 & v1 & _ & HB & _).
    apply bind_inv in HB as (u2 & s2 & v2 & _ & HB & _).
    apply bind_inv in HB as (u3 & s3 & v3 & _ & HB & _).
    inversion HB. reflexivity. }
  subst c'. unfold open_files in HA.
  apply bind_inv in HA as (t0 & [c0 s0] & t1 & H0 & HA & _).
  cbn [fst snd] in HA.
  assert (H1 : file1 c0 = file1 c).
  { destruct (desc (file0 c) =? UNOPENED).
    - destruct (open_slot_returns w c false EXIT_SUCCESS)
        as (t' & d & st' & H' & _).
      rewrite H' in H0. inversion H0. destruct c; reflexivity.
    - inversion H0. reflexivity. }
  rewrite H1, Hd in HA. cbn in HA. inversion HA. destruct c0; reflexivity.
Qed.

(** X6.  When [compare_contents] returns, the descriptors it has closed
    are the descriptors of the pair that are not negative, each of them
    once: a descriptor that both slots share is closed once, a slot that
    holds -1 or a marker is not closed, and standard input, descriptor
    0, is closed like any other.  The engine was called once at most. *)
Theorem descriptors_are_closed_once w c same t c' s :
  compare_contents w c same = (t, Returned (c', s)) ->
  NoDup (closed_descriptors t)
  /\ (forall d, In d (closed_descriptors t)
                <-> 0 <= d /\ exists f, d = desc (file c' f))
  /\ (List.length (engine_calls t) <= 1)%nat.
Proof.
  intros H. rewrite compare_contents_stages in H.
  destruct (open_files_returns w c same)
    as (tA & cA & sA & HA & HcA & HeA & _ & _).
  rewrite (bind_returned _ _ _ _ HA) in H. cbn [fst snd] in H.
  destruct (compare_and_close w cA sA) as [tB r] eqn:HB.
  cbn [fst snd] in H. inversion H; subst t r; clear H.
  unfold compare_and_close in HB.
  apply bind_inv in HB as (tC & sC & tD & HC & HD & ->).
  destruct (close_files_returns w cA sC) as (tD' & sD & HD' & HcD & HeD & _).
  rewrite HD' in HD. inversion HD; subst tD' c' s; clear HD.
  assert (HtC : closed_descriptors tC = []
                /\ (List.length (engine_calls tC) <= 1)%nat).
  { destruct (sA =? EXIT_SUCCESS).
    - rewrite bind_emit in HC. inversion HC; subst tC.
      destruct (diff_2_files w cA); cbn; auto.
    - inversion HC. cbn. auto. }
  destruct HtC as (HcC & HeC).
  rewrite !closed_descriptors_app, !engine_calls_app, HcA, HcC, HcD,
    HeA, HeD.
  cbn [app]. rewrite app_nil_r.
  destruct (descriptors_to_close_spec cA) as (Hnd & Hin).
  split; [exact Hnd|]. split; [exact Hin|exact HeC].
Qed.

(** [diff d f] as in [directory_against_file]: the one descriptor of the
    model, which both slots hold, is closed once. *)
Lemma descriptors_are_closed_once_witness :
  NoDup [3]
  /\ (forall d, In d [3]
                <-> 0 <= d
                    /\ exists f,
                         d = desc (file
                                (mk_comparison
                                   (mk_file_data "a" 3 (regular_file 41 10))
                                   (mk_file_data "b" 3 (regular_file 42 12))
                                   None) f))
  /\ (1 <= 1)%nat.
Proof.
  apply (descriptors_are_closed_once two_sizes two_sizes_unopened false
           [ev_open "a"; ev_open "b";
            ev_diff_2_files
              (mk_comparison (mk_file_data "a" 3 (regular_file 41 10))
                             (mk_file_data "b" 3 (regular_file 42 12)) None);
            ev_close 3]
           (mk_comparison (mk_file_data "a" 3 (regular_file 41 10))
                          (mk_file_data "b" 3 (regular_file 42 12)) None)
           EXIT_SUCCESS).
  reflexivity.
Defined.

(** ** Files of kinds that are not compared *)

(** X7.  A directory against something that exists and is not a
    directory, once the resolution is over (for operands, after the
    file of that name inside the directory has been looked up and is a
    directory again, or the other way round): nothing is opened, read
    or walked, the one line "File A is a K while file B is a K'" is
    written, and [compare_files] returns EXIT_FAILURE (the flush of
    standard output passing). *)
Theorem directory_against_another_kind w o p name0 name1 tr r :
  only_in_one_directory o name0 name1 = false ->
  resolve w o p name0 name1 = (tr, Returned r) ->
  r_status r = EXIT_SUCCESS ->
  absent (r_cmp r) false = false -> absent (r_cmp r) true = false ->
  DIR_P (r_cmp r) false <> DIR_P (r_cmp r) true ->
  sys_fflush_stdout w = Ok tt ->
  compare_files w o p name0 name1
  = (tr ++ [ev_message ("File %s is a %s while file %s is a %s" ++ nl)
              [label_or_name o (r_cmp r) false;
               file_type w (stat_of (file0 (r_cmp r)));
               label_or_name o (r_cmp r) true;
               file_type w (stat_of (file1 (r_cmp r)))];
            ev_fflush_stdout],
     Returned EXIT_FAILURE)
  /\ comparison_work (fst (compare_files w o p name0 name1)) = [].
Proof.
  intros Hg Hr Hs Ha0 Ha1 Hne Hflush.
  destruct (resolve_facts _ _ _ _ _ _ _ Hr) as (Hw & _).
  set (c := r_cmp r) in *.
  assert (Hmode : (st_mode (stat_of (file0 c)) =? st_mode (stat_of (file1 c)))
                  = false).
  { apply Z.eqb_neq. intros E. apply Hne. unfold DIR_P, mode, file.
    rewrite E. reflexivity. }
  match goal with
  | |- ?run = ?v /\ _ =>
      assert (E : run = v);
      [|split; [exact E|rewrite E; cbn [fst];
                rewrite comparison_work_app, Hw; reflexivity]]
  end.
  rewrite (compare_files_classified w o _ _ _ _ _
             [ev_message ("File %s is a %s while file %s is a %s" ++ nl)
                [label_or_name o c false; file_type w (stat_of (file0 c));
                 label_or_name o c true; file_type w (stat_of (file1 c))]]
             c EXIT_FAILURE Hg Hr).
  - rewrite finish_flushed by (discriminate || assumption). reflexivity.
  - fold c. rewrite Hs, classify_not_compared.
    + rewrite Ha0, Ha1. reflexivity.
    + unfold both_absent. rewrite Ha0. reflexivity.
    + unfold same_file_shortcut, same_files, same_file_attributes.
      rewrite Hmode. cbn. rewrite ?andb_false_r. reflexivity.
    + unfold both_directories.
      destruct (DIR_P c false), (DIR_P c true); try reflexivity.
      exfalso. apply Hne. reflexivity.
    + unfold not_to_be_compared.
      destruct (DIR_P c false), (DIR_P c true); try reflexivity.
      exfalso. apply Hne. reflexivity.
Qed.

(** A directory [d1/x] against a regular file [d2/x], inside [d1] and
    [d2]. *)
Lemma directory_against_another_kind_witness :
  compare_files directory_against_regular plain_options (Some two_directories)
    (Some "x") (Some "x")
  = ([ev_stat "d1/x"; ev_stat "d2/x";
      ev_message ("File %s is a %s while file %s is a %s" ++ nl)
        ["d1/x"; "directory"; "d2/x"; "regular file"];
      ev_fflush_stdout],
     Returned EXIT_FAILURE).
Proof.
  refine (proj1 (directory_against_another_kind directory_against_regular
            plain_options (Some two_directories) (Some "x") (Some "x")
            [ev_stat "d1/x"; ev_stat "d2/x"]
            (mk_resolved
               (mk_comparison
                  (mk_file_data "d1/x" UNOPENED (directory 71))
                  (mk_file_data "d2/x" UNOPENED (regular_file 72 5))
                  (Some two_directories))
               EXIT_SUCCESS "x") _ _ _ _ _ _ _)); try reflexivity.
  discriminate.
Defined.

(** X8.  Two entities that exist, are not the same file, and of which
    neither is a directory and one at least is neither a regular file
    nor a symbolic link (a fifo, a device, a socket).  Found by a
    directory walk, they are not read: the line "File A is a K while
    file B is a K'" is written and the status is EXIT_FAILURE.  Named as
    operands, and neither being a symbolic link, they go to the
    comparison of contents like regular files. *)
Theorem special_files_are_read_as_operands_only w o p name0 name1 tr r f :
  only_in_one_directory o name0 name1 = false ->
  resolve w o p name0 name1 = (tr, Returned r) ->
  r_status r = EXIT_SUCCESS ->
  absent (r_cmp r) false = false -> absent (r_cmp r) true = false ->
  same_file_shortcut o (r_cmp r) = false ->
  DIR_P (r_cmp r) false = false -> DIR_P (r_cmp r) true = false ->
  regular_or_link (r_cmp r) f = false ->
  (is_some p = true ->
   sys_fflush_stdout w = Ok tt ->
   compare_files w o p name0 name1
   = (tr ++ [ev_message ("File %s is a %s while file %s is a %s" ++ nl)
               [label_or_name o (r_cmp r) false;
                file_type w (stat_of (file0 (r_cmp r)));
                label_or_name o (r_cmp r) true;
                file_type w (stat_of (file1 (r_cmp r)))];
             ev_fflush_stdout],
      Returned EXIT_FAILURE))
  /\ (p = None ->
      either_symlink (r_cmp r) = false ->
      compare_files w o p name0 name1
      = (tr ++ fst (contents_and_finish w o (r_cmp r) (same_files (r_cmp r))),
         snd (contents_and_finish w o (r_cmp r) (same_files (r_cmp r))))).
Proof.
  intros Hg Hr Hs Ha0 Ha1 Hsame Hd0 Hd1 Hk.
  destruct (resolve_facts _ _ _ _ _ _ _ Hr) as (_ & Hp & _).
  set (c := r_cmp r) in *.
  assert (Hb : both_absent c = false)
    by (unfold both_absent; rewrite Ha0; reflexivity).
  assert (Hdirs : both_directories c = false)
    by (unfold both_directories; rewrite Hd0; reflexivity).
  assert (Hboth : regular_or_link c false && regular_or_link c true = false)
    by (destruct f; rewrite Hk; rewrite ?andb_false_r; reflexivity).
  split.
  - intros Hsome Hflush.
    rewrite (compare_files_classified w o _ _ _ _ _
               [ev_message ("File %s is a %s while file %s is a %s" ++ nl)
                  [label_or_name o c false; file_type w (stat_of (file0 c));
                   label_or_name o c true; file_type w (stat_of (file1 c))]]
               c EXIT_FAILURE Hg Hr).
    + rewrite finish_flushed by (discriminate || assumption). reflexivity.
    + fold c. rewrite Hs, classify_not_compared; try assumption.
      * rewrite Ha0, Ha1. reflexivity.
      * unfold not_to_be_compared. rewrite Hp, Hsome, Hd0, Hd1, Hboth.
        reflexivity.
  - intros -> Hlink.
    unfold compare_files. rewrite Hg, (bind_returned _ _ _ _ Hr).
    fold c. rewrite Hs, classify_contents; try assumption.
    + reflexivity.
    + unfold not_to_be_compared. rewrite Hp, Hd0, Hd1. reflexivity.
    + unfold quick_binary_differ.
      assert (Hreg : S_ISREG (mode c f) = false).
      { unfold regular_or_link in Hk. apply orb_false_iff in Hk. tauto. }
      destruct f; rewrite Hreg; rewrite ?andb_false_r; reflexivity.
Qed.

(** Two fifos [d1/p] and [d2/p] inside [d1] and [d2] are not read. *)
Lemma special_files_are_read_as_operands_only_witness :
  compare_files two_fifos plain_options (Some two_directories)
    (Some "p") (Some "p")
  = ([ev_stat "d1/p"; ev_stat "d2/p";
      ev_message ("File %s is a %s while file %s is a %s" ++ nl)
        ["d1/p"; "weird file"; "d2/p"; "weird file"];
      ev_fflush_stdout],
     Returned EXIT_FAILURE).
Proof.
  refine (proj1 (special_files_are_read_as_operands_only two_fifos
            plain_options (Some two_directories) (Some "p") (Some "p")
            [ev_stat "d1/p"; ev_stat "d2/p"]
            (mk_resolved
               (mk_comparison
                  (mk_file_data "d1/p" UNOPENED (fifo 81))
                  (mk_file_data "d2/p" UNOPENED (fifo 82))
                  (Some two_directories))
               EXIT_SUCCESS "p") false _ _ _ _ _ _ _ _ _) _ _);
    reflexivity.
Defined.

(** ** stat or lstat *)

Section StatCalls.

Variable w : world.
Variable o : options.

Lemma stat_or_lstat_agrees nm :
  only_events (stat_call_agrees o) (stat_or_lstat w o nm).
Proof. unfold stat_or_lstat. trace_events; assumption. Qed.

Lemma stat_files_agrees c : only_events (stat_call_agrees o) (stat_files w o c).
Proof.
  unfold stat_files, stat_slot, stat_stdin, when.
  trace_events; try apply stat_or_lstat_agrees.
Qed.

Lemma resolve_agrees p name0 name1 :
  only_events (stat_call_agrees o) (resolve w o p name0 name1).
Proof.
  unfold resolve. apply only_events_bind.
  { unfold init_comparison. trace_events. }
  intros cn. apply only_events_bind; [apply stat_files_agrees|intros c].
  unfold report_errors, report_slot_error, use_file_in_directory,
    perror_with_name.
  trace_events; try apply stat_or_lstat_agrees.
Qed.

Lemma classify_agrees c st n :
  only_events (stat_call_agrees o) (classify w o c st n).
Proof.
  unfold classify, call_diff_dirs, compare_symlinks, compare_contents,
    report_file_types, open_slot, close_slot, engine_result, message,
    perror_with_name, assert.
  trace_events.
Qed.

End StatCalls.

(** X9.  In a run of [compare_files], however it ends, the attributes
    of a name are read by [lstat] when --no-dereference is in force and
    by [stat] otherwise, and never by the other call: with
    --no-dereference the driver follows no symbolic link, and without it
    it never looks at a link itself. *)
Theorem stat_calls_follow_no_dereference w o p name0 name1 :
  only_events (stat_call_agrees o) (compare_files w o p name0 name1).
Proof.
  unfold compare_files.
  destruct (only_in_one_directory o name0 name1).
  { unfold report_only_in, message. trace_events. }
  apply only_events_bind; [apply resolve_agrees|intros r].
  apply only_events_bind; [apply classify_agrees|intros cs].
  unfold finish, when, message, pfatal_with_name. trace_events.
Qed.

(** ** The checks on the operands and on standard output *)

(** X10.  When the checks on the operands fail (both --from-file and
    --to-file, or neither and not exactly two operands), the run ends
    with a fatal error before any file is looked at: the only thing
    written is the complaint of [try_help], and the exit status is
    EXIT_TROUBLE. *)
Theorem usage_error_touches_no_file w o argv optind :
  usage_ok o (skipn optind argv) = false ->
  (exists msg, snd (main_compare w o argv optind) = Fatal msg)
  /\ process_exit_status (snd (main_compare w o argv optind))
     = Some EXIT_TROUBLE
  /\ only_events is_usage_report (main_compare w o argv optind).
Proof.
  unfold usage_ok, main_compare, only_events.
  destruct (from_file o), (to_file o); try discriminate.
  - intros _. cbn. eauto.
  - destruct (skipn optind argv) as [| a [| b [| c rest]]];
      try discriminate; intros _; cbn; repeat split; eauto;
      repeat constructor.
Qed.

(** [diff a b c]: one operand too many. *)
Lemma usage_error_touches_no_file_witness :
  (exists msg,
     snd (main_compare two_sizes plain_options ["diff"; "a"; "b"; "c"] 1)
     = Fatal msg)
  /\ process_exit_status
       (snd (main_compare two_sizes plain_options ["diff"; "a"; "b"; "c"] 1))
     = Some EXIT_TROUBLE
  /\ only_events is_usage_report
       (main_compare two_sizes plain_options ["diff"; "a"; "b"; "c"] 1).
Proof.
  apply (usage_error_touches_no_file two_sizes plain_options
           ["diff"; "a"; "b"; "c"] 1).
  reflexivity.
Defined.

Lemma main_compare_runs w o argv optind runs :
  usage_ok o (skipn optind argv) = true ->
  runs_of w o (root_pairs o (skipn optind argv)) runs ->
  exists s,
    main_compare w o argv optind
    = (s' <- (List.concat (map fst runs), Returned s) ;;
       emit ev_print_message_queue ;;;
       check_stdout w ;;;
       ret s').
Proof.
  intros Husage Hruns.
  unfold main_compare, usage_ok, root_pairs in *.
  destruct (from_file o) as [from |], (to_file o) as [to |];
    try discriminate.
  - rewrite (compare_operands_runs w o _ _ _ EXIT_SUCCESS Hruns). eauto.
  - rewrite (compare_operands_runs w o _ _ _ EXIT_SUCCESS Hruns). eauto.
  - destruct (skipn optind argv) as [| a [| b [| c rest]]];
      try discriminate.
    inversion Hruns as [| pr run prs runs' Hrun Hrest]; subst.
    inversion Hrest; subst. cbn [fst snd] in Hrun.
    rewrite Hrun. cbn [map List.concat fst]. rewrite app_nil_r. eauto.
Qed.

(** X11.  When every comparison has returned and standard output then
    turns out to be in error ([ferror]), or cannot be closed, [main]
    ends through [fatal] or [pfatal_with_name]: the exit status is
    EXIT_TROUBLE whatever the comparisons found, also when all the
    files were equal, and a stream in error is not closed. *)
Theorem output_error_is_trouble w o argv optind runs :
  usage_ok o (skipn optind argv) = true ->
  runs_of w o (root_pairs o (skipn optind argv)) runs ->
  sys_ferror_stdout w = true \/ (exists e, sys_fclose_stdout w = Err e) ->
  process_exit_status (snd (main_compare w o argv optind)) = Some EXIT_TROUBLE
  /\ (sys_ferror_stdout w = true ->
      main_compare w o argv optind
      = (List.concat (map fst runs)
         ++ [ev_print_message_queue; ev_ferror_stdout],
         Fatal "write failed")).
Proof.
  intros Husage Hruns Hout.
  destruct (main_compare_runs w o argv optind runs Husage Hruns) as (s & E).
  rewrite E. unfold check_stdout, pfatal_with_name. cbn [bind].
  destruct (sys_ferror_stdout w) eqn:Ef.
  - cbn. split; [reflexivity|]. intros _. reflexivity.
  - destruct Hout as [Hout | (e & Hout)]; [discriminate|].
    rewrite Hout. cbn. split; [reflexivity|]. discriminate.
Qed.

(** [diff a a] on a stream in error: the files are equal and the exit
    status is 2. *)
Lemma output_error_is_trouble_witness :
  process_exit_status
    (snd (main_compare (set_ferror_stdout two_sizes true) plain_options
            ["diff"; "a"; "a"] 1))
  = Some EXIT_TROUBLE.
Proof.
  refine (proj1 (output_error_is_trouble (set_ferror_stdout two_sizes true)
                   plain_options ["diff"; "a"; "a"] 1
                   [([ev_stat "a"], EXIT_SUCCESS)] _ _ _)).
  - reflexivity.
  - repeat constructor.
  - left. reflexivity.
Defined.

(** ** The pair that resolution leaves *)

(** X12.  On a pair that comes out of resolution, a side that is taken
    as absent has the file type of the other side and no content.  So
    a pair with an absent side is a pair of directories or has no
    directory at all, and in the case of lines 1232-1258 (one side
    absent, not both directories) neither side is a directory: the
    directory walk of line 1246 is never called there, and the pair has
    a parent, as the [assert] of line 1251 demands. *)
Theorem absent_side_has_the_type_of_the_other w o p name0 name1 tr r f :
  resolve w o p name0 name1 = (tr, Returned r) ->
  absent (r_cmp r) f = true ->
  mode (r_cmp r) false = mode (r_cmp r) true
  /\ size (r_cmp r) f = 0%N
  /\ both_directories (r_cmp r) = DIR_P (r_cmp r) (negb f)
  /\ (both_directories (r_cmp r) = false ->
      not_to_be_compared (r_cmp r) = true ->
      missing_subtree_is_empty o (r_cmp r) = false
      /\ parent (r_cmp r) <> None).
Proof.
  intros Hr Ha.
  destruct (resolve_facts _ _ _ _ _ _ _ Hr) as (_ & _ & _ & _ & Hm & _).
  destruct (Hm f Ha) as (Hmode & Hsize).
  pose proof (modes_DIR_P _ Hmode) as Hdir.
  split; [exact Hmode|]. split; [exact Hsize|].
  split.
  { unfold both_directories. rewrite Hdir.
    destruct f; cbn [negb]; rewrite ?Hdir; apply andb_diag. }
  intros Hd Hn.
  unfold both_directories in Hd. unfold not_to_be_compared in Hn.
  unfold missing_subtree_is_empty.
  rewrite Hdir in *. rewrite andb_diag in Hd. rewrite Hd in *.
  split; [reflexivity|].
  destruct (parent (r_cmp r)); discriminate.
Qed.

(** The fifo [d1/p] whose counterpart is taken as absent under -N. *)
Lemma absent_side_has_the_type_of_the_other_witness :
  mode (mk_comparison
          (mk_file_data "d1/p" UNOPENED (fifo 21))
          (mk_file_data "d2/p" NONEXISTENT (with_mode zero_stat 4516))
          (Some two_directories)) false
  = 4516.
Proof.
  refine (eq_trans
            (proj1 (absent_side_has_the_type_of_the_other fifo_on_one_side
                      (set_new_file plain_options true) (Some two_directories)
                      (Some "p") (Some "p") [ev_stat "d1/p"; ev_stat "d2/p"]
                      (mk_resolved
                         (mk_comparison
                            (mk_file_data "d1/p" UNOPENED (fifo 21))
                            (mk_file_data "d2/p" NONEXISTENT
                               (with_mode zero_stat 4516))
                            (Some two_directories))
                         EXIT_SUCCESS "p") true _ _)) _); reflexivity.
Defined.

(** ** No assertion fails *)

Lemma never_crashes_ret {A : Type} (a : A) : never_crashes (ret a).
Proof. exact I. Qed.

Lemma never_crashes_fatal {A : Type} msg : never_crashes (@fatal A msg).
Proof. exact I. Qed.

Lemma never_crashes_emit e : never_crashes (emit e).
Proof. exact I. Qed.

Lemma never_crashes_bind {A B : Type} (m : M A) (k : A -> M B) :
  never_crashes m ->
  (forall t a, m = (t, Returned a) -> never_crashes (k a)) ->
  never_crashes (bind m k).
Proof.
  unfold never_crashes, bind. destruct m as [t [a | msg | why']]; cbn.
  - intros _ Hk. specialize (Hk t a eq_refl).
    destruct (k a). exact Hk.
  - trivial.
  - trivial.
Qed.

Lemma never_crashes_returned {A : Type} (m : M A) t a :
  m = (t, Returned a) -> never_crashes m.
Proof. intros ->. exact I. Qed.

Section NoCrash.

Variable w : world.
Variable o : options.

Hypothesis Hfollow : no_dereference_symlinks o = false -> stat_follows_links w.
Hypothesis Hengines : engines_do_not_crash w.

Lemma stat_slot_no_links f c t c' :
  no_dereference_symlinks o = false ->
  no_links_in c ->
  stat_slot w o f c = (t, Returned c') ->
  no_links_in c'.
Proof.
  intros Hnd (H0 & H1) H. destruct (Hfollow Hnd) as (Hstat & Hfstat).
  unfold stat_slot in H.
  destruct (desc (file c f) =? NONEXISTENT).
  { inversion H; subst. split; assumption. }
  destruct (f && (file_name_cmp (name (file c f)) (name (file0 c)) =? 0)) eqn:E.
  { inversion H; subst. apply andb_true_iff in E as (-> & _).
    destruct c; split; exact H0. }
  destruct (String.eqb (name (file c f)) "-").
  { apply bind_inv in H as (t1 & fd & t2 & Hin & H & _).
    inversion H; subst; clear H.
    assert (Hm : S_ISLNK (st_mode (stat_of fd)) = false).
    { unfold stat_stdin, when in Hin.
      apply bind_inv in Hin as (u1 & x1 & v1 & _ & Hin & _).
      apply bind_inv in Hin as (u2 & x2 & v2 & _ & Hin & _).
      destruct (sys_fstat_stdin w) as [st | e] eqn:Ef.
      - specialize (Hfstat st eq_refl).
        apply bind_inv in Hin as (u3 & fd3 & v3 & H3 & Hin & _).
        apply bind_inv in Hin as (u4 & x4 & v4 & _ & Hin & _).
        inversion Hin; subst; clear Hin. cbn.
        destruct (S_ISREG (st_mode st)).
        + apply bind_inv in H3 as (u5 & x5 & v5 & _ & H3 & _).
          destruct (sys_lseek_stdin w); inversion H3; subst; exact Hfstat.
        + inversion H3; subst. exact Hfstat.
      - inversion Hin; subst. cbn. destruct f; assumption. }
    unfold no_links_in, mode. destruct f, c; cbn in *; auto. }
  unfold stat_or_lstat in H. rewrite Hnd in H.
  rewrite bind_assoc, bind_emit in H. cbn [fst snd] in H.
  rewrite bind_ret in H.
  destruct (sys_stat w (name (file c f))) as [st | e] eqn:Es;
    inversion H; subst; clear H.
  - specialize (Hstat _ _ Es).
    unfold no_links_in, mode. destruct f, c; cbn in *; auto.
  - unfold no_links_in, mode. destruct f, c; cbn in *; auto.
Qed.

Lemma settle_nonexistent_no_links c :
  no_links_in c -> no_links_in (settle_nonexistent o c).
Proof.
  destruct c as [[n0 d0 s0] [n1 d1 s1] q].
  unfold no_links_in, mode. cbn [file file0 file1 stat_of]. intros (H0 & H1).
  unfold settle_nonexistent, clear_nonexistent, mark_nonexistent.
  repeat match goal with
         | |- context [if ?b then _ else _] => destruct b; cbn
         end; auto.
Qed.

Lemma resolve_no_links p name0 name1 tr r :
  no_dereference_symlinks o = false ->
  resolve w o p name0 name1 = (tr, Returned r) ->
  no_links_in (r_cmp r).
Proof.
  intros Hnd Hr. destruct (Hfollow Hnd) as (Hstat & _).
  apply resolve_inv in Hr
    as (c0 & t1 & c1 & t2 & st & t3 & Hi & Hs & He & Hu & _).
  assert (L0 : no_links_in c0).
  { unfold init_comparison in Hi.
    destruct name0, name1; cbn in Hi; inversion Hi; split; reflexivity. }
  unfold stat_files in Hs.
  apply bind_inv in Hs as (u1 & ca & u2 & Ha & Hb & _).
  pose proof (stat_slot_no_links _ _ _ _ Hnd L0 Ha) as La.
  pose proof (stat_slot_no_links _ _ _ _ Hnd La Hb) as L1.
  pose proof (settle_nonexistent_no_links _ L1) as L2.
  set (c2 := settle_nonexistent o c1) in *.
  unfold use_file_in_directory in Hu.
  destruct ((st =? EXIT_SUCCESS) && negb (is_some (parent c2))
            && negb (Bool.eqb (DIR_P c2 false) (DIR_P c2 true))).
  2:{ inversion Hu as [[Ht Hc Hst]]. exact L2. }
  rewrite bind_emit in Hu. cbn [fst snd] in Hu.
  destruct (String.eqb (name (file c2 (DIR_P c2 false))) "-");
    [discriminate|].
  rewrite bind_ret in Hu. unfold stat_or_lstat in Hu. rewrite Hnd in Hu.
  rewrite bind_assoc, bind_emit in Hu. cbn [fst snd] in Hu.
  rewrite bind_ret in Hu.
  destruct L2 as (M0 & M1).
  destruct (sys_stat w _) as [s | e] eqn:Es; cbn in Hu;
    inversion Hu as [[Ht Hc Hst]]; clear Hu.
  - specialize (Hstat _ _ Es).
    unfold no_links_in, mode in *.
    destruct c2 as [[n0 d0 s0] [n1 d1 s1] q].
    destruct (DIR_P _ false); cbn in *; auto.
  - unfold no_links_in, mode in *.
    destruct c2 as [[n0 d0 s0] [n1 d1 s1] q].
    destruct (DIR_P _ false); cbn in *; auto.
Qed.

Lemma engine_result_never_crashes r :
  (forall why, r <> Crashed why) -> never_crashes (engine_result r).
Proof.
  intros H. destruct r; try exact I. exact (H why eq_refl).
Qed.

Lemma call_diff_dirs_never_crashes c : never_crashes (call_diff_dirs w c).
Proof.
  unfold call_diff_dirs. apply never_crashes_bind.
  - apply never_crashes_emit.
  - intros _ _ _. apply engine_result_never_crashes.
    apply (proj2 Hengines).
Qed.

Lemma compare_contents_never_crashes c same :
  never_crashes (compare_contents w c same).
Proof.
  rewrite compare_contents_stages.
  destruct (open_files_returns w c same) as (tA & cA & sA & HA & _).
  apply never_crashes_bind; [exact (never_crashes_returned _ _ _ HA)|].
  intros t [c' s] _. cbn [fst snd]. unfold compare_and_close.
  apply never_crashes_bind.
  { destruct (s =? EXIT_SUCCESS); [|apply never_crashes_ret].
    apply never_crashes_bind; [apply never_crashes_emit|].
    intros _ _ _. apply engine_result_never_crashes.
    apply (proj1 Hengines). }
  intros t1 s1 _.
  destruct (close_files_returns w c' s1) as (tD & sD & HD & _).
  exact (never_crashes_returned _ _ _ HD).
Qed.

Lemma compare_symlinks_never_crashes c :
  no_dereference_symlinks o = true ->
  never_crashes (compare_symlinks w o c).
Proof.
  intros Hnd. unfold compare_symlinks. rewrite Hnd. cbn [assert].
  rewrite bind_ret. unfold report_file_types, message, perror_with_name.
  destruct (S_ISLNK (mode c false) && S_ISLNK (mode c true)).
  - rewrite bind_emit.
    destruct (sys_xreadlink w (name (file0 c))); [|exact I].
    cbn [fst snd]. rewrite bind_emit.
    destruct (sys_xreadlink w (name (file1 c))); [|exact I].
    destruct (negb (String.eqb a a0)); exact I.
  - exact I.
Qed.

Lemma classify_never_crashes p name0 name1 tr r :
  resolve w o p name0 name1 = (tr, Returned r) ->
  never_crashes (classify w o (r_cmp r) (r_status r) (r_name0 r)).
Proof.
  intros Hr.
  destruct (Z.eq_dec (r_status r) EXIT_SUCCESS) as [Hs | Hne].
  2:{ rewrite classify_failed by assumption. apply never_crashes_ret. }
  rewrite Hs. set (c := r_cmp r) in *.
  destruct (both_absent c) eqn:H1.
  { rewrite classify_both_absent by assumption. apply never_crashes_ret. }
  destruct (same_file_shortcut o c) eqn:H2.
  { rewrite classify_same_file by assumption. apply never_crashes_ret. }
  destruct (both_directories c) eqn:H3.
  { rewrite classify_directories by assumption.
    apply never_crashes_bind.
    { destruct (is_OUTPUT_IFDEF (output_style o));
        [apply never_crashes_fatal|apply never_crashes_ret]. }
    intros _ _ _.
    destruct (is_some (parent c) && negb (recursive o)).
    - exact I.
    - apply never_crashes_bind; [apply call_diff_dirs_never_crashes|].
      intros; apply never_crashes_ret. }
  destruct (not_to_be_compared c) eqn:H4.
  { rewrite classify_not_compared by assumption.
    destruct (absent c false || absent c true) eqn:Ha.
    - destruct (missing_subtree_is_empty o c).
      + apply never_crashes_bind; [apply call_diff_dirs_never_crashes|].
        intros; apply never_crashes_ret.
      + pose proof (parent_is_not_null _ _ _ _ _ _ _ Hr H3 H4 Ha) as Hp.
        fold c in Hp. destruct (parent c); [|contradiction].
        exact I.
    - exact I. }
  destruct (either_symlink c) eqn:H5.
  { rewrite classify_symlinks by assumption.
    apply never_crashes_bind; [|intros; apply never_crashes_ret].
    apply compare_symlinks_never_crashes.
    destruct (Bool.bool_dec (no_dereference_symlinks o) true) as [Hnd | Hnd];
      [exact Hnd|].
    apply not_true_is_false in Hnd.
    destruct (resolve_no_links _ _ _ _ _ Hnd Hr) as (L0 & L1).
    fold c in L0, L1. unfold either_symlink in H5.
    rewrite L0, L1 in H5. discriminate. }
  destruct (quick_binary_differ o c) eqn:H6.
  { rewrite classify_quick_binary by assumption. exact I. }
  rewrite classify_contents by assumption.
  apply compare_contents_never_crashes.
Qed.

Lemma resolve_never_crashes p name0 name1 :
  is_some name0 || is_some name1 = true ->
  never_crashes (resolve w o p name0 name1).
Proof.
  intros Hn. unfold resolve.
  apply never_crashes_bind.
  { unfold init_comparison. destruct name0, name1; try discriminate;
      apply never_crashes_ret. }
  intros t0 cn _.
  destruct (stat_files_quiet w o (fst cn)) as (t1 & c1 & H1 & _).
  apply never_crashes_bind; [exact (never_crashes_returned _ _ _ H1)|].
  intros t1' c1' _.
  apply never_crashes_bind.
  { rewrite report_errors_value. exact I. }
  intros t2 st _.
  apply never_crashes_bind; [|intros; apply never_crashes_ret].
  unfold use_file_in_directory.
  destruct (_ && _); [|apply never_crashes_ret].
  apply never_crashes_bind; [apply never_crashes_emit|intros _ _ _].
  apply never_crashes_bind.
  { destruct (String.eqb _ "-");
      [apply never_crashes_fatal|apply never_crashes_ret]. }
  intros _ _ _.
  destruct (stat_or_lstat_quiet w o
              (find_dir_file_pathname w
                 (name (file (settle_nonexistent o c1')
                          (negb (DIR_P (settle_nonexistent o c1') false))))
                 (last_component w
                    (name (file (settle_nonexistent o c1')
                             (DIR_P (settle_nonexistent o c1') false))))))
    as (e & He & _).
  rewrite He. cbn [bind].
  destruct (if no_dereference_symlinks o then _ else _); exact I.
Qed.

End NoCrash.

(** X13.  [compare_files], called as [main] and the directory walk call
    it, never ends on a failed assertion or on a null pointer, provided
    that the engines do not and that [stat] and [fstat] answer as they
    promise (never with the type of a symbolic link): the [assert] of
    line 1251 finds a parent, the [assert] of line 1275 finds
    --no-dereference in force, and [parent] is not read at line 1071
    when it is null.  The run returns a status or ends with a fatal
    error. *)
Theorem compare_files_fails_no_assertion w o p name0 name1 :
  called_as_the_callers_do p name0 name1 ->
  (no_dereference_symlinks o = false -> stat_follows_links w) ->
  engines_do_not_crash w ->
  never_crashes (compare_files w o p name0 name1).
Proof.
  intros (Hcall & Hname) Hfollow Hengines. unfold compare_files.
  destruct (only_in_one_directory o name0 name1) eqn:Hg.
  - unfold report_only_in, message.
    destruct p as [q |].
    + destruct name0, name1; try discriminate; exact I.
    + specialize (Hcall eq_refl). unfold only_in_one_directory in Hg.
      rewrite Hcall in Hg. discriminate.
  - apply never_crashes_bind.
    { apply resolve_never_crashes. exact Hname. }
    intros tr r Hr.
    apply never_crashes_bind.
    { exact (classify_never_crashes w o Hfollow Hengines _ _ _ _ _ Hr). }
    intros t cs _. unfold finish, when, message, pfatal_with_name.
    apply never_crashes_bind; [|intros; apply never_crashes_ret].
    destruct (snd cs =? EXIT_SUCCESS).
    + destruct (report_identical_files o && negb (DIR_P (fst cs) false));
        exact I.
    + rewrite bind_emit. destruct (sys_fflush_stdout w); exact I.
Qed.

(** [diff a b] on two regular files. *)
Lemma compare_files_fails_no_assertion_witness :
  never_crashes
    (compare_files two_sizes plain_options None (Some "a") (Some "b")).
Proof.
  apply (compare_files_fails_no_assertion two_sizes plain_options None
           (Some "a") (Some "b")).
  - split; [intros _|]; reflexivity.
  - intros _. split.
    + intros nm st. cbn.
      destruct (String.eqb nm "a"); [intros H; inversion H; reflexivity|].
      destruct (String.eqb nm "b"); [intros H; inversion H; reflexivity|].
      discriminate.
    + intros st. discriminate.
  - split; intros c why; discriminate.
Defined.

(** ** The obsolete option -NUM *)

Section ObsoleteContext.

Variable CONTEXT_MAX : Z.
Variable ISDIGIT : Z -> bool.

Hypothesis CONTEXT_MAX_digit : 9 <= CONTEXT_MAX.
Hypothesis ISDIGIT_digit : forall c, is_digit_char c -> ISDIGIT c = true.

(** One more digit multiplies by ten and adds, up to CONTEXT_MAX. *)
Lemma digit_option_next prev v c :
  ISDIGIT prev = true -> 0 <= v -> is_digit_char c ->
  digit_option CONTEXT_MAX ISDIGIT prev (Z.min v CONTEXT_MAX) c
  = Z.min (10 * v + (c - char_0)) CONTEXT_MAX.
Proof.
  unfold digit_option, is_digit_char. intros -> Hv Hc. cbn [negb].
  rewrite Z.quot_div_nonneg, Z.rem_mod_nonneg by lia.
  pose proof (Z.div_mod CONTEXT_MAX 10 ltac:(lia)) as Hdm.
  pose proof (Z.mod_pos_bound CONTEXT_MAX 10 ltac:(lia)) as Hb.
  destruct (Z.leb_spec (c - char_0) (CONTEXT_MAX mod 10)); cbn [Z.b2z];
    destruct (Z.ltb_spec (Z.min v CONTEXT_MAX - 1) (CONTEXT_MAX / 10));
    try destruct (Z.ltb_spec (Z.min v CONTEXT_MAX - 0) (CONTEXT_MAX / 10));
    lia.
Qed.

Lemma digit_options_run : forall cs prev v,
  ISDIGIT prev = true -> 0 <= v ->
  Forall is_digit_char cs ->
  snd (digit_options CONTEXT_MAX ISDIGIT prev (Z.min v CONTEXT_MAX) cs)
  = Z.min (fold_left (fun v c => 10 * v + (c - char_0)) cs v) CONTEXT_MAX.
Proof.
  induction cs as [| c cs IH]; intros prev v Hp Hv Hcs.
  - reflexivity.
  - inversion Hcs as [| c' cs' Hc Hrest]; subst.
    cbn [digit_options fold_left].
    rewrite (digit_option_next _ _ _ Hp Hv Hc).
    apply IH.
    + apply ISDIGIT_digit, Hc.
    + unfold is_digit_char in Hc. lia.
    + exact Hrest.
Qed.

End ObsoleteContext.

(** X14.  A run of digits among the options, after an option that is
    not a digit, leaves in [ocontext] the number that the digits write
    in base ten, or CONTEXT_MAX when that number is larger: the value
    saturates and stays between 0 and CONTEXT_MAX, so that
    [10 * ocontext + digit] is never computed where it could overflow.
    CONTEXT_MAX is any constant that is 9 at least, and [ISDIGIT] any
    test that holds of the ten digits. *)
Theorem obsolete_context_saturates CONTEXT_MAX ISDIGIT prev ocontext c cs :
  9 <= CONTEXT_MAX ->
  (forall d, is_digit_char d -> ISDIGIT d = true) ->
  ISDIGIT prev = false ->
  Forall is_digit_char (c :: cs) ->
  snd (digit_options CONTEXT_MAX ISDIGIT prev ocontext (c :: cs))
  = Z.min (decimal_value (c :: cs)) CONTEXT_MAX
  /\ 0 <= snd (digit_options CONTEXT_MAX ISDIGIT prev ocontext (c :: cs))
     <= CONTEXT_MAX.
Proof.
  intros Hmax Hdigit Hprev Hcs.
  inversion Hcs as [| c' cs' Hc Hrest]; subst.
  assert (Hval : forall l v, Forall is_digit_char l -> 0 <= v ->
                   0 <= fold_left (fun v c => 10 * v + (c - char_0)) l v).
  { induction l as [| d l IH]; intros v Hl Hv; [exact Hv|].
    inversion Hl as [| d' l' Hd Hl']; subst. cbn [fold_left].
    apply IH; [exact Hl'|]. unfold is_digit_char in Hd. lia. }
  assert (E : snd (digit_options CONTEXT_MAX ISDIGIT prev ocontext (c :: cs))
              = Z.min (decimal_value (c :: cs)) CONTEXT_MAX).
  { cbn [digit_options]. unfold digit_option at 1. rewrite Hprev. cbn [negb].
    unfold decimal_value. cbn [fold_left].
    replace (c - char_0) with (Z.min (c - char_0) CONTEXT_MAX)
      by (unfold is_digit_char in Hc; lia).
    rewrite (digit_options_run CONTEXT_MAX ISDIGIT Hmax Hdigit).
    - replace (Z.min (c - char_0) CONTEXT_MAX) with (c - char_0)
        by (unfold is_digit_char in Hc; lia).
      reflexivity.
    - apply Hdigit, Hc.
    - unfold is_digit_char in Hc. lia.
    - exact Hrest. }
  split; [exact E|]. rewrite E.
  pose proof (Hval (c :: cs) 0 Hcs ltac:(lia)) as Hpos.
  unfold decimal_value. lia.
Qed.

(** [-12] with CONTEXT_MAX = 100 gives 12, and [-123] gives 100. *)
Lemma obsolete_context_saturates_witness :
  snd (digit_options 100 (fun c => (48 <=? c) && (c <=? 57)) (-1) (-1)
         [49; 50; 51])
  = Z.min (decimal_value [49; 50; 51]) 100
  /\ 0 <= snd (digit_options 100 (fun c => (48 <=? c) && (c <=? 57)) (-1) (-1)
                 [49; 50; 51]) <= 100.
Proof.
  apply (obsolete_context_saturates 100 (fun c => (48 <=? c) && (c <=? 57))
           (-1) (-1) 49 [50; 51]).
  - lia.
  - intros d. unfold is_digit_char, char_0. intros Hd.
    apply andb_true_iff. split; apply Z.leb_le; lia.
  - reflexivity.
  - repeat constructor; unfold char_0; lia.
Defined.

(** ** The width of the output and the two columns *)

Lemma size_t_small x : 0 <= x <= SIZE_MAX -> size_t x = x.
Proof. unfold size_t, SIZE_MAX. intros H. apply Z.mod_small. lia. Qed.

(** The sum of the halves and of the common low bit is the half of the
    sum: line 707 computes [(w + t_plus_g) / 2] without the sum. *)
Lemma half_of_sum w g :
  0 <= w -> 0 <= g ->
  Z.shiftr w 1 + Z.shiftr g 1 + Z.land (Z.land w g) 1 = (w + g) / 2.
Proof.
  intros Hw Hg.
  rewrite !Z.shiftr_div_pow2 by lia.
  change (Z.land (Z.land w g) 1) with (Z.land (Z.land w g) (Z.ones 1)).
  rewrite Z.land_ones by lia.
  change (2 ^ 1) with 2.
  rewrite <- Z.bit0_mod, Z.land_spec, !Z.bit0_odd.
  pose proof (Zmod_odd w) as Ow. pose proof (Zmod_odd g) as Og.
  destruct (Z.odd w), (Z.odd g); cbn [andb Z.b2z];
    Z.to_euclidean_division_equations; lia.
Qed.

(** X15.  The layout of the side-by-side output (lines 690-713), for a
    width and a tab size that the options -W and --tabsize accept or
    leave at 0 for the defaults 130 and 8.  The arithmetic of [size_t]
    never wraps around, and the result keeps the constraints that the
    comment of lines 694-702 states: with a half line of nonzero width,
    the gutter before the second column is GUTTER_WIDTH_MINIMUM wide at
    least, the second column and its half line end within the width,
    and the second column starts on a tab stop (on any column when tabs
    are expanded); with a half line of width 0 the second column is at
    the width. *)
Theorem sdiff_columns_fit expand_tabs tabsize width :
  0 <= tabsize <= SIZE_MAX - GUTTER_WIDTH_MINIMUM ->
  0 <= width <= SIZE_MAX ->
  let l := sdiff_columns expand_tabs tabsize width in
  let t := if expand_tabs then 1 else tabsize_or_default tabsize in
  let w := width_or_default width in
  0 <= sdiff_half_width l
  /\ (sdiff_half_width l = 0 -> sdiff_column2_offset l = w)
  /\ (0 < sdiff_half_width l ->
      sdiff_half_width l + GUTTER_WIDTH_MINIMUM <= sdiff_column2_offset l
      /\ sdiff_column2_offset l + sdiff_half_width l <= w
      /\ sdiff_column2_offset l mod t = 0
      /\ 2 * sdiff_column2_offset l <= w + t + GUTTER_WIDTH_MINIMUM).
Proof.
  intros Ht Hw l t w. subst l. unfold sdiff_columns. fold t. fold w.
  assert (Ht' : 1 <= t <= SIZE_MAX - GUTTER_WIDTH_MINIMUM).
  { subst t. unfold tabsize_or_default, SIZE_MAX, GUTTER_WIDTH_MINIMUM in *.
    destruct expand_tabs; [lia|].
    destruct (Z.eqb_spec tabsize 0); lia. }
  assert (Hw' : 1 <= w <= SIZE_MAX).
  { subst w. unfold width_or_default, SIZE_MAX in *.
    destruct (Z.eqb_spec width 0); lia. }
  clearbody t w. clear Ht Hw.
  unfold GUTTER_WIDTH_MINIMUM in *.
  rewrite (size_t_small (t + 3)) by lia.
  assert (Hhalf : Z.shiftr w 1 + Z.shiftr (t + 3) 1 <= SIZE_MAX - 1).
  { rewrite !Z.shiftr_div_pow2 by lia. change (2 ^ 1) with 2.
    unfold SIZE_MAX in *. Z.to_euclidean_division_equations. lia. }
  assert (Hpos : 0 <= Z.shiftr w 1 + Z.shiftr (t + 3) 1).
  { rewrite !Z.shiftr_div_pow2 by lia. change (2 ^ 1) with 2.
    Z.to_euclidean_division_equations. lia. }
  assert (Hbit : 0 <= Z.land (Z.land w (t + 3)) 1 <= 1).
  { change (Z.land (Z.land w (t + 3)) 1)
      with (Z.land (Z.land w (t + 3)) (Z.ones 1)).
    rewrite Z.land_ones by lia.
    change (2 ^ 1) with 2. Z.to_euclidean_division_equations. lia. }
  rewrite (size_t_small (Z.shiftr w 1 + Z.shiftr (t + 3) 1)) by lia.
  rewrite (size_t_small (_ + _ + _)) by lia.
  rewrite half_of_sum by lia.
  set (u := (w + (t + 3)) / 2).
  assert (Hu : 0 <= u <= SIZE_MAX /\ 2 * u <= w + t + 3).
  { subst u. unfold SIZE_MAX in *. Z.to_euclidean_division_equations. lia. }
  pose proof (Z.mod_pos_bound u t ltac:(lia)) as Hm.
  pose proof (Z.mod_le u t ltac:(lia) ltac:(lia)) as Hle.
  rewrite !(size_t_small (u - u mod t)) by lia.
  set (off := u - u mod t).
  assert (Hoff : 0 <= off <= u) by (subst off; lia).
  assert (Hmul : off mod t = 0).
  { subst off. rewrite (Z.div_mod u t) at 1 by lia.
    replace (t * (u / t) + u mod t - u mod t) with ((u / t) * t) by lia.
    apply Z.mod_mul. lia. }
  destruct (Z.leb_spec off 3) as [L3 | L3]; cbn [orb].
  { cbn. repeat split; try lia. }
  destruct (Z.leb_spec w off) as [Lw | Lw].
  { cbn. repeat split; try lia. }
  rewrite (size_t_small (off - 3)), (size_t_small (w - off)) by lia.
  cbn [sdiff_half_width sdiff_column2_offset].
  destruct (Z.eqb_spec (Z.min (off - 3) (w - off)) 0) as [E | E]; [lia|].
  cbn [negb].
  split; [lia|]. split; [lia|]. intros _.
  split; [lia|]. split; [lia|]. split; [exact Hmul|lia].
Qed.

(** The defaults: 130 columns and tabs of 8 give half lines of 61
    columns and the second column at 64. *)
Lemma sdiff_columns_fit_witness :
  0 <= 61
  /\ (61 = 0 -> 64 = 130)
  /\ (0 < 61 ->
      61 + 3 <= 64 /\ 64 + 61 <= 130 /\ 64 mod 8 = 0 /\ 2 * 64 <= 130 + 8 + 3).
Proof.
  apply (sdiff_columns_fit false 0 0); unfold SIZE_MAX, GUTTER_WIDTH_MINIMUM;
    lia.
Defined.

Lemma INTMAX_MAX_fits n :
  0 < n -> n <= INTMAX_MAX ->
  (n <=? SIZE_MAX) = true /\ (n <=? SIZE_MAX - GUTTER_WIDTH_MINIMUM) = true.
Proof.
  unfold INTMAX_MAX, SIZE_MAX, GUTTER_WIDTH_MINIMUM. intros H0 H1.
  split; apply Z.leb_le; lia.
Qed.

(** One option -W: the upper bound of line 524 never refuses a number
    that [strtoimax] has answered. *)
Lemma option_W_step strtoimax current optarg :
  fst (strtoimax optarg) <= INTMAX_MAX ->
  option_W strtoimax current optarg
  = (if negb (reads_as_positive strtoimax optarg)
     then ([ev_error "invalid width '%s'" (Some optarg)],
           Fatal "Try '%s --help' for more information.")
     else if (current =? 0) || (current =? fst (strtoimax optarg))
          then ([], Returned (fst (strtoimax optarg)))
          else ([], Fatal "conflicting width options")).
Proof.
  unfold option_W, reads_as_positive, width_option, try_help.
  destruct (strtoimax optarg) as [n e]. cbn [fst snd]. intros Hmax.
  destruct (Z.ltb_spec 0 n) as [Hpos | Hneg]; cbn [andb negb orb];
    [|reflexivity].
  rewrite (proj1 (INTMAX_MAX_fits n Hpos Hmax)). cbn [negb orb].
  destruct (String.eqb e ""); cbn [negb]; [|reflexivity].
  rewrite bind_ret.
  destruct (Z.eqb_spec current n) as [-> | Hn]; cbn [negb].
  - rewrite orb_true_r. reflexivity.
  - rewrite orb_false_r. destruct (current =? 0); reflexivity.
Qed.

Lemma option_tabsize_step strtoimax current optarg :
  fst (strtoimax optarg) <= INTMAX_MAX ->
  option_tabsize strtoimax current optarg
  = (if negb (reads_as_positive strtoimax optarg)
     then ([ev_error "invalid tabsize '%s'" (Some optarg)],
           Fatal "Try '%s --help' for more information.")
     else if (current =? 0) || (current =? fst (strtoimax optarg))
          then ([], Returned (fst (strtoimax optarg)))
          else ([], Fatal "conflicting tabsize options")).
Proof.
  unfold option_tabsize, reads_as_positive, tabsize_option, try_help.
  destruct (strtoimax optarg) as [n e]. cbn [fst snd]. intros Hmax.
  destruct (Z.ltb_spec 0 n) as [Hpos | Hneg]; cbn [andb negb orb];
    [|reflexivity].
  rewrite (proj2 (INTMAX_MAX_fits n Hpos Hmax)). cbn [negb orb].
  destruct (String.eqb e ""); cbn [negb]; [|reflexivity].
  rewrite bind_ret.
  destruct (Z.eqb_spec current n) as [-> | Hn]; cbn [negb].
  - rewrite orb_true_r. reflexivity.
  - rewrite orb_false_r. destruct (current =? 0); reflexivity.
Qed.

(** Once a value is set, the options that follow must repeat it. *)
Lemma options_W_repeat strtoimax v : forall rest,
  0 < v ->
  Forall (fun a => fst (strtoimax a) <= INTMAX_MAX) rest ->
  forallb (reads_as_positive strtoimax) rest = true ->
  options_W strtoimax v rest
  = (if forallb (fun a => fst (strtoimax a) =? v) rest
     then ([], Returned v)
     else ([], Fatal "conflicting width options")).
Proof.
  induction rest as [| a rest IH]; intros Hv Hmax Hvalid; [reflexivity|].
  inversion Hmax as [| a' rest' Ha Hrest]; subst.
  cbn [forallb] in Hvalid. apply andb_true_iff in Hvalid as (Hva & Hvr).
  cbn [options_W forallb].
  rewrite (option_W_step _ _ _ Ha), Hva. cbn [negb].
  assert (E0 : (v =? 0) = false) by (apply Z.eqb_neq; lia).
  rewrite E0. cbn [orb]. rewrite (Z.eqb_sym v).
  destruct (Z.eqb_spec (fst (strtoimax a)) v) as [-> | Hne]; cbn [andb].
  - rewrite bind_pure. apply IH; assumption.
  - reflexivity.
Qed.

Lemma options_tabsize_repeat strtoimax v : forall rest,
  0 < v ->
  Forall (fun a => fst (strtoimax a) <= INTMAX_MAX) rest ->
  forallb (reads_as_positive strtoimax) rest = true ->
  options_tabsize strtoimax v rest
  = (if forallb (fun a => fst (strtoimax a) =? v) rest
     then ([], Returned v)
     else ([], Fatal "conflicting tabsize options")).
Proof.
  induction rest as [| a rest IH]; intros Hv Hmax Hvalid; [reflexivity|].
  inversion Hmax as [| a' rest' Ha Hrest]; subst.
  cbn [forallb] in Hvalid. apply andb_true_iff in Hvalid as (Hva & Hvr).
  cbn [options_tabsize forallb].
  rewrite (option_tabsize_step _ _ _ Ha), Hva. cbn [negb].
  assert (E0 : (v =? 0) = false) by (apply Z.eqb_neq; lia).
  rewrite E0. cbn [orb]. rewrite (Z.eqb_sym v).
  destruct (Z.eqb_spec (fst (strtoimax a)) v) as [-> | Hne]; cbn [andb].
  - rewrite bind_pure. apply IH; assumption.
  - reflexivity.
Qed.

(** X16.  -W and --tabsize take the number that [strtoimax] reads from
    their argument, a number of [intmax_t] and so INTMAX_MAX at most.
    The argument is refused through [try_help], with the complaint
    "invalid width '%s'" ("invalid tabsize '%s'"), exactly when that
    number is not greater than 0 or text is left after it: the upper
    bound of the test, SIZE_MAX (less the minimal gutter for
    --tabsize), refuses nothing, so that an argument too large for
    [intmax_t], for which [strtoimax] answers INTMAX_MAX, is accepted
    with that value.  An accepted number becomes the value when none was
    set or the same one was; another one ends the run through [fatal]
    with "conflicting width options" ("conflicting tabsize options").
    Hence the options of a command line, all of them accepted, return
    exactly when they all carry the number of the first, which is then
    the value. *)
Theorem width_and_tabsize_are_given_once strtoimax current optarg rest :
  Forall (fun a => fst (strtoimax a) <= INTMAX_MAX) (optarg :: rest) ->
  let numval := fst (strtoimax optarg) in
  let same := forallb (fun a => fst (strtoimax a) =? numval) rest in
  let refused (complaint : string) : M Z :=
    ([ev_error complaint (Some optarg)],
     Fatal "Try '%s --help' for more information.") in
  option_W strtoimax current optarg
  = (if negb (reads_as_positive strtoimax optarg)
     then refused "invalid width '%s'"
     else if (current =? 0) || (current =? numval)
          then ([], Returned numval)
          else ([], Fatal "conflicting width options"))
  /\ option_tabsize strtoimax current optarg
     = (if negb (reads_as_positive strtoimax optarg)
        then refused "invalid tabsize '%s'"
        else if (current =? 0) || (current =? numval)
             then ([], Returned numval)
             else ([], Fatal "conflicting tabsize options"))
  /\ (forallb (reads_as_positive strtoimax) (optarg :: rest) = true ->
      options_W strtoimax 0 (optarg :: rest)
      = (if same then ([], Returned numval)
         else ([], Fatal "conflicting width options"))
      /\ options_tabsize strtoimax 0 (optarg :: rest)
         = (if same then ([], Returned numval)
            else ([], Fatal "conflicting tabsize options"))).
Proof.
  intros Hmax numval same refused.
  inversion Hmax as [| a' rest' Ha Hrest]; subst.
  split; [apply option_W_step; exact Ha|].
  split; [apply option_tabsize_step; exact Ha|].
  intros Hvalid. cbn [forallb] in Hvalid.
  apply andb_true_iff in Hvalid as (Hva & Hvr).
  assert (Hpos : 0 < numval).
  { unfold reads_as_positive in Hva. apply andb_true_iff in Hva as (Hp & _).
    apply Z.ltb_lt. exact Hp. }
  cbn [options_W options_tabsize].
  rewrite (option_W_step _ _ _ Ha), (option_tabsize_step _ _ _ Ha), Hva.
  cbn [negb Z.eqb orb]. rewrite !bind_pure.
  split.
  - apply options_W_repeat; assumption.
  - apply options_tabsize_repeat; assumption.
Qed.

(** With a [strtoimax] that reads digits: [-W 99999999999999999999] sets
    the width INTMAX_MAX, [--tabsize=4x] is refused, and [-W 80 -W 80
    -W 132] is a conflict. *)
Lemma width_and_tabsize_are_given_once_witness :
  option_W strtoimax_of_digits 0 "99999999999999999999"
  = ([], Returned INTMAX_MAX)
  /\ option_tabsize strtoimax_of_digits 8 "4x"
     = ([ev_error "invalid tabsize '%s'" (Some "4x")],
        Fatal "Try '%s --help' for more information.")
  /\ options_W strtoimax_of_digits 0 ["80"; "80"; "132"]
     = ([], Fatal "conflicting width options").
Proof.
  split; [|split].
  - refine (proj1 (width_and_tabsize_are_given_once strtoimax_of_digits 0
                     "99999999999999999999" [] _)).
    repeat constructor. apply Z.leb_le. reflexivity.
  - refine (proj1 (proj2 (width_and_tabsize_are_given_once
                            strtoimax_of_digits 8 "4x" [] _))).
    repeat constructor. apply Z.leb_le. reflexivity.
  - refine (proj1 (proj2 (proj2 (width_and_tabsize_are_given_once
                                   strtoimax_of_digits 0 "80" ["80"; "132"]
                                   _)) _)).
    + repeat constructor; apply Z.leb_le; reflexivity.
    + reflexivity.
Defined.

(** ** The output style *)

Lemma output_style_eqb_eq a b : output_style_eqb a b = true <-> a = b.
Proof. destruct a, b; cbn; split; (reflexivity || discriminate). Qed.

Lemma specify_style_same s : specify_style s s = ret s.
Proof.
  unfold specify_style.
  rewrite (proj2 (output_style_eqb_eq s s) eq_refl). reflexivity.
Qed.

(** X17.  The calls of [specify_style] that the options of a command
    line make compose as follows: starting from OUTPUT_UNSPECIFIED, they
    all return, and leave the style asked for, exactly when every call
    asks for the same style; the first call that asks for another
    style ends the run through [try_help] with the complaint
    "conflicting output style options".  Asking twice for one style is
    allowed. *)
Theorem styles_must_agree style rest :
  style <> OUTPUT_UNSPECIFIED ->
  specify_styles OUTPUT_UNSPECIFIED (style :: rest)
  = (if forallb (output_style_eqb style) rest
     then ret style
     else try_help (Some "conflicting output style options") None).
Proof.
  intros Hs. cbn [specify_styles].
  assert (E : specify_style OUTPUT_UNSPECIFIED style = ret style).
  { unfold specify_style. destruct style; reflexivity. }
  rewrite E, bind_ret. clear E.
  induction rest as [| s rest IH]; [reflexivity|].
  cbn [specify_styles forallb].
  destruct (output_style_eqb style s) eqn:Es.
  - apply output_style_eqb_eq in Es. subst s.
    rewrite specify_style_same, bind_ret. exact IH.
  - unfold specify_style. rewrite Es. cbn [negb andb].
    destruct style; try contradiction; reflexivity.
Qed.

(** [diff -u -c]: the second style is refused. *)
Lemma styles_must_agree_witness :
  specify_styles OUTPUT_UNSPECIFIED [OUTPUT_UNIFIED; OUTPUT_CONTEXT]
  = ([ev_error "conflicting output style options" None],
     Fatal "Try '%s --help' for more information.").
Proof.
  apply (styles_must_agree OUTPUT_UNIFIED [OUTPUT_CONTEXT]). discriminate.
Defined.

(** ** -D NAME *)

Lemma length_append (a b : string) :
  String.length (a ++ b) = (String.length a + String.length b)%nat.
Proof. induction a as [| c a IH]; cbn; [reflexivity|]. rewrite IH. reflexivity. Qed.

Lemma is_c_string_tail c s :
  is_c_string (String c s) -> Ascii.eqb c NUL = false /\ is_c_string s.
Proof.
  unfold is_c_string. cbn [c_string].
  destruct (Ascii.eqb c NUL); [discriminate|].
  intros H. inversion H as [H']. rewrite H'. auto.
Qed.

Lemma c_string_append s r :
  is_c_string s -> c_string (s ++ r) = (s ++ c_string r)%string.
Proof.
  induction s as [| c s IH]; intros H; [reflexivity|].
  apply is_c_string_tail in H as (Hc & Hs).
  cbn [append c_string]. rewrite Hc, (IH Hs). reflexivity.
Qed.

Lemma after_c_string_append s r :
  is_c_string s -> after_c_string (s ++ r) = after_c_string r.
Proof.
  induction s as [| c s IH]; intros H; [reflexivity|].
  apply is_c_string_tail in H as (Hc & Hs).
  cbn [append after_c_string]. rewrite Hc. exact (IH Hs).
Qed.

Lemma ifdef_buffer_value optarg :
  ifdef_buffer optarg
  = ("%=" ++ String NUL
       ("#ifndef " ++ optarg ++ nl ++ "%<#endif /* ! " ++ optarg ++ " */" ++ nl
        ++ String NUL
             ("#ifdef " ++ optarg ++ nl ++ "%>#endif /* " ++ optarg ++ " */"
              ++ nl
              ++ String NUL
                   ("#ifndef " ++ optarg ++ nl ++ "%<#else /* " ++ optarg
                    ++ " */" ++ nl ++ "%>#endif /* " ++ optarg ++ " */"
                    ++ nl))))%string.
Proof.
  unfold ifdef_buffer.
  set (f := C_ifdef_group_formats). vm_compute in f. subst f.
  cbn [sprintf]. cbn [append]. unfold nl. cbn [ascii_of_nat ascii_of_pos append].
  reflexivity.
Qed.

Lemma append_empty_r (s : string) : (s ++ "")%string = s.
Proof. induction s as [| c s IH]; cbn; [reflexivity|]. rewrite IH. reflexivity. Qed.

Lemma append_same_length (a b x y : string) :
  String.length a = String.length b ->
  (a ++ x)%string = (b ++ y)%string -> a = b.
Proof.
  revert b. induction a as [| c a IH]; intros [| d b]; cbn;
    try discriminate; [reflexivity|].
  intros Hl H. inversion H; subst. f_equal. apply IH; [lia|assumption].
Qed.

Lemma c_string_NUL r : c_string (String NUL r) = "".
Proof. reflexivity. Qed.

Lemma after_c_string_NUL r : after_c_string (String NUL r) = r.
Proof. reflexivity. Qed.

Lemma c_string_end (s : string) : is_c_string s -> c_string s = s.
Proof. intros H. exact H. Qed.

Lemma specify_value_unset value opt :
  specify_value None value opt = ret (Some value).
Proof. reflexivity. Qed.

Lemma specify_value_same value opt :
  specify_value (Some value) value opt = ret (Some value).
Proof. unfold specify_value. rewrite String.eqb_refl. reflexivity. Qed.

Ltac c_strings :=
  repeat first
    [ rewrite c_string_append by (assumption || reflexivity)
    | rewrite after_c_string_append by (assumption || reflexivity)
    | rewrite c_string_NUL
    | rewrite after_c_string_NUL
    | rewrite append_empty_r ].

(** What the loop of lines 388-391 hands to [specify_value], in its
    order. *)
Lemma ifdef_buffer_strings optarg :
  is_c_string optarg ->
  let b0 := ifdef_buffer optarg in
  let b1 := after_c_string b0 in
  let b2 := after_c_string b1 in
  let b3 := after_c_string b2 in
  ifdef_formats optarg
  = [Some (c_string b0); Some (c_string b1); Some (c_string b2);
     Some (c_string b3)].
Proof.
  intros H. cbv zeta. rewrite ifdef_buffer_value. unfold ifdef_formats.
  c_strings. reflexivity.
Qed.

(** X18.  -D NAME (lines 376-393).  The buffer that [xmalloc] returns
    has exactly the size of what [sprintf] writes into it, its final
    null character included, for every NAME short enough for the size
    not to wrap around; and the four
    strings that the loop reads back from it are the group formats of
    the unchanged, old, new and changed groups, with NAME in its seven
    places.  So -D sets the style to OUTPUT_IFDEF and the four formats
    when none was set; it may be given again with the same NAME; and
    with another NAME it ends the run, through [specify_value] and
    [try_help], at the format of the old group. *)
Theorem ifdef_option_sets_the_group_formats optarg :
  is_c_string optarg ->
  (7 * strlen optarg + sizeof_literal C_ifdef_group_formats <= SIZE_MAX ->
   Z.of_nat (String.length (ifdef_buffer optarg)) + 1
   = ifdef_buffer_size optarg)
  /\ ifdef_option OUTPUT_UNSPECIFIED [None; None; None; None] optarg
     = ret (OUTPUT_IFDEF, ifdef_formats optarg)
  /\ ifdef_option OUTPUT_IFDEF (ifdef_formats optarg) optarg
     = ret (OUTPUT_IFDEF, ifdef_formats optarg)
  /\ (forall other,
      is_c_string other -> other <> optarg ->
      exists t,
        ifdef_option OUTPUT_IFDEF (ifdef_formats other) optarg
        = (t, Fatal "Try '%s --help' for more information.")).
Proof.
  intros H.
  pose proof (ifdef_buffer_strings optarg H) as Hb. cbv zeta in Hb.
  split.
  { rewrite ifdef_buffer_value. unfold ifdef_buffer_size, sizeof_literal, strlen.
    rewrite (c_string_end _ H).
    set (f := C_ifdef_group_formats). vm_compute in f. subst f.
    cbn [String.length]. unfold nl.
    repeat (rewrite length_append || cbn [String.length]).
    intros Hfit.
    rewrite (size_t_small (7 * _)) by lia.
    rewrite (size_t_small (_ + 7 * _)) by lia.
    rewrite (size_t_small (_ + 7 * _ - 14)) by lia.
    rewrite (size_t_small (_ + 7 * _ - 14 - 8)) by lia.
    lia. }
  split.
  { unfold ifdef_option. cbn [specify_style output_style_eqb negb].
    rewrite !bind_ret. cbn [specify_group_formats].
    rewrite !specify_value_unset, !bind_ret.
    rewrite Hb. reflexivity. }
  split.
  { unfold ifdef_option. cbn [specify_style output_style_eqb negb].
    rewrite !bind_ret. rewrite Hb at 1. cbn [specify_group_formats].
    rewrite !specify_value_same, !bind_ret. rewrite Hb. reflexivity. }
  intros other Ho Hne.
  unfold ifdef_option. cbn [specify_style output_style_eqb negb].
  rewrite !bind_ret. unfold ifdef_formats at 1. cbn [specify_group_formats].
  assert (H0 : c_string (ifdef_buffer optarg) = "%=").
  { rewrite ifdef_buffer_value. c_strings. reflexivity. }
  assert (H1 : c_string (after_c_string (ifdef_buffer optarg))
               = ("#ifndef " ++ optarg ++ nl ++ "%<#endif /* ! " ++ optarg
                  ++ " */" ++ nl)%string).
  { rewrite ifdef_buffer_value. c_strings. reflexivity. }
  rewrite H0, H1. rewrite specify_value_same, bind_ret.
  unfold specify_value at 1.
  replace (String.eqb _ _) with false.
  { cbn. eauto. }
  symmetry. apply String.eqb_neq. intros E. apply Hne.
  assert (Hl : String.length other = String.length optarg).
  { apply (f_equal String.length) in E.
    repeat (rewrite length_append in E || cbn [String.length] in E).
    lia. }
  cbn [append] in E. inversion E as [E'].
  exact (append_same_length _ _ _ _ Hl E').
Qed.

(** [diff -D DEBUG]. *)
Lemma ifdef_option_sets_the_group_formats_witness :
  Z.of_nat (String.length (ifdef_buffer "DEBUG")) + 1
  = ifdef_buffer_size "DEBUG"
  /\ ifdef_option OUTPUT_UNSPECIFIED [None; None; None; None] "DEBUG"
     = ret (OUTPUT_IFDEF, ifdef_formats "DEBUG").
Proof.
  split.
  - apply (proj1 (ifdef_option_sets_the_group_formats "DEBUG" eq_refl)).
    vm_compute. discriminate.
  - apply (proj1 (proj2 (ifdef_option_sets_the_group_formats "DEBUG" eq_refl))).
Defined.

(** ** Regular expressions *)

Lemma double_size_ends : forall fuel sz newlen,
  1 <= sz -> 2 * sz <= SIZE_MAX ->
  0 <= newlen -> 2 * newlen <= SIZE_MAX ->
  newlen < sz * 2 ^ Z.of_nat (S fuel) ->
  exists s,
    double_size (S fuel) sz newlen = Some s
    /\ newlen < s <= SIZE_MAX /\ sz <= s.
Proof.
  induction fuel as [| fuel IH]; intros sz newlen H1 H2 H3 H4 H5;
    cbn [double_size]; rewrite (size_t_small (sz * 2)) by lia.
  - change (2 ^ Z.of_nat 1) with 2 in H5.
    destruct (Z.leb_spec (sz * 2) newlen); [lia|].
    exists (sz * 2). repeat split; lia.
  - destruct (Z.leb_spec (sz * 2) newlen) as [L | L].
    + destruct (IH (sz * 2) newlen) as (s & Hs & Hb & Hle); try lia.
      * rewrite Nat2Z.inj_succ, Z.pow_succ_r in H5 by lia. lia.
      * exists s. cbn [double_size] in Hs. rewrite Hs. repeat split; lia.
    + exists (sz * 2). repeat split; lia.
Qed.

Lemma substring_all (s : string) : substring 0 (String.length s) s = s.
Proof. induction s as [| c s IH]; cbn; [reflexivity|]. rewrite IH. reflexivity. Qed.

Lemma is_c_string_append a b :
  is_c_string a -> is_c_string b -> is_c_string (a ++ b).
Proof.
  unfold is_c_string at 3. intros Ha Hb.
  rewrite c_string_append by assumption. rewrite Hb. reflexivity.
Qed.

Lemma strlen_c_string s : is_c_string s -> strlen s = Z.of_nat (String.length s).
Proof. unfold strlen. intros ->. reflexivity. Qed.

(** One call of [add_regexp] on a list in order. *)
Lemma add_regexp_step re_compile_pattern reglist pattern :
  regexp_list_ok reglist ->
  is_c_string pattern ->
  re_compile_pattern pattern = None ->
  2 * (rl_len reglist + 2 + strlen pattern) <= SIZE_MAX ->
  exists r,
    add_regexp re_compile_pattern 64 reglist pattern = ret (Some r)
    /\ regexp_list_ok r
    /\ rl_regexps r
       = Some (match rl_regexps reglist with
               | None => pattern
               | Some s => (s ++ "\|" ++ pattern)%string
               end)
    /\ rl_len r
       = rl_len reglist + (if is_some (rl_regexps reglist) then 2 else 0)
         + strlen pattern
    /\ rl_multiple_regexps r = is_some (rl_regexps reglist)
    /\ rl_size reglist <= rl_size r.
Proof.
  intros Hok Hp Hc Hfit.
  unfold add_regexp. rewrite (c_string_end _ Hp), Hc.
  pose proof (strlen_c_string _ Hp) as Hpl.
  assert (Hpos : 0 <= strlen pattern) by (rewrite Hpl; lia).
  destruct reglist as [old len sz mult]. unfold regexp_list_ok in Hok.
  cbn [rl_regexps rl_len rl_size rl_multiple_regexps] in *.
  set (two := if is_some old then 2 else 0).
  assert (Hlen : 0 <= len).
  { destruct old as [s |]; [|lia].
    destruct Hok as (Hs & -> & _). rewrite (strlen_c_string _ Hs). lia. }
  assert (Htwo : size_t (2 * Z.b2z (is_some old)) = two).
  { subst two. destruct old; reflexivity. }
  assert (Hb : 0 <= two <= 2) by (subst two; destruct old; cbn; lia).
  rewrite Htwo.
  rewrite (size_t_small (len + two)) by lia.
  rewrite (size_t_small (len + two + strlen pattern)) by lia.
  set (newlen := len + two + strlen pattern) in *.
  assert (Hgrow : exists s,
             (if sz <=? newlen
              then double_size 64 (if sz =? 0 then 1 else sz) newlen
              else Some sz) = Some s
             /\ newlen < s <= SIZE_MAX /\ sz <= s).
  { assert (Hsz : 0 <= sz <= SIZE_MAX).
    { destruct old as [s |]; lia. }
    destruct (Z.leb_spec sz newlen) as [L | L].
    - destruct (double_size_ends 63 (if sz =? 0 then 1 else sz) newlen)
        as (s & Hs & Hbound & Hle);
        try (destruct (Z.eqb_spec sz 0); unfold SIZE_MAX in *; lia).
      exists s. split; [exact Hs|]. split; [exact Hbound|].
      destruct (Z.eqb_spec sz 0); lia.
    - exists sz. repeat split; lia. }
  destruct Hgrow as (s & -> & Hs & Hle).
  eexists. split; [reflexivity|].
  cbn [rl_regexps rl_len rl_size rl_multiple_regexps].
  assert (Hw : (substring 0 (Z.to_nat len) (c_string (or_default old ""))
                ++ (if is_some old then "\|" else "") ++ pattern)%string
               = match old with
                 | None => pattern
                 | Some s0 => (s0 ++ "\|" ++ pattern)%string
                 end).
  { destruct old as [s0 |]; cbn [is_some or_default].
    - destruct Hok as (Hs0 & Hl & _).
      rewrite (c_string_end _ Hs0), Hl, (strlen_c_string _ Hs0), Nat2Z.id,
        substring_all. reflexivity.
    - destruct Hok as (-> & _). reflexivity. }
  rewrite Hw.
  split; [|split; [reflexivity|split; [reflexivity|split; [reflexivity|exact Hle]]]].
  unfold regexp_list_ok. cbn [rl_regexps rl_len rl_size].
  destruct old as [s0 |]; cbn [is_some] in *.
  - destruct Hok as (Hs0 & Hl & _).
    assert (Hj : is_c_string (s0 ++ "\|" ++ pattern)).
    { apply is_c_string_append; [exact Hs0|].
      apply is_c_string_append; [reflexivity|exact Hp]. }
    split; [exact Hj|]. split; [|lia].
    rewrite (strlen_c_string _ Hj), !length_append. subst newlen two.
    rewrite Hl, Hpl, (strlen_c_string _ Hs0). cbn [String.length]. lia.
  - split; [exact Hp|]. split; [|lia].
    destruct Hok as (-> & _). subst newlen two. lia.
Qed.

(** X19.  [add_regexp] on a list that it has left itself, or on the
    empty list, and a pattern that compiles: when twice the new length
    does not exceed SIZE_MAX the loop that doubles the size ends (64
    turns are enough), the buffer holds the pattern, after the old
    contents and the two characters of the disjunction when the list
    was not empty, its [len] is the length of that string, and its
    [size] is larger, so that there is room for the final null
    character; the size never shrinks, [multiple_regexps] tells
    whether the list held a pattern before, and the list is again as
    [add_regexp] expects it. *)
Theorem add_regexp_appends re_compile_pattern reglist pattern :
  regexp_list_ok reglist ->
  is_c_string pattern ->
  re_compile_pattern pattern = None ->
  2 * (rl_len reglist + 2 + strlen pattern) <= SIZE_MAX ->
  let joined :=
    match rl_regexps reglist with
    | None => pattern
    | Some s => (s ++ "\|" ++ pattern)%string
    end in
  exists r,
    add_regexp re_compile_pattern 64 reglist pattern = ret (Some r)
    /\ rl_regexps r = Some joined
    /\ is_c_string joined
    /\ rl_len r = strlen joined
    /\ rl_len r < rl_size r <= SIZE_MAX
    /\ rl_size reglist <= rl_size r
    /\ rl_multiple_regexps r = is_some (rl_regexps reglist)
    /\ regexp_list_ok r.
Proof.
  intros Hok Hp Hc Hfit joined.
  destruct (add_regexp_step re_compile_pattern reglist pattern Hok Hp Hc Hfit)
    as (r & Hr & Hokr & Hre & _ & Hm & Hsz).
  fold joined in Hre.
  exists r. split; [exact Hr|]. split; [exact Hre|].
  pose proof Hokr as Hinv. unfold regexp_list_ok in Hinv.
  rewrite Hre in Hinv. destruct Hinv as (Hj & Hl & Hroom).
  split; [exact Hj|]. split; [exact Hl|]. split; [exact Hroom|].
  split; [exact Hsz|]. split; [exact Hm|exact Hokr].
Qed.

(** A first pattern of 3 characters: the size goes from 0 to 4. *)
Lemma add_regexp_appends_witness :
  exists r,
    add_regexp (fun _ => None) 64 no_regexp "^a$" = ret (Some r)
    /\ rl_regexps r = Some "^a$"
    /\ is_c_string "^a$"
    /\ rl_len r = strlen "^a$"
    /\ rl_len r < rl_size r <= SIZE_MAX
    /\ 0 <= rl_size r
    /\ rl_multiple_regexps r = false
    /\ regexp_list_ok r.
Proof.
  apply (add_regexp_appends (fun _ => None) no_regexp "^a$").
  - split; reflexivity.
  - reflexivity.
  - reflexivity.
  - vm_compute. discriminate.
Defined.

Lemma append_assoc (a b c : string) :
  ((a ++ b) ++ c)%string = (a ++ b ++ c)%string.
Proof. induction a as [| x a IH]; cbn; [reflexivity|]. rewrite IH. reflexivity. Qed.

Lemma join_onto_prefix sep : forall ps a q,
  fold_left (fun acc p => (acc ++ sep ++ p)%string) ps (a ++ q)%string
  = (a ++ fold_left (fun acc p => (acc ++ sep ++ p)%string) ps q)%string.
Proof.
  induction ps as [| p ps IH]; intros a q; cbn [fold_left]; [reflexivity|].
  rewrite append_assoc. apply IH.
Qed.

Lemma concat_fold_left sep : forall ps p,
  String.concat sep (p :: ps)
  = fold_left (fun acc q => (acc ++ sep ++ q)%string) ps p.
Proof.
  induction ps as [| q ps IH]; intros p; [reflexivity|].
  cbn [fold_left]. rewrite join_onto_prefix, join_onto_prefix.
  change (String.concat sep (p :: q :: ps))
    with (p ++ sep ++ String.concat sep (q :: ps))%string.
  rewrite IH. reflexivity.
Qed.

Lemma add_regexps_onto re_compile_pattern : forall ps r0 s,
  regexp_list_ok r0 ->
  rl_regexps r0 = Some s ->
  Forall is_c_string ps ->
  Forall (fun p => re_compile_pattern p = None) ps ->
  2 * (rl_len r0 + patterns_length ps) <= SIZE_MAX ->
  exists r,
    add_regexps re_compile_pattern 64 r0 ps = ret (Some r)
    /\ regexp_list_ok r
    /\ rl_regexps r
       = Some (fold_left (fun acc p => (acc ++ "\|" ++ p)%string) ps s)
    /\ (ps <> [] -> rl_multiple_regexps r = true)
    /\ rl_size r0 <= rl_size r.
Proof.
  induction ps as [| p ps IH]; intros r0 s Hok Hs Hcs Hcomp Hfit.
  - exists r0. cbn [add_regexps fold_left].
    split; [reflexivity|]. split; [exact Hok|]. split; [exact Hs|].
    split; [intros F; contradiction|lia].
  - inversion Hcs as [| p' ps' Hp Hps]; subst.
    inversion Hcomp as [| p' ps' Hc Hcomps]; subst.
    cbn [patterns_length fold_right] in Hfit.
    fold (patterns_length ps) in Hfit.
    assert (Hn : 0 <= patterns_length ps).
    { clear. induction ps as [| q ps IHq]; cbn; [lia|].
      fold (patterns_length ps). unfold strlen. lia. }
    destruct (add_regexp_step re_compile_pattern r0 p Hok Hp Hc)
      as (r1 & H1 & Hok1 & Hre1 & Hlen1 & Hm1 & Hsz1); [lia|].
    rewrite Hs in Hre1, Hlen1, Hm1. cbn [is_some] in Hlen1, Hm1.
    destruct (IH r1 _ Hok1 Hre1 Hps Hcomps) as (r & Hr & Hokr & Hrer & _ & Hszr);
      [lia|].
    exists r. cbn [add_regexps fold_left]. rewrite H1, bind_ret.
    split; [exact Hr|]. split; [exact Hokr|]. split; [exact Hrer|].
    split; [|lia]. intros _.
    destruct ps as [| q ps'].
    + cbn in Hr. inversion Hr; subst. exact Hm1.
    + destruct (IH r1 _ Hok1 Hre1 Hps Hcomps) as (r' & Hr' & _ & _ & Hm & _);
        [lia|].
      rewrite Hr in Hr'. inversion Hr'; subst. apply Hm. discriminate.
Qed.

(** X20.  The options -I (or -F) of a command line, given in turn to
    [add_regexp] from the empty list, leave in the buffer the patterns
    in their order, joined by the two characters of the disjunction of
    regular expressions (a backslash and a bar); the list keeps its
    invariant, and [multiple_regexps] is set exactly when more than one
    pattern was given.  [summarize_regexp_list] then compiles that
    string when there is more than one pattern, and ends the run when
    it does not compile; a single pattern is not compiled again.  The
    patterns compile one by one, and twice their total length (two more
    for each pattern) does not exceed SIZE_MAX. *)
Theorem add_regexps_builds_the_disjunction re_compile_pattern p ps :
  Forall is_c_string (p :: ps) ->
  Forall (fun q => re_compile_pattern q = None) (p :: ps) ->
  2 * patterns_length (p :: ps) <= SIZE_MAX ->
  exists r,
    add_regexps re_compile_pattern 64 no_regexp (p :: ps) = ret (Some r)
    /\ regexp_list_ok r
    /\ rl_regexps r = Some (String.concat "\|" (p :: ps))
    /\ rl_multiple_regexps r = negb (Nat.eqb (List.length ps) 0)
    /\ summarize_regexp_list re_compile_pattern r
       = (if Nat.eqb (List.length ps) 0 then ret tt
          else match re_compile_pattern (String.concat "\|" (p :: ps)) with
               | Some m => fatal (String.concat "\|" (p :: ps) ++ ": " ++ m)
               | None => ret tt
               end).
Proof.
  intros Hcs Hcomp Hfit.
  inversion Hcs as [| p' ps' Hp Hps]; subst.
  inversion Hcomp as [| p' ps' Hc Hcomps]; subst.
  cbn [patterns_length fold_right] in Hfit. fold (patterns_length ps) in Hfit.
  assert (Hn : 0 <= patterns_length ps).
  { clear. induction ps as [| q ps IHq]; cbn; [lia|].
    fold (patterns_length ps). unfold strlen. lia. }
  assert (Hok0 : regexp_list_ok no_regexp) by (split; reflexivity).
  destruct (add_regexp_step re_compile_pattern no_regexp p Hok0 Hp Hc)
    as (r1 & H1 & Hok1 & Hre1 & Hlen1 & Hm1 & _).
  { cbn [rl_len no_regexp]. lia. }
  cbn [rl_regexps rl_len no_regexp is_some] in Hre1, Hlen1, Hm1.
  destruct (add_regexps_onto re_compile_pattern ps r1 p Hok1 Hre1 Hps Hcomps)
    as (r & Hr & Hokr & Hrer & Hm & _); [lia|].
  rewrite <- concat_fold_left in Hrer.
  assert (Hmult : rl_multiple_regexps r = negb (Nat.eqb (List.length ps) 0)).
  { destruct ps as [| q ps'].
    - cbn in Hr. inversion Hr; subst. exact Hm1.
    - cbn. apply Hm. discriminate. }
  exists r. cbn [add_regexps]. rewrite H1, bind_ret.
  split; [exact Hr|]. split; [exact Hokr|].
  split; [exact Hrer|]. split; [exact Hmult|].
  unfold summarize_regexp_list. rewrite Hrer, Hmult.
  unfold regexp_list_ok in Hokr. rewrite Hrer in Hokr.
  destruct Hokr as (Hj & Hl & _).
  rewrite Hl, (strlen_c_string _ Hj), Nat2Z.id, substring_all,
    (c_string_end _ Hj).
  destruct (Nat.eqb (List.length ps) 0); reflexivity.
Qed.

(** [diff -I '^#' -I '^$']. *)
Lemma add_regexps_builds_the_disjunction_witness :
  exists r,
    add_regexps (fun _ => None) 64 no_regexp ["^#"; "^$"] = ret (Some r)
    /\ regexp_list_ok r
    /\ rl_regexps r = Some "^#\|^$"
    /\ rl_multiple_regexps r = true
    /\ summarize_regexp_list (fun _ => None) r = ret tt.
Proof.
  apply (add_regexps_builds_the_disjunction (fun _ => None) "^#" ["^$"]).
  - repeat constructor.
  - repeat constructor.
  - vm_compute. discriminate.
Defined.

(** ** The options as one string *)

(** X21.  [option_list] gives [xmalloc] exactly the size of what its
    second loop writes, the final null character included: one
    character for each space and, for each option, the length that
    [shell_quote_length] announces, provided this is the length of what
    [shell_quote_copy] writes and the total does not exceed SIZE_MAX.
    The string is empty when there is no option, and starts with a
    space otherwise. *)
Theorem option_list_fills_its_buffer shell_quote_length shell_quote
    optionvec count :
  (forall s, shell_quote_length s = Z.of_nat (String.length (shell_quote s))) ->
  Z.of_nat (String.length (option_list shell_quote optionvec count)) + 1
  <= SIZE_MAX ->
  option_list_size shell_quote_length optionvec count
  = Z.of_nat (String.length (option_list shell_quote optionvec count)) + 1
  /\ (firstn (Z.to_nat count) optionvec = [] ->
      option_list shell_quote optionvec count = "")
  /\ (firstn (Z.to_nat count) optionvec <> [] ->
      exists rest,
        option_list shell_quote optionvec count = String " " rest).
Proof.
  intros Hq. unfold option_list_size, option_list.
  set (opts := firstn (Z.to_nat count) optionvec). clearbody opts.
  intros Hfit.
  assert (Hgen : forall l sz result,
             sz = Z.of_nat (String.length result) + 1 ->
             Z.of_nat
               (String.length
                  (fold_left
                     (fun r opt => (r ++ " " ++ shell_quote opt)%string)
                     l result)) + 1 <= SIZE_MAX ->
             fold_left
               (fun sz opt => size_t (sz + size_t (1 + shell_quote_length opt)))
               l sz
             = Z.of_nat
                 (String.length
                    (fold_left
                       (fun r opt => (r ++ " " ++ shell_quote opt)%string)
                       l result)) + 1).
  { induction l as [| opt l IH]; intros sz result Hsz Hle; cbn [fold_left] in *.
    - exact Hsz.
    - assert (Hmono : forall l' r,
                 (String.length r
                  <= String.length
                       (fold_left
                          (fun r opt => (r ++ " " ++ shell_quote opt)%string)
                          l' r))%nat).
      { induction l' as [| o' l' IH']; intros r; cbn [fold_left]; [lia|].
        specialize (IH' (r ++ " " ++ shell_quote o')%string).
        rewrite !length_append in IH'. lia. }
      specialize (Hmono l (result ++ " " ++ shell_quote opt)%string).
      rewrite !length_append in Hmono. cbn [String.length] in Hmono.
      apply IH; [|exact Hle].
      rewrite Hq, !length_append. cbn [String.length].
      rewrite (size_t_small (1 + _)) by lia.
      rewrite size_t_small by lia. lia. }
  split; [apply Hgen; [reflexivity|exact Hfit]|].
  split.
  - intros ->. reflexivity.
  - destruct opts as [| opt l]; [contradiction|]. intros _.
    cbn [fold_left append].
    change (String " " (shell_quote opt))
      with (String " " EmptyString ++ shell_quote opt)%string.
    assert (Hpre : forall l' a b,
               fold_left (fun r o => (r ++ " " ++ shell_quote o)%string) l'
                 (a ++ b)%string
               = (a ++ fold_left
                         (fun r o => (r ++ " " ++ shell_quote o)%string) l' b)%string).
    { induction l' as [| o' l' IH']; intros a b; cbn [fold_left]; [reflexivity|].
      rewrite append_assoc. apply IH'. }
    rewrite Hpre. cbn [append]. eauto.
Qed.

(** [diff -u -w a b], with a quoting that leaves the options as they
    are. *)
Lemma option_list_fills_its_buffer_witness :
  option_list_size (fun s => Z.of_nat (String.length s))
    ["-u"; "-w"; "a"; "b"] 2
  = Z.of_nat (String.length (option_list (fun s => s) ["-u"; "-w"; "a"; "b"] 2))
    + 1.
Proof.
  refine (proj1 (option_list_fills_its_buffer
                   (fun s => Z.of_nat (String.length s)) (fun s => s)
                   ["-u"; "-w"; "a"; "b"] 2 (fun s => eq_refl) _)).
  vm_compute. discriminate.
Defined.

(** ** The defaults of the formats *)

(** X22.  The defaults of lines 723-738, for any four distinct values
    of the constants OLD, NEW, UNCHANGED and CHANGED that index the
    arrays.  Afterwards no format is a null pointer, and a format that
    an option has set is kept; the group formats of the old and of the
    new lines default to the one of the changed lines when only that
    one was given, and to "%<" and "%>" otherwise.  The value that lines
    742-744 then compute for [no_diff_means_no_output] is the one of
    the definition above, which reads the two formats of unchanged
    lines as the options left them and supplies the defaults itself. *)
Theorem format_defaults_leave_no_null concat OLD NEW UNCHANGED CHANGED
    group_format line_format :
  List.length group_format = 4%nat ->
  List.length line_format = 3%nat ->
  (OLD < 4 /\ NEW < 4 /\ UNCHANGED < 3 /\ CHANGED < 4)%nat ->
  OLD <> NEW /\ OLD <> UNCHANGED /\ OLD <> CHANGED
  /\ NEW <> UNCHANGED /\ NEW <> CHANGED /\ UNCHANGED <> CHANGED ->
  Forall (fun f => forall s, f = Some s -> is_c_string s)
    (group_format ++ line_format) ->
  let after :=
    format_defaults concat OLD NEW UNCHANGED CHANGED group_format line_format in
  all_set (fst after) /\ all_set (snd after)
  /\ keeps_what_is_set group_format (fst after)
  /\ keeps_what_is_set line_format (snd after)
  /\ (entry group_format OLD = None ->
      entry (fst after) OLD
      = Some (or_default (entry group_format CHANGED) "%<"))
  /\ (entry group_format NEW = None ->
      entry (fst after) NEW
      = Some (or_default (entry group_format CHANGED) "%>"))
  /\ ifdef_no_diff_means_no_output (entry (fst after) UNCHANGED)
       (entry (snd after) UNCHANGED)
     = Some (no_diff_means_no_output
               (ifdef_options (entry group_format UNCHANGED)
                  (entry line_format UNCHANGED))).
Proof.
  intros Hg Hl (Ho & Hn & Hu & Hc) (D1 & D2 & D3 & D4 & D5 & D6) Hcs after.
  apply Forall_app in Hcs as (Hcg & Hcl).
  (* the line formats *)
  assert (Lset : all_set (snd after)).
  { subst after. unfold format_defaults, all_set. cbn [snd].
    clear. induction line_format as [| f l IH]; cbn [map]; constructor;
      [destruct f; discriminate|exact IH]. }
  assert (Lkeep : keeps_what_is_set line_format (snd after)).
  { subst after. unfold format_defaults, keeps_what_is_set. cbn [snd].
    clear. induction line_format as [| f l IH]; cbn [map]; constructor;
      [intros s ->; reflexivity|exact IH]. }
  assert (Lun : entry (snd after) UNCHANGED
                = Some (or_default (entry line_format UNCHANGED)
                          ("%l" ++ nl)%string)).
  { subst after. unfold format_defaults, entry. cbn [snd].
    destruct line_format as [| l0 [| l1 [| l2 [| l3 ls]]]]; try discriminate.
    destruct UNCHANGED as [| [| [| UNCHANGED]]]; try lia;
      cbn [map nth]; [destruct l0|destruct l1|destruct l2]; reflexivity. }
  (* the group formats *)
  assert (G : all_set (fst after)
              /\ keeps_what_is_set group_format (fst after)
              /\ (entry group_format OLD = None ->
                  entry (fst after) OLD
                  = Some (or_default (entry group_format CHANGED) "%<"))
              /\ (entry group_format NEW = None ->
                  entry (fst after) NEW
                  = Some (or_default (entry group_format CHANGED) "%>"))
              /\ entry (fst after) UNCHANGED
                 = Some (or_default (entry group_format UNCHANGED) "%=")).
  { subst after. clear Lset Lkeep Lun Hcg Hcl Hl.
    destruct group_format as [| g0 [| g1 [| g2 [| g3 [| g4 gs]]]]];
      try discriminate.
    destruct OLD as [| [| [| [| OLD]]]]; try lia;
      destruct NEW as [| [| [| [| NEW]]]]; try lia; try congruence;
      destruct UNCHANGED as [| [| [| UNCHANGED]]]; try lia; try congruence;
      destruct CHANGED as [| [| [| [| CHANGED]]]]; try lia; try congruence.
    all: clear; destruct g0, g1, g2, g3;
      unfold format_defaults, default_entry, entry, all_set,
        keeps_what_is_set;
      cbn [nth set_entry or_default fst snd].
    all: (split;
          [repeat (apply Forall_cons || apply Forall_nil); discriminate|]).
    all: (split;
          [repeat (apply Forall2_cons || apply Forall2_nil);
           intros x E; first [exact E | discriminate E]|]).
    all: (split; [intros E; first [reflexivity | discriminate E]|]).
    all: (split; [intros E; first [reflexivity | discriminate E]|]).
    all: reflexivity. }
  destruct G as (Gset & Gkeep & Gold & Gnew & Gun).
  split; [exact Gset|]. split; [exact Lset|]. split; [exact Gkeep|].
  split; [exact Lkeep|]. split; [exact Gold|]. split; [exact Gnew|].
  rewrite Gun, Lun.
  unfold ifdef_no_diff_means_no_output, no_diff_means_no_output,
    ifdef_options.
  cbn [output_style is_OUTPUT_IFDEF group_format_UNCHANGED
       line_format_UNCHANGED].
  assert (Cg : c_string (or_default (entry group_format UNCHANGED) "%=")
               = or_default (entry group_format UNCHANGED) "%=").
  { destruct (entry group_format UNCHANGED) as [s |] eqn:E; [|reflexivity].
    cbn [or_default].
    assert (Hin : In (Some s) group_format).
    { unfold entry in E. rewrite <- E. apply nth_In. lia. }
    exact (proj1 (Forall_forall _ _) Hcg _ Hin s eq_refl). }
  assert (Cl : c_string (or_default (entry line_format UNCHANGED)
                           ("%l" ++ nl)%string)
               = or_default (entry line_format UNCHANGED) ("%l" ++ nl)%string).
  { destruct (entry line_format UNCHANGED) as [s |] eqn:E; [|reflexivity].
    cbn [or_default].
    assert (Hin : In (Some s) line_format).
    { unfold entry in E. rewrite <- E. apply nth_In. lia. }
    exact (proj1 (Forall_forall _ _) Hcl _ Hin s eq_refl). }
  rewrite Cg, Cl. reflexivity.
Qed.

(** [diff --changed-group-format=X] and nothing else. *)
Lemma format_defaults_leave_no_null_witness :
  entry
    (fst (format_defaults (fun a b c => (a ++ b ++ c)%string) 1 2 0 3
            [None; None; None; Some "X"] [None; None; None])) 1
  = Some "X".
Proof.
  refine (proj1 (proj2 (proj2 (proj2 (proj2
            (format_defaults_leave_no_null
               (fun a b c => (a ++ b ++ c)%string) 1 2 0 3
               [None; None; None; Some "X"] [None; None; None]
               eq_refl eq_refl _ _ _))))) eq_refl).
  - repeat split; lia.
  - repeat split; discriminate.
  - repeat constructor; intros s E; inversion E; reflexivity.
Defined.

(** ** The labels *)

(** X23.  The options -L of a command line: the first one labels the
    first file and the second one the second file, in the order of the
    command line, and a third one ends the run through [fatal] with
    "too many file label options". *)
Theorem labels_are_two_at_most optargs :
  label_options None None optargs
  = match optargs with
    | [] => ret (None, None)
    | [a] => ret (Some a, None)
    | [a; b] => ret (Some a, Some b)
    | _ :: _ :: _ :: _ => fatal "too many file label options"
    end.
Proof.
  destruct optargs as [| a [| b [| c rest]]]; reflexivity.
Qed.

(** ** White space *)

(** X24.  The options -b, -Z, -E and -w in any number and in any order:
    what they leave in [ignore_white_space], from 0, depends on which
    of them were given and not on their order.  -w gives
    IGNORE_ALL_SPACE; without -w, -b gives IGNORE_SPACE_CHANGE; without
    both, -Z and -E give the bits of IGNORE_TRAILING_SPACE and of
    IGNORE_TAB_EXPANSION.  The four constants have the values of
    [enum DIFF_white_space]: 1, 2, 4 and 5. *)
Theorem white_space_options_commute ITS ITE ISC IAS cs :
  ITS = 1 -> ITE = 2 -> ISC = 4 -> IAS = 5 ->
  decode_white_spaces ITS ITE ISC IAS 0 cs
  = white_space_level ITS ITE ISC IAS cs.
Proof.
  intros -> -> -> ->.
  assert (Hgen : forall (l : list white_space_option) (v : Z)
                        (z e b w : bool),
             v = (if w then 5 else if b then 4
                  else Z.lor (if z then 1 else 0) (if e then 2 else 0)) ->
             decode_white_spaces 1 2 4 5 v l
             = (if w || existsb (white_space_option_eqb option_w) l then 5
                else if b || existsb (white_space_option_eqb option_b) l then 4
                else Z.lor
                       (if z || existsb (white_space_option_eqb option_Z) l
                        then 1 else 0)
                       (if e || existsb (white_space_option_eqb option_E) l
                        then 2 else 0))).
  { induction l as [| c l IH]; intros v z e b w Hv.
    - cbn. rewrite !orb_false_r. exact Hv.
    - unfold decode_white_spaces in *. cbn [fold_left existsb].
      destruct c; cbn [white_space_option_eqb orb].
      + rewrite (IH _ z e true w).
        * cbn [orb]. rewrite ?orb_true_r. reflexivity.
        * subst v. destruct w, b, z, e; reflexivity.
      + rewrite (IH _ true e b w).
        * cbn [orb]. rewrite ?orb_true_r. reflexivity.
        * subst v. destruct w, b, z, e; reflexivity.
      + rewrite (IH _ z true b w).
        * cbn [orb]. rewrite ?orb_true_r. reflexivity.
        * subst v. destruct w, b, z, e; reflexivity.
      + rewrite (IH _ z e b true).
        * cbn [orb]. rewrite ?orb_true_r. reflexivity.
        * reflexivity. }
  unfold white_space_level. apply (Hgen cs 0 false false false false).
  reflexivity.
Qed.

(** [-Z -b -E] and [-b] alone. *)
Lemma white_space_options_commute_witness :
  decode_white_spaces 1 2 4 5 0 [option_Z; option_b; option_E] = 4.
Proof.
  apply (white_space_options_commute 1 2 4 5 [option_Z; option_b; option_E]);
    reflexivity.
Defined.

(** ** Standard input against a directory *)

(** X25.  When one operand is a directory and the other one is "-",
    both examined without error, the run ends through [fatal] with
    "cannot compare '-' to a directory": the name of the file to look
    for in the directory has been computed, and nothing has been
    reported, opened or read. *)
Theorem standard_input_against_directory w o a b c0 n t1 c1 :
  init_comparison w None (Some a) (Some b) = ([], Returned (c0, n)) ->
  stat_files w o c0 = (t1, Returned c1) ->
  let c := settle_nonexistent o c1 in
  slot_failed c false = false -> slot_failed c true = false ->
  DIR_P c false <> DIR_P c true ->
  name (file c (DIR_P c false)) = "-" ->
  compare_files w o None (Some a) (Some b)
  = (t1 ++ [ev_find_dir_file_pathname (name (file c (negb (DIR_P c false))))
              (last_component w "-")],
     Fatal "cannot compare '-' to a directory").
Proof.
  intros Hi Hs c F0 F1 Hne Hname.
  destruct (stat_files_quiet w o c0) as (t1' & c1' & Hq & _ & _ & Hp & _ & _).
  rewrite Hs in Hq. inversion Hq; subst t1' c1'; clear Hq.
  pose proof (init_comparison_parent _ _ _ _ _ _ _ Hi) as Hp0.
  destruct (settle_nonexistent_names o c1) as (Hp2 & _ & _). fold c in Hp2.
  unfold compare_files.
  replace (only_in_one_directory o (Some a) (Some b)) with false
    by reflexivity.
  unfold resolve. rewrite (bind_returned _ _ _ _ Hi). cbn [fst snd app].
  rewrite (bind_returned _ _ _ _ Hs). fold c.
  rewrite report_errors_value, F0, F1. cbn [orb].
  unfold slot_error. rewrite F0, F1. cbn [app].
  rewrite bind_pure. unfold use_file_in_directory.
  rewrite Hp2, Hp, Hp0. cbn [is_some negb andb Z.eqb EXIT_SUCCESS].
  replace (Bool.eqb (DIR_P c false) (DIR_P c true)) with false.
  2:{ symmetry. apply eqb_false_iff. exact Hne. }
  cbn [negb]. rewrite Hname. rewrite String.eqb_refl.
  rewrite bind_emit. cbn. rewrite ?app_nil_r. reflexivity.
Qed.

(** [diff - d] where [d] is a directory and standard input a pipe. *)
Lemma standard_input_against_directory_witness :
  compare_files directory_and_file plain_options None (Some "-") (Some "d")
  = ([ev_fstat_stdin; ev_gettime; ev_stat "d";
      ev_find_dir_file_pathname "d" "-"],
     Fatal "cannot compare '-' to a directory").
Proof.
  refine (standard_input_against_directory directory_and_file plain_options
            "-" "d" (operands "-" "d") "-"
            [ev_fstat_stdin; ev_gettime; ev_stat "d"]
            (mk_comparison
               (mk_file_data "-" STDIN_FILENO (fifo 60))
               (mk_file_data "d" UNOPENED (directory 61)) None)
            _ _ _ _ _ _); try reflexivity.
  discriminate.
Defined.

(** ** The context *)

Lemma decode_contexts_same_style CONTEXT_MAX unified : forall cs st,
  cx_output_style st = OUTPUT_UNSPECIFIED
  \/ cx_output_style st = style_of unified ->
  Forall (context_option_ok unified) cs ->
  decode_contexts CONTEXT_MAX st cs
  = ret (mk_context_state
           (match cs with
            | [] => cx_output_style st
            | _ => style_of unified
            end)
           (fold_left Z.max (map (context_asked CONTEXT_MAX) cs)
              (cx_context st))
           (cx_explicit_context st || existsb is_option_C_U cs)).
Proof.
  induction cs as [| c cs IH]; intros st Hst Hok.
  - cbn. rewrite orb_false_r. destruct st; reflexivity.
  - inversion Hok as [| c' cs' Hc Hcs]; subst.
    assert (Hsp : specify_style (cx_output_style st) (style_of unified)
                  = ret (style_of unified)).
    { destruct Hst as [-> | ->]; [destruct unified; reflexivity|].
      apply specify_style_same. }
    cbn [decode_contexts map fold_left existsb].
    destruct c as [u optarg numval text_left | u]; cbn [context_option_ok] in Hc.
    + destruct Hc as (-> & Harg).
      cbn [decode_context is_option_C_U context_asked].
      destruct optarg as [arg |].
      * destruct (Harg ltac:(discriminate)) as (-> & Hpos).
        replace (numval <? 0) with false
          by (symmetry; apply Z.ltb_ge; exact Hpos).
        cbn [orb]. rewrite !bind_ret, Hsp, !bind_ret.
        rewrite IH; [|right; reflexivity|exact Hcs].
        cbn [cx_output_style cx_context cx_explicit_context].
        rewrite orb_true_r. cbn [orb].
        replace (if cx_context st <? _ then _ else _)
          with (Z.max (cx_context st) (Z.min numval CONTEXT_MAX)).
        2:{ destruct (Z.ltb_spec CONTEXT_MAX numval);
              destruct (Z.ltb_spec (cx_context st) CONTEXT_MAX);
              destruct (Z.ltb_spec (cx_context st) numval); lia. }
        destruct cs; reflexivity.
      * rewrite !bind_ret, Hsp, !bind_ret.
        rewrite IH; [|right; reflexivity|exact Hcs].
        cbn [cx_output_style cx_context cx_explicit_context].
        rewrite orb_true_r. cbn [orb].
        replace (if cx_context st <? 3 then 3 else cx_context st)
          with (Z.max (cx_context st) 3)
          by (destruct (Z.ltb_spec (cx_context st) 3); lia).
        destruct cs; reflexivity.
    + subst u. cbn [decode_context is_option_C_U context_asked].
      rewrite Hsp, !bind_ret.
      rewrite IH; [|right; reflexivity|exact Hcs].
      cbn [cx_output_style cx_context cx_explicit_context orb].
      replace (if cx_context st <? 3 then 3 else cx_context st)
        with (Z.max (cx_context st) 3)
        by (destruct (Z.ltb_spec (cx_context st) 3); lia).
      destruct cs; reflexivity.
Qed.

(** X26.  The options -C, -U, -c and -u of one style (all unified, or
    all context), each with a well-formed argument, and then the
    obsolete -NUM [ocontext] (negative when there is none).  The
    context they leave is the largest one asked for, not the last one:
    each option asks for its number, CONTEXT_MAX at most, or for 3
    without a number.  -NUM then replaces a context that no -C or -U
    asked for, and otherwise only a smaller one.  The horizon is raised
    to the context, and the style is the one of the options. *)
Theorem largest_context_wins CONTEXT_MAX unified c cs show_c_function
    ocontext horizon_lines :
  Forall (context_option_ok unified) (c :: cs) ->
  let asked :=
    fold_left Z.max (map (context_asked CONTEXT_MAX) (c :: cs)) 0 in
  let explicit := existsb is_option_C_U (c :: cs) in
  let context :=
    if ocontext <? 0 then asked
    else if explicit then Z.max asked ocontext else ocontext in
  (st <- decode_contexts CONTEXT_MAX
           (mk_context_state OUTPUT_UNSPECIFIED 0 false) (c :: cs) ;;
   settle_context st show_c_function ocontext horizon_lines)
  = ret (mk_context_state (style_of unified) context explicit,
         Z.max horizon_lines context).
Proof.
  intros Hok asked explicit context.
  rewrite (decode_contexts_same_style CONTEXT_MAX unified (c :: cs));
    [|left; reflexivity|exact Hok].
  rewrite bind_ret. fold asked. cbn [cx_explicit_context orb]. fold explicit.
  unfold settle_context.
  cbn [cx_output_style cx_context cx_explicit_context].
  replace (output_style_eqb (style_of unified) OUTPUT_UNSPECIFIED) with false
    by (destruct unified; reflexivity).
  rewrite bind_ret.
  cbn [cx_output_style cx_context cx_explicit_context].
  replace (output_style_eqb (style_of unified) OUTPUT_CONTEXT
           || output_style_eqb (style_of unified) OUTPUT_UNIFIED) with true
    by (destruct unified; reflexivity).
  rewrite andb_true_r.
  assert (E : (if (0 <=? ocontext)
                  && ((asked <? ocontext)
                      || (ocontext <? asked) && negb explicit)
               then ocontext else asked) = context).
  { subst context.
    destruct (Z.ltb_spec ocontext 0), (Z.leb_spec 0 ocontext); try lia;
      cbn [andb]; [reflexivity|].
    destruct explicit; cbn [negb];
      destruct (Z.ltb_spec asked ocontext), (Z.ltb_spec ocontext asked);
      cbn [andb orb]; lia. }
  fold asked. rewrite E.
  replace (if horizon_lines <? context then context else horizon_lines)
    with (Z.max horizon_lines context)
    by (destruct (Z.ltb_spec horizon_lines context); lia).
  reflexivity.
Qed.

(** [diff -U 5 -U 2 -1]: the context is 5, with CONTEXT_MAX = 100. *)
Lemma largest_context_wins_witness :
  (st <- decode_contexts 100 (mk_context_state OUTPUT_UNSPECIFIED 0 false)
           [option_C_U true (Some "5") 5 false;
            option_C_U true (Some "2") 2 false] ;;
   settle_context st false 1 0)
  = ret (mk_context_state OUTPUT_UNIFIED 5 true, 5).
Proof.
  apply (largest_context_wins 100 true
           (option_C_U true (Some "5") 5 false)
           [option_C_U true (Some "2") 2 false] false 1 0).
  apply Forall_cons; [|apply Forall_cons; [|apply Forall_nil]];
    (split; [reflexivity|intros _; split; [reflexivity|lia]]).
Defined.
